(** * Job-Search-App: the request pipeline, embedded and checked

    A shallow embedding of the Express application: the error model, the
    [auth] and [validate] middlewares, the boundary error handler of
    [index.js], and the controllers of the user, company and job modules
    that the specification's properties talk about.

    Conventions of the embedding.
    - A MongoDB collection is a list of documents in natural (insertion)
      order; [findOne] returns the first document that matches.
    - A query condition on a path declared lowercase: true compares the
      stored value with the lower-cased query value; on any other path it
      is exact equality.
    - Everything the process obtains from a library or from its environment
      (bcrypt, jsonwebtoken, Joi, JSON.parse, Cloudinary, fresh ObjectIds) is
      a field of a [Platform]; the controllers are functions of it.
    - An id that a request supplies for a job is cast to ObjectId before
      the lookup, and a failed cast is a fault of the query; so is the
      applicant's id when an Application is saved.  Where a user or a
      company is looked up by the id of the verified token, that id is
      the stored [_id] the token was signed from.
    - Unique indexes are not modelled: the controllers' own lookups are
      what refuses a duplicate.
    - Clock readings ([Date.now()]) and the random OTP are explicit
      arguments of the controller that reads them. *)

From Stdlib Require Import String Ascii ZArith List Bool Lia.
From Stdlib Require Import DecimalString DecimalZ.
Import ListNotations.
Local Open Scope string_scope.
Local Open Scope Z_scope.

(* ------------------------------------------------------------------ *)
(** ** Error model *)

(** A native fault: what threw.  The text of its message is the
    library's own and is not part of the model. *)
Inductive Native :=
| TypeError                     (* a property read on undefined *)
| SyntaxError (text : string)   (* JSON.parse on [text] *)
| CastError                     (* Mongoose: a value its path cannot take *)
| ValidationError               (* Mongoose: a document its schema refuses *)
| BcryptError                   (* bcrypt called without data *)
| MailError                     (* the mail transport rejected the message *)
| UploadError                   (* the asset store rejected the upload *)
| FsError.                      (* fs: no such file *)

(** A failure message is a string or a list of strings; for a native
    fault it is the text the library gave that fault. *)
Inductive Message :=
| MsgText (s : string)
| MsgList (l : list string)
| MsgNative (f : Native).

(** A thrown JavaScript value as the boundary handler sees it: its
    [message] and its [statusCode], absent on native faults. *)
Record JsError := mkJsError {
  message : Message;
  statusCode : option Z
}.

(** Modelled from the spec: the class [AppError] of src/utils/error.js is
    not among the sources; section 4.1 gives it a message (string or list
    of strings) and an integer status chosen by the caller. *)
Definition AppError (m : Message) (code : Z) : JsError :=
  {| message := m; statusCode := Some code |}.

(** A native fault as a thrown value: it carries no [statusCode]. *)
Definition Fault (what : Native) : JsError :=
  {| message := MsgNative what; statusCode := None |}.

(* ------------------------------------------------------------------ *)
(** ** Documents *)

Inductive Role := User_role | Company_HR.
Inductive Status := online | offline.

Definition Role_eqb (a b : Role) : bool :=
  match a, b with
  | User_role, User_role | Company_HR, Company_HR => true
  | _, _ => false
  end.

Definition Status_eqb (a b : Status) : bool :=
  match a, b with
  | online, online | offline, offline => true
  | _, _ => false
  end.

(** A schema path without default: never set (undefined), set to null,
    or set to a value. *)
Inductive Stored (A : Type) :=
| Unset
| Null
| Value (a : A).
Arguments Unset {A}.
Arguments Null {A}.
Arguments Value {A} a.

(** DB/model/user.model.js *)
Module User.
Record t := mk {
    _id : string;
    firstName : string;
    lastName : string;
    username : string;
    email : string;
    password : string;
    recoveryEmail : string;
    DOB : string;
    mobileNumber : string;
    role : Role;
    status : Status;
    otp : Stored string;
    otpExpire : Stored Z            (* a Date, as its epoch milliseconds *)
}.
End User.

(** DB/model/company.model.js *)
Module Company.
Record t := mk {
    _id : string;
    companyName : string;
    description : string;
    industry : string;
    address : string;
    numberOfEmployees : string;
    companyEmail : string;
    companyHR : string
}.
End Company.

(** A field of a request section: a string or an array of strings. *)
Inductive JsVal :=
| VStr (s : string)
| VArr (l : list string).

Definition JsObject := list (string * JsVal).

(** Modelled from the spec: DB/model/job.model.js is not among the
    sources; section 3 and the controllers give a Job its descriptive
    fields and the owner reference [addedBy], a User id. *)
Module Job.
Record t := mk {
    _id : string;
    jobTitle : option JsVal;
    jobLocation : option JsVal;
    workingTime : option JsVal;
    seniorityLevel : option JsVal;
    jobDescription : option JsVal;
    technicalSkills : option JsVal;
    softSkills : option JsVal;
    addedBy : string
}.
End Job.

(** DB/model/application.model.js *)
Module Application.
Record t := mk {
    _id : string;
    jobId : string;
    userId : string;
    userTechSkills : list string;
    userSoftSkills : list string;
    userResume : string
}.
End Application.

(* ------------------------------------------------------------------ *)
(** ** Requests and responses *)

(** The payload [SignIn] signs, and what a token decodes to: that
    payload with the issue and expiry times jsonwebtoken adds (seconds). *)
Record Identity := mkIdentity {
  id : string;
  username : string;
  email : string;
  role : Role
}.

Record Claims := mkClaims {
  sub : Identity;
  iat : Z;
  exp : Z
}.

Record File := mkFile { path : string }.

Record Req := mkReq {
  originalUrl : string;
  token : option string;      (* req.headers.token *)
  params : JsObject;
  query : JsObject;
  body : JsObject;
  file : option File;         (* set by multer *)
  user : option Claims        (* set by auth *)
}.

(** What [populate('userId', '-_id -password -firstName -lastName
    -recoveryEmail -DOB -status')] puts in place of an application's
    [userId]: the paths of the user that the projection leaves. *)
Module Applicant.
Record t := mk {
    username : string;
    email : string;
    mobileNumber : string;
    role : Role;
    otp : Stored string;
    otpExpire : Stored Z
}.
End Applicant.

(** An application as the listing returns it: the stored document, and
    in place of its [userId] the projected user, or null when no user has
    that id. *)
Definition Populated : Type := Application.t * option Applicant.t.

Inductive Json :=
| JText (s : string)
| JTexts (l : list string)
| JNative (f : Native)        (* the message text of a native fault *)
| JNull
| JUser (u : User.t)
| JCompany (c : Company.t)
| JJob (j : Job.t)
| JApplications (l : list Populated).

Record Response := mkResponse {
  status : Z;
  json : list (string * Json)
}.

(** What a layer of the router ends with: a response was sent, [next()]
    was called, or [next(err)] was. *)
Inductive Flow :=
| Sent (r : Response)
| Next (req : Req)
| NextErr (e : JsError).

(** Property access on a plain object. *)
Fixpoint field {V} (o : list (string * V)) (k : string) : option V :=
  match o with
  | [] => None
  | (k', v) :: o' => if String.eqb k' k then Some v else field o' k
  end.

Definition str_field (o : JsObject) (k : string) : option string :=
  match field o k with
  | Some (VStr s) => Some s
  | _ => None
  end.

(** JavaScript truthiness of a possibly missing string. *)
Definition truthy (s : option string) : bool :=
  match s with
  | None => false
  | Some s => negb (String.eqb s "")
  end.

(* ------------------------------------------------------------------ *)
(** ** index.js: the boundary error handler *)

Definition json_of_message (m : Message) : Json :=
  match m with
  | MsgText s => JText s
  | MsgList l => JTexts l
  | MsgNative f => JNative f
  end.

(** [statusCode || 500] *)
Definition status_or_500 (c : option Z) : Z :=
  match c with
  | Some c => if c =? 0 then 500 else c
  | None => 500
  end.

(** [app.use((err, req, res, next) => ...)] *)
Definition errorHandler (err : JsError) : Response :=
  {| status := status_or_500 (statusCode err);
     json := [("message", json_of_message (message err))] |}.

(** [app.use('*', ...)] *)
Definition notFound (req : Req) : JsError :=
  AppError (MsgText (originalUrl req ++ " not found")) 404.

(* ------------------------------------------------------------------ *)
(** ** The world a request runs in, and the controller monad *)

Record World := mkWorld {
  users : list User.t;
  companies : list Company.t;
  jobs : list Job.t;
  applications : list Application.t;
  local_files : list string;            (* multer's upload directory *)
  outbox : list (string * string);      (* mails handed to the transporter *)
  oid_counter : nat                     (* ObjectIds drawn so far *)
}.

Definition with_users (us : list User.t) (w : World) : World :=
  mkWorld us (companies w) (jobs w) (applications w) (local_files w)
          (outbox w) (oid_counter w).

Definition with_companies (cs : list Company.t) (w : World) : World :=
  mkWorld (users w) cs (jobs w) (applications w) (local_files w)
          (outbox w) (oid_counter w).

Definition with_jobs (js : list Job.t) (w : World) : World :=
  mkWorld (users w) (companies w) js (applications w) (local_files w)
          (outbox w) (oid_counter w).

Definition with_applications (apps : list Application.t) (w : World) : World :=
  mkWorld (users w) (companies w) (jobs w) apps (local_files w)
          (outbox w) (oid_counter w).

Definition with_local_files (fs : list string) (w : World) : World :=
  mkWorld (users w) (companies w) (jobs w) (applications w) fs
          (outbox w) (oid_counter w).

Definition with_outbox (ms : list (string * string)) (w : World) : World :=
  mkWorld (users w) (companies w) (jobs w) (applications w) (local_files w)
          ms (oid_counter w).

Definition with_oid_counter (n : nat) (w : World) : World :=
  mkWorld (users w) (companies w) (jobs w) (applications w) (local_files w)
          (outbox w) n.

(** An async function body: it returns a value or throws, and may have
    changed the world by then. *)
Inductive Outcome (A : Type) :=
| Return (a : A)
| Throw (e : JsError).
Arguments Return {A} a.
Arguments Throw {A} e.

Definition M (A : Type) : Type := World -> Outcome A * World.

Definition ret {A} (a : A) : M A := fun w => (Return a, w).
Definition throw {A} (e : JsError) : M A := fun w => (Throw e, w).
Definition bind {A B} (m : M A) (k : A -> M B) : M B :=
  fun w => match m w with
           | (Return a, w') => k a w'
           | (Throw e, w') => (Throw e, w')
           end.
Definition get : M World := fun w => (Return w, w).
Definition modify (f : World -> World) : M unit := fun w => (Return tt, f w).

Notation "x <- m ;; k" := (bind m (fun x => k))
  (at level 61, m at next level, right associativity).
Notation "m ;;; k" := (bind m (fun _ => k))
  (at level 61, right associativity).

(** [if (c) throw e] *)
Definition throw_if (c : bool) (e : JsError) : M unit :=
  if c then throw e else ret tt.

(** What a controller or middleware body ends with when it does not
    throw: [res.status(..).json(..)] or [next()]. *)
Inductive Step :=
| Send (r : Response)
| CallNext (req : Req).

Definition flow_of {W} (r : Outcome Step * W) : Flow * W :=
  match r with
  | (Return (Send r), w) => (Sent r, w)
  | (Return (CallNext req), w) => (Next req, w)
  | (Throw e, w) => (NextErr e, w)
  end.

(** A layer of the router. *)
Definition Layer := Req -> World -> Flow * World.

(** Modelled from the spec: [catchAsyncError] of src/utils/error.js is not
    among the sources; section 7 makes it the uniform wrapper that hands
    any thrown or rejected fault of the wrapped operation to the error
    model, that is to [next(err)]. *)
Definition catchAsyncError (h : Req -> M Step) : Layer :=
  fun req w => flow_of (h req w).

(** Express runs a synchronous middleware under a try/catch of its own
    and forwards what it throws to [next(err)]. *)
Definition express_sync (h : Req -> Outcome Step) : Layer :=
  fun req w => flow_of (h req, w).

(** One request through the layers of its route; the catch-all of
    index.js answers when every layer called [next()], the error handler
    when one called [next(err)]. *)
Fixpoint dispatch (chain : list Layer) (req : Req) (w : World)
  : Response * World :=
  match chain with
  | [] => (errorHandler (notFound req), w)
  | l :: rest =>
      match l req w with
      | (Sent r, w') => (r, w')
      | (Next req', w') => dispatch rest req' w'
      | (NextErr e, w') => (errorHandler e, w')
      end
  end.

(* ------------------------------------------------------------------ *)
(** ** Collections *)

Section Collection.
Context {D : Type} (key : D -> string).

Definition findOne (p : D -> bool) (c : list D) : option D := find p c.

Definition findById (i : string) (c : list D) : option D :=
  find (fun d => String.eqb (key d) i) c.

(** The first document with the id is replaced. *)
Fixpoint updateById (i : string) (f : D -> D) (c : list D) : list D :=
  match c with
  | [] => []
  | d :: c' => if String.eqb (key d) i then f d :: c'
               else d :: updateById i f c'
  end.

(** The first document with the id is removed. *)
Fixpoint deleteById (i : string) (c : list D) : list D :=
  match c with
  | [] => []
  | d :: c' => if String.eqb (key d) i then c' else d :: deleteById i c'
  end.

End Collection.

(* ------------------------------------------------------------------ *)
(** ** The platform: libraries and environment *)

(** A Joi object schema: its keys in declaration order. *)
Inductive JoiType := joi_string | joi_array_of_strings.

Record KeySchema := mkKey {
  joi_type : JoiType;
  required : bool;                      (* .required() *)
  valid : list string;                  (* .valid(...), [] when not called *)
  messages : list (string * string)     (* .messages({ code: text }) *)
}.

Definition ObjectSchema := list (string * KeySchema).

(** An entry of [error.details]. *)
Record ValidationErrorItem := mkItem {
  item_message : string;
  item_path : string;
  item_type : string
}.

(** A value [JSON.parse] returns; a number is kept as its literal. *)
#[local] Unset Elimination Schemes.
Inductive JSON :=
| JSON_null
| JSON_bool (b : bool)
| JSON_number (literal : string)
| JSON_string (s : string)
| JSON_array (l : list JSON)
| JSON_object (o : list (string * JSON)).
#[local] Set Elimination Schemes.

Record Platform := mkPlatform {
  (* bcrypt *)
  hashSync : string -> Z -> string;
  compareSync : string -> string -> bool;
  (* jsonwebtoken: payload, secret, expiresIn (s), clock (s) *)
  jwt_sign : Identity -> string -> Z -> Z -> string;
  (* jsonwebtoken: token, secret, clock (s); None is the callback's err *)
  jwt_verify : string -> string -> Z -> option (Identity * Z * Z);
  (* Joi: schema.validate(value, { abortEarly }), value possibly
     undefined; None is an undefined [error] *)
  joi_validate : ObjectSchema -> option JsObject -> bool ->
                 option (list ValidationErrorItem);
  (* JSON.parse; None is a SyntaxError *)
  JSON_parse : string -> option JSON;
  (* String.prototype.toLowerCase, the setter of the schema paths
     declared lowercase: true *)
  toLowerCase : string -> string;
  (* Mongoose's cast of a string to ObjectId: the id in its canonical
     form, or None when the cast fails (CastError) *)
  castObjectId : string -> option string;
  (* Mongoose's cast and validation of a value that is not an array of
     strings at a required [String] path: the array stored, or None when
     save() is refused (ValidationError) *)
  castStringArray : JSON -> option (list string);
  (* cloudinary.uploader.upload: the secure_url, or None on error *)
  cloudinary_upload : string -> option string;
  (* transporter.sendMail: does the call resolve? *)
  sendMail : string -> string -> bool;
  (* the n-th ObjectId the driver draws *)
  ObjectId : nat -> string
}.

(** process.env *)
Record Config := mkConfig {
  JWT_SECRET : string;
  JWT_EXPIRES_IN : Z;           (* the timespan, in seconds *)
  BCRYPT_SALT_ROUNDS : Z
}.

(** What jsonwebtoken promises of a signing scheme. *)
Record JwtLaws (P : Platform) : Prop := mkJwtLaws {
  (* a token verifies under the secret it was signed with until [exp] *)
  verify_sign : forall i s e t t',
    t' < t + e ->
    jwt_verify P (jwt_sign P i s e t) s t' = Some (i, t, t + e);
  (* and under no other secret *)
  verify_other_secret : forall i s s' e t t',
    s <> s' -> jwt_verify P (jwt_sign P i s e t) s' t' = None;
  (* a token is never the empty string *)
  sign_nonempty : forall i s e t, jwt_sign P i s e t <> ""
}.

(** What Joi promises of a schema that is not itself [.required()]:
    an undefined value passes. *)
Definition JoiUndefinedPasses (P : Platform) : Prop :=
  forall s abortEarly, joi_validate P s None abortEarly = None.

(* ------------------------------------------------------------------ *)
(** ** src/modules/middlewares *)

Section Middlewares.
Variable P : Platform.

(** What [auth] attaches as [req.user]. *)
Definition decoded_claims (d : Identity * Z * Z) : Claims :=
  let '(i, t, e) := d in
  {| sub := i; iat := t; exp := e |}.

Definition set_user (c : Claims) (req : Req) : Req :=
  mkReq (originalUrl req) (token req) (params req) (query req) (body req)
        (file req) (Some c).

(** [role != undefined && decoded.role !== role] *)
Definition role_mismatch (required_role : option Role) (c : Claims) : bool :=
  match required_role with
  | None => false
  | Some r => negb (Role_eqb (role (sub c)) r)
  end.

(** auth.middlewares.js; [now] is the clock in milliseconds. *)
Definition auth_body (required_role : option Role) (now : Z) (req : Req)
  : M Step :=
  throw_if (negb (truthy (token req)))
           (AppError (MsgText "Please SignIn") 401) ;;;
  match token req with
  | None => throw (AppError (MsgText "Please SignIn") 401)
  | Some tok =>
      match jwt_verify P tok "secret" (now / 1000) with
      | None => throw (AppError (MsgText "Invalid token") 498)
      | Some d =>
          let decoded := decoded_claims d in
          throw_if (role_mismatch required_role decoded)
                   (AppError (MsgText "Not enough privileges") 403) ;;;
          ret (CallNext (set_user decoded req))
      end
  end.

Definition auth (required_role : option Role) (now : Z) : Layer :=
  catchAsyncError (auth_body required_role now).

(** The second argument of [validate]: a property name, or whatever else
    a route passes; an array is turned into a property name by joining
    its elements with commas. *)
Inductive Target :=
| Key (k : string)
| Keys (ks : list string).

Definition property_key (t : Target) : string :=
  match t with
  | Key k => k
  | Keys ks => String.concat "," ks
  end.

(** [req[key]] for the keys a route validates; any other key is taken
    as undefined. *)
Definition req_property (req : Req) (k : string) : option JsObject :=
  if String.eqb k "body" then Some (body req)
  else if String.eqb k "query" then Some (query req)
  else if String.eqb k "params" then Some (params req)
  else None.

(** The default parameter [target = 'body']. *)
Definition target_key (target : option Target) : string :=
  match target with
  | Some t => property_key t
  | None => "body"
  end.

(** validate.middleware.js *)
Definition validate_body (schema : ObjectSchema) (target : option Target)
                         (req : Req) : Outcome Step :=
  match joi_validate P schema (req_property req (target_key target)) false with
  | Some details =>
      Throw (AppError (MsgList (map item_message details)) 400)
  | None => Return (CallNext req)
  end.

Definition validate (schema : ObjectSchema) (target : option Target) : Layer :=
  express_sync (validate_body schema target).

End Middlewares.

(* ------------------------------------------------------------------ *)
(** ** src/modules/user/user.controller.js *)

(** Truthiness of a query result: a document or null. *)
Definition found {D} (o : option D) : bool :=
  match o with
  | Some _ => true
  | None => false
  end.

(** [`${x}`] of a possibly undefined string. *)
Definition interpolate (o : option string) : string :=
  match o with
  | Some s => s
  | None => "undefined"
  end.

(** A query condition [{ path: v }] with [v] possibly undefined: an
    undefined value selects no document. *)
Definition matches (v : option string) (stored : string) : bool :=
  match v with
  | Some s => String.eqb stored s
  | None => false
  end.

(** The same condition on a path declared lowercase: true (email,
    recoveryEmail): Mongoose runs the setter on the query value too. *)
Definition matches_lower (lower : string -> string) (v : option string)
                         (stored : string) : bool :=
  match v with
  | Some s => String.eqb stored (lower s)
  | None => false
  end.

(** [stored === v] *)
Definition strict_eq (stored : string) (v : option string) : bool :=
  matches v stored.

Definition role_of_string (s : string) : option Role :=
  if String.eqb s "User" then Some User_role
  else if String.eqb s "Company_HR" then Some Company_HR
  else None.

(** [String(n)] of an integer. *)
Definition to_string (n : Z) : string := NilZero.string_of_int (Z.to_int n).

(** [user.otp !== otp] *)
Definition otp_differs (stored : Stored string) (submitted : option string)
  : bool :=
  match stored, submitted with
  | Unset, None => false
  | Value a, Some b => negb (String.eqb a b)
  | _, _ => true
  end.

(** [Date.now() > user.otpExpire]: null counts as 0, undefined compares
    false. *)
Definition after (now : Z) (expire : Stored Z) : bool :=
  match expire with
  | Unset => false
  | Null => 0 <? now
  | Value t => t <? now
  end.

Section UserController.
Variable P : Platform.
Variable cfg : Config.

(** The next ObjectId. *)
Definition fresh_id : M string :=
  fun w => (Return (ObjectId P (oid_counter w)),
            with_oid_counter (S (oid_counter w)) w).

(** [req.user.id]; a TypeError when [auth] did not run. *)
Definition req_user_id (req : Req) : M string :=
  match user req with
  | Some c => ret (id (sub c))
  | None => throw (Fault TypeError)
  end.

(** [bcrypt.hashSync(data, rounds)]; it throws on undefined data. *)
Definition hash (data : option string) (rounds : Z) : M string :=
  match data with
  | Some d => ret (hashSync P d rounds)
  | None => throw (Fault BcryptError)
  end.

(** [bcrypt.compareSync(data, encrypted)]; it throws on undefined data. *)
Definition compare (data : option string) (encrypted : string) : M bool :=
  match data with
  | Some d => ret (compareSync P d encrypted)
  | None => throw (Fault BcryptError)
  end.

(** [User.create]: the schema's required paths and the role enum are
    validated, the setters of the lowercase paths (username, email,
    recoveryEmail) run, the defaults are filled in, the document is
    appended. *)
Definition User_create (firstName lastName email password DOB mobileNumber
                        recoveryEmail : option string)
                       (role : string) (username : string) : M unit :=
  match firstName, lastName, email, password, DOB, mobileNumber,
        recoveryEmail, role_of_string role with
  | Some fn, Some ln, Some em, Some pw, Some dob, Some mob, Some rec, Some r =>
      i <- fresh_id ;;
      modify (fun w =>
        with_users (users w ++
          [User.mk i fn ln (toLowerCase P username) (toLowerCase P em) pw
                   (toLowerCase P rec) dob mob r offline Unset Unset]) w)
  | _, _, _, _, _, _, _, _ => throw (Fault ValidationError)
  end.

Definition signUp_body (req : Req) : M Step :=
  let b := body req in
  let firstName := str_field b "firstName" in
  let lastName := str_field b "lastName" in
  let email := str_field b "email" in
  let password := str_field b "password" in
  let DOB := str_field b "DOB" in
  let mobileNumber := str_field b "mobileNumber" in
  let recoveryEmail := str_field b "recoveryEmail" in
  let username := interpolate firstName ++ interpolate lastName in
  let role := if truthy (str_field b "role")
              then interpolate (str_field b "role") else "User" in
  w <- get ;;
  let user := findOne (fun u => matches_lower (toLowerCase P) email (User.email u)
                             || matches mobileNumber (User.mobileNumber u))
                      (users w) in
  throw_if (found user)
           (AppError (MsgText "Email already exists") 400) ;;;
  hashedPassword <- hash password (BCRYPT_SALT_ROUNDS cfg) ;;
  User_create firstName lastName email (Some hashedPassword) DOB mobileNumber
              recoveryEmail role username ;;;
  ret (Send {| status := 201;
               json := [("message", JText "signup successfully")] |}).

Definition signUp : Layer := catchAsyncError signUp_body.

(** The first document that satisfies [p] is replaced. *)
Fixpoint updateOne {D} (p : D -> bool) (f : D -> D) (c : list D) : list D :=
  match c with
  | [] => []
  | d :: c' => if p d then f d :: c' else d :: updateOne p f c'
  end.

Definition set_status (s : Status) (u : User.t) : User.t :=
  User.mk (User._id u) (User.firstName u) (User.lastName u) (User.username u)
          (User.email u) (User.password u) (User.recoveryEmail u) (User.DOB u)
          (User.mobileNumber u) (User.role u) s (User.otp u) (User.otpExpire u).

Definition identity_of (u : User.t) : Identity :=
  {| id := User._id u; username := User.username u;
     email := User.email u; role := User.role u |}.

(** [now] is the clock in milliseconds. *)
Definition SignIn_body (now : Z) (req : Req) : M Step :=
  let b := body req in
  let emailOrRecoveryEmailOrMobile := str_field b "emailOrRecoveryEmailOrMobile" in
  let password := str_field b "password" in
  let filter := fun u =>
    matches_lower (toLowerCase P) emailOrRecoveryEmailOrMobile (User.email u)
    || matches emailOrRecoveryEmailOrMobile (User.mobileNumber u)
    || matches_lower (toLowerCase P) emailOrRecoveryEmailOrMobile
                     (User.recoveryEmail u) in
  w <- get ;;
  match findOne filter (users w) with
  | None => throw (AppError (MsgText "Incorrect password or email") 400)
  | Some user =>
      ok <- compare password (User.password user) ;;
      throw_if (negb ok) (AppError (MsgText "Incorrect password or email") 400) ;;;
      modify (fun w => with_users (updateOne filter (set_status online) (users w)) w) ;;;
      let token := jwt_sign P (identity_of user) (JWT_SECRET cfg)
                            (JWT_EXPIRES_IN cfg) (now / 1000) in
      ret (Send {| status := 200;
                   json := [("message", JText "SignIn successfully");
                            ("token", JText token)] |})
  end.

Definition SignIn (now : Z) : Layer := catchAsyncError (SignIn_body now).

(** An update document: a path whose value is undefined is left as it
    is. *)
Definition upd {A} (v : option A) (old : A) : A :=
  match v with
  | Some a => a
  | None => old
  end.

(** The setter of a lowercase path, run on the update document. *)
Definition lowered (v : option string) : option string :=
  option_map (toLowerCase P) v.

Definition apply_account_updates
  (email mobileNumber recoveryEmail DOB lastName firstName : option string)
  (u : User.t) : User.t :=
  User.mk (User._id u) (upd firstName (User.firstName u))
          (upd lastName (User.lastName u)) (User.username u)
          (upd (lowered email) (User.email u)) (User.password u)
          (upd (lowered recoveryEmail) (User.recoveryEmail u))
          (upd DOB (User.DOB u))
          (upd mobileNumber (User.mobileNumber u)) (User.role u)
          (User.status u) (User.otp u) (User.otpExpire u).

Definition updateAccount_body (req : Req) : M Step :=
  let b := body req in
  let email := str_field b "email" in
  let mobileNumber := str_field b "mobileNumber" in
  let recoveryEmail := str_field b "recoveryEmail" in
  let DOB := str_field b "DOB" in
  let lastName := str_field b "lastName" in
  let firstName := str_field b "firstName" in
  uid <- req_user_id req ;;
  w <- get ;;
  match findById User._id uid (users w) with
  | None => throw (AppError (MsgText "Please SignUp") 401)
  | Some x =>
      throw_if (Status_eqb (User.status x) offline)
               (AppError (MsgText "LogIn first") 401) ;;;
      let existingUser :=
        findOne (fun u => (matches_lower (toLowerCase P) email (User.email u)
                           || matches mobileNumber (User.mobileNumber u))
                          && negb (String.eqb (User._id u) uid))
                (users w) in
      match existingUser with
      | Some e =>
          throw_if (strict_eq (User.email e) email)
                   (AppError (MsgText "Email already in use") 409) ;;;
          throw_if (strict_eq (User.mobileNumber e) mobileNumber)
                   (AppError (MsgText "Mobile number already in use") 409)
      | None => ret tt
      end ;;;
      modify (fun w => with_users
        (updateById User._id uid
           (apply_account_updates email mobileNumber recoveryEmail DOB
                                  lastName firstName) (users w)) w) ;;;
      w' <- get ;;
      let user := findById User._id uid (users w') in
      ret (Send {| status := 200;
                   json := [("message", JText "Account updated successfully");
                            ("user", match user with
                                     | Some u => JUser u
                                     | None => JNull
                                     end)] |})
  end.

Definition updateAccount : Layer := catchAsyncError updateAccount_body.

Definition deleteAccount_body (req : Req) : M Step :=
  uid <- req_user_id req ;;
  w <- get ;;
  match findById User._id uid (users w) with
  | None => throw (AppError (MsgText "Please SignUp") 401)
  | Some x =>
      throw_if (Status_eqb (User.status x) offline)
               (AppError (MsgText "LogIn first") 401) ;;;
      let user := findById User._id uid (users w) in
      modify (fun w => with_users (deleteById User._id uid (users w)) w) ;;;
      ret (Send {| status := 200;
                   json := [("message", JText "Account deleted successfully");
                            ("user", match user with
                                     | Some u => JUser u
                                     | None => JNull
                                     end)] |})
  end.

Definition deleteAccount : Layer := catchAsyncError deleteAccount_body.

Definition getUserData_body (req : Req) : M Step :=
  uid <- req_user_id req ;;
  w <- get ;;
  match findById User._id uid (users w) with
  | None => throw (AppError (MsgText "Please SignUp") 401)
  | Some user =>
      throw_if (Status_eqb (User.status user) offline)
               (AppError (MsgText "LogIn first") 401) ;;;
      ret (Send {| status := 200;
                   json := [("message", JText "Success");
                            ("user", JUser user)] |})
  end.

Definition getUserData : Layer := catchAsyncError getUserData_body.

Definition set_otp (otp : Stored string) (otpExpire : Stored Z) (u : User.t)
  : User.t :=
  User.mk (User._id u) (User.firstName u) (User.lastName u) (User.username u)
          (User.email u) (User.password u) (User.recoveryEmail u) (User.DOB u)
          (User.mobileNumber u) (User.role u) (User.status u) otp otpExpire.

Definition set_password_clear_otp (hashed : string) (u : User.t) : User.t :=
  User.mk (User._id u) (User.firstName u) (User.lastName u) (User.username u)
          (User.email u) hashed (User.recoveryEmail u) (User.DOB u)
          (User.mobileNumber u) (User.role u) (User.status u) Null Null.

(** [now] is [Date.now()]; [code] is the integer
    [Math.floor(100000 + Math.random() * 900000)]. *)
Definition forgetPassword_body (now : Z) (code : Z) (req : Req) : M Step :=
  let emailOrMobile := str_field (body req) "emailOrMobile" in
  w <- get ;;
  match findOne (fun u => matches_lower (toLowerCase P) emailOrMobile
                                        (User.email u)
                       || matches emailOrMobile (User.mobileNumber u))
                (users w) with
  | None => throw (AppError (MsgText "Incorrect email or mobile number") 400)
  | Some user =>
      let otp := code in
      let otpExpire := now + 10 * 60 * 1000 in
      (* the schema stores the number as a String, the time as a Date *)
      modify (fun w => with_users
        (updateById User._id (User._id user)
           (set_otp (Value (to_string otp)) (Value otpExpire)) (users w)) w) ;;;
      throw_if (negb (sendMail P (User.recoveryEmail user) (to_string otp)))
               (Fault MailError) ;;;
      modify (fun w => with_outbox
        (outbox w ++ [(User.recoveryEmail user, to_string otp)]) w) ;;;
      ret (Send {| status := 201;
                   json := [("message", JText "OTP has been sent successfully")] |})
  end.

Definition forgetPassword (now code : Z) : Layer :=
  catchAsyncError (forgetPassword_body now code).

(** [now] is [Date.now()]. *)
Definition verifyOTPAndSetNewPassword_body (now : Z) (req : Req) : M Step :=
  let b := body req in
  let emailOrMobile := str_field b "emailOrMobile" in
  let otp := str_field b "otp" in
  let newPassword := str_field b "newPassword" in
  w <- get ;;
  match findOne (fun u => matches_lower (toLowerCase P) emailOrMobile
                                        (User.email u)
                       || matches emailOrMobile (User.mobileNumber u))
                (users w) with
  | None => throw (AppError (MsgText "Invalid email or OTP") 400)
  | Some user =>
      throw_if (otp_differs (User.otp user) otp)
               (AppError (MsgText "Invalid email or OTP") 400) ;;;
      throw_if (after now (User.otpExpire user))
               (AppError (MsgText "OTP expired") 400) ;;;
      hashedPassword <- hash newPassword 8 ;;
      modify (fun w => with_users
        (updateById User._id (User._id user)
           (set_password_clear_otp hashedPassword) (users w)) w) ;;;
      ret (Send {| status := 200;
                   json := [("message", JText "Password updated successfully")] |})
  end.

Definition verifyOTPAndSetNewPassword (now : Z) : Layer :=
  catchAsyncError (verifyOTPAndSetNewPassword_body now).

End UserController.

(* ------------------------------------------------------------------ *)
(** ** Queries on jobs and applications *)

Section JobQueries.
Variable P : Platform.

(** [Job.findById(id)] with the id a request supplied: the string is
    cast to ObjectId first, and a string that cannot be cast makes the
    query throw; [findById(undefined)] finds nothing. *)
Definition Job_findById (v : option string) : M (option Job.t) :=
  match v with
  | None => ret None
  | Some i =>
      match castObjectId P i with
      | Some oid => w <- get ;; ret (findById Job._id oid (jobs w))
      | None => throw (Fault CastError)
      end
  end.

(** [Job.findById({ _id: id })]: the same cast on the [_id] of the
    object; with [id] undefined the object itself cannot be cast. *)
Definition Job_findById_object (v : option string) : M (option Job.t) :=
  match v with
  | None => throw (Fault CastError)
  | Some i => Job_findById (Some i)
  end.

(** The projection of [populate('userId', '-_id -password -firstName
    -lastName -recoveryEmail -DOB -status')]. *)
Definition project_applicant (u : User.t) : Applicant.t :=
  Applicant.mk (User.username u) (User.email u) (User.mobileNumber u)
               (User.role u) (User.otp u) (User.otpExpire u).

(** [.populate('userId', ...)] on one application: the user with that
    id, projected, or null. *)
Definition populate_userId (us : list User.t) (a : Application.t) : Populated :=
  (a, option_map project_applicant
        (findById User._id (Application.userId a) us)).

End JobQueries.

(* ------------------------------------------------------------------ *)
(** ** src/modules/company/company.controller.js *)

Section CompanyController.
Variable P : Platform.

(** [Company.create]: the schema's required paths are validated, the
    document appended. *)
Definition Company_create (companyName description industry address
                           numberOfEmployees companyEmail companyHR
                           : option string) : M unit :=
  match companyName, description, industry, address, numberOfEmployees,
        companyEmail, companyHR with
  | Some n, Some d, Some i, Some a, Some ne, Some e, Some hr =>
      oid <- fresh_id P ;;
      modify (fun w =>
        with_companies (companies w ++ [Company.mk oid n d i a ne e hr]) w)
  | _, _, _, _, _, _, _ => throw (Fault ValidationError)
  end.

Definition addCompany_body (req : Req) : M Step :=
  let b := body req in
  let companyName := str_field b "companyName" in
  let description := str_field b "description" in
  let industry := str_field b "industry" in
  let address := str_field b "address" in
  let numberOfEmployees := str_field b "numberOfEmployees" in
  let companyEmail := str_field b "companyEmail" in
  let companyHR := str_field b "companyHR" in
  w <- get ;;
  let company := findOne (fun c => matches companyName (Company.companyName c)
                                || matches companyEmail (Company.companyEmail c))
                         (companies w) in
  throw_if (found company)
           (AppError (MsgText "Company already exists") 400) ;;;
  Company_create companyName description industry address numberOfEmployees
                 companyEmail companyHR ;;;
  ret (Send {| status := 201;
               json := [("message", JText "Company added successfully")] |}).

Definition addCompany : Layer := catchAsyncError addCompany_body.

Definition apply_company_updates
  (companyName description industry address numberOfEmployees companyEmail
   companyHR : option string) (c : Company.t) : Company.t :=
  Company.mk (Company._id c) (upd companyName (Company.companyName c))
             (upd description (Company.description c))
             (upd industry (Company.industry c))
             (upd address (Company.address c))
             (upd numberOfEmployees (Company.numberOfEmployees c))
             (upd companyEmail (Company.companyEmail c))
             (upd companyHR (Company.companyHR c)).

Definition updateCompanyData_body (req : Req) : M Step :=
  let b := body req in
  let companyName := str_field b "companyName" in
  let description := str_field b "description" in
  let industry := str_field b "industry" in
  let address := str_field b "address" in
  let numberOfEmployees := str_field b "numberOfEmployees" in
  let companyEmail := str_field b "companyEmail" in
  let companyHR := str_field b "companyHR" in
  uid <- req_user_id req ;;
  w <- get ;;
  match findOne (fun c => String.eqb (Company.companyHR c) uid) (companies w) with
  | None => throw (AppError (MsgText "Only the company owner can update the data") 403)
  | Some c =>
      let existingCompany :=
        findOne (fun c' => (matches companyName (Company.companyName c')
                            || matches companyEmail (Company.companyEmail c'))
                           && negb (String.eqb (Company._id c') (Company._id c)))
                (companies w) in
      match existingCompany with
      | Some e =>
          throw_if (strict_eq (Company.companyEmail e) companyEmail)
                   (AppError (MsgText "Email already in use") 409) ;;;
          throw_if (strict_eq (Company.companyName e) companyName)
                   (AppError (MsgText "Company name already in use") 409)
      | None => ret tt
      end ;;;
      modify (fun w => with_companies
        (updateById Company._id (Company._id c)
           (apply_company_updates companyName description industry address
                                  numberOfEmployees companyEmail companyHR)
           (companies w)) w) ;;;
      w' <- get ;;
      let company := findById Company._id (Company._id c) (companies w') in
      ret (Send {| status := 200;
                   json := [("message", JText "Company data updated successfully");
                            ("company", match company with
                                        | Some c => JCompany c
                                        | None => JNull
                                        end)] |})
  end.

Definition updateCompanyData : Layer := catchAsyncError updateCompanyData_body.

Definition getAllApplicationsForSpecificJob_body (req : Req) : M Step :=
  let id := str_field (params req) "id" in
  job <- Job_findById P id ;;
  match job with
  | None => throw (AppError (MsgText "Job not found") 404)
  | Some job =>
      uid <- req_user_id req ;;
      throw_if (negb (String.eqb (Job.addedBy job) uid))
               (AppError (MsgText
                  "Only the owner can view the applications for their jobs") 498) ;;;
      w <- get ;;
      let applications :=
        map (populate_userId (users w))
            (filter (fun a => String.eqb (Application.jobId a) (Job._id job))
                    (applications w)) in
      ret (Send {| status := 200;
                   json := [("applications", JApplications applications)] |})
  end.

Definition getAllApplicationsForSpecificJob : Layer :=
  catchAsyncError getAllApplicationsForSpecificJob_body.

End CompanyController.

(* ------------------------------------------------------------------ *)
(** ** src/modules/job/job.controller.js *)

Section JobController.
Variable P : Platform.

Definition apply_job_updates (b : JsObject) (owner : string) (j : Job.t)
  : Job.t :=
  Job.mk (Job._id j)
         (match field b "jobTitle" with Some v => Some v | None => Job.jobTitle j end)
         (match field b "jobLocation" with Some v => Some v | None => Job.jobLocation j end)
         (match field b "workingTime" with Some v => Some v | None => Job.workingTime j end)
         (match field b "seniorityLevel" with Some v => Some v | None => Job.seniorityLevel j end)
         (match field b "jobDescription" with Some v => Some v | None => Job.jobDescription j end)
         (match field b "technicalSkills" with Some v => Some v | None => Job.technicalSkills j end)
         (match field b "softSkills" with Some v => Some v | None => Job.softSkills j end)
         owner.

Definition updateJob_body (req : Req) : M Step :=
  let id := str_field (params req) "id" in
  j <- Job_findById_object P id ;;
  match j with
  | None => throw (AppError (MsgText "Job not found") 404)
  | Some j =>
      uid <- req_user_id req ;;
      throw_if (negb (String.eqb (Job.addedBy j) uid))
               (AppError (MsgText "Only the company owner can update the data") 403) ;;;
      modify (fun w => with_jobs
        (updateById Job._id (Job._id j) (apply_job_updates (body req) uid)
                    (jobs w)) w) ;;;
      w' <- get ;;
      let job := findById Job._id (Job._id j) (jobs w') in
      ret (Send {| status := 200;
                   json := [("message", JText "Job data updated successfully");
                            ("job", match job with
                                    | Some j => JJob j
                                    | None => JNull
                                    end)] |})
  end.

Definition updateJob : Layer := catchAsyncError updateJob_body.

Definition deleteJob_body (req : Req) : M Step :=
  let id := str_field (params req) "id" in
  j <- Job_findById_object P id ;;
  match j with
  | None => throw (AppError (MsgText "Job not found") 404)
  | Some j =>
      uid <- req_user_id req ;;
      throw_if (negb (String.eqb (Job.addedBy j) uid))
               (AppError (MsgText "Only the company owner can delete the data") 403) ;;;
      w <- get ;;
      let job := findById Job._id (Job._id j) (jobs w) in
      modify (fun w => with_jobs (deleteById Job._id (Job._id j) (jobs w)) w) ;;;
      ret (Send {| status := 200;
                   json := [("message", JText "Job data deleted successfully");
                            ("job", match job with
                                    | Some j => JJob j
                                    | None => JNull
                                    end)] |})
  end.

Definition deleteJob : Layer := catchAsyncError deleteJob_body.

(** [String(v)] of a body field: what [JSON.parse] turns its argument
    into before it reads it. *)
Definition text_of (v : option JsVal) : string :=
  match v with
  | None => "undefined"
  | Some (VStr s) => s
  | Some (VArr l) => String.concat "," l
  end.

(** [JSON.parse(req.body[key])]: any JSON value, or a SyntaxError. *)
Definition parse_skills (v : option JsVal) : M JSON :=
  match JSON_parse P (text_of v) with
  | Some j => ret j
  | None => throw (Fault (SyntaxError (text_of v)))
  end.

(** The elements of an array whose elements are all strings. *)
Fixpoint strings_of (l : list JSON) : option (list string) :=
  match l with
  | [] => Some []
  | JSON_string s :: l' => option_map (cons s) (strings_of l')
  | _ :: _ => None
  end.

(** What a required [String] path stores for a decoded value: an array
    of strings as it is (empty or not); for any other value, what
    Mongoose's cast makes of it, if it accepts it. *)
Definition stored_skills (v : JSON) : option (list string) :=
  match v with
  | JSON_array l =>
      match strings_of l with
      | Some ss => Some ss
      | None => castStringArray P v
      end
  | _ => castStringArray P v
  end.

(** [new Application({...})] then [newApplication.save()]: the
    applicant's id is cast to ObjectId, the document is validated (the
    cast, both skill paths, and the required, hence non-empty,
    [userResume]) and appended, or the save is refused. *)
Definition Application_save (oid jobId userId : string)
           (userTechSkills userSoftSkills : JSON) (userResume : string)
  : M unit :=
  match castObjectId P userId,
        stored_skills userTechSkills, stored_skills userSoftSkills with
  | Some uid, Some techs, Some softs =>
      if String.eqb userResume ""
      then throw (Fault ValidationError)
      else modify (fun w => with_applications
             (applications w ++
                [Application.mk oid jobId uid techs softs userResume]) w)
  | _, _, _ => throw (Fault ValidationError)
  end.

(** [uploadFileToCloudinary(filePath)] *)
Definition uploadFileToCloudinary (filePath : string) : M string :=
  match cloudinary_upload P filePath with
  | Some secure_url => ret secure_url
  | None => throw (Fault UploadError)
  end.

(** [fs.unlinkSync(path)] *)
Definition unlinkSync (p : string) : M unit :=
  w <- get ;;
  if existsb (String.eqb p) (local_files w)
  then modify (fun w => with_local_files
                 (filter (fun q => negb (String.eqb q p)) (local_files w)) w)
  else throw (Fault FsError).

Definition applyToJob_body (req : Req) : M Step :=
  userTechSkills <- parse_skills (field (body req) "userTechSkills") ;;
  userSoftSkills <- parse_skills (field (body req) "userSoftSkills") ;;
  let jobId := str_field (body req) "jobId" in
  job <- Job_findById P jobId ;;
  match job with
  | None => throw (AppError (MsgText "Job not found") 404)
  | Some job =>
      match file req with
      | None =>
          ret (Send {| status := 400;
                       json := [("message", JText "Resume file is required")] |})
      | Some f =>
          fileUrl <- uploadFileToCloudinary (path f) ;;
          uid <- req_user_id req ;;
          oid <- fresh_id P ;;
          Application_save oid (Job._id job) uid userTechSkills
                           userSoftSkills fileUrl ;;;
          unlinkSync (path f) ;;;
          ret (Send {| status := 201;
                       json := [("message",
                                 JText "Application submitted successfully")] |})
      end
  end.

Definition applyToJob : Layer := catchAsyncError applyToJob_body.

End JobController.

(* ------------------------------------------------------------------ *)
(** ** src/modules/job/job.validations.js *)

Definition string_key : KeySchema := mkKey joi_string false [] [].
Definition required_string_key : KeySchema := mkKey joi_string true [] [].

Definition addJobSchema : ObjectSchema :=
  [ ("jobTitle", mkKey joi_string true []
       [("string.empty", "Job title is required")]);
    ("jobLocation", mkKey joi_string true ["onsite"; "remotely"; "hybrid"]
       [("any.only", "Job location must be one of onsite, remotely, hybrid");
        ("string.empty", "Job location is required")]);
    ("workingTime", mkKey joi_string true ["part-time"; "full-time"]
       [("any.only", "Working time must be one of part-time, full-time");
        ("string.empty", "Working time is required")]);
    ("seniorityLevel",
     mkKey joi_string true ["Junior"; "Mid-Level"; "Senior"; "Team-Lead"; "CTO"]
       [("any.only",
         "Seniority level must be one of Junior, Mid-Level, Senior, Team-Lead, CTO");
        ("string.empty", "Seniority level is required")]);
    ("jobDescription", mkKey joi_string true []
       [("string.empty", "Job description is required")]);
    ("technicalSkills", mkKey joi_array_of_strings true []
       [("array.base", "Technical skills must be an array of strings");
        ("array.includesRequiredUnknowns", "Technical skills cannot be empty")]);
    ("softSkills", mkKey joi_array_of_strings true []
       [("array.base", "Soft skills must be an array of strings");
        ("array.includesRequiredUnknowns", "Soft skills cannot be empty")]) ].

Definition updateJobSchema : ObjectSchema :=
  [ ("jobTitle", string_key);
    ("jobLocation", mkKey joi_string false ["onsite"; "remotely"; "hybrid"]
       [("any.only", "Job location must be one of onsite, remotely, hybrid")]);
    ("workingTime", mkKey joi_string false ["part-time"; "full-time"]
       [("any.only", "Working time must be one of part-time, full-time")]);
    ("seniorityLevel",
     mkKey joi_string false ["Junior"; "Mid-Level"; "Senior"; "Team-Lead"; "CTO"]
       [("any.only",
         "Seniority level must be one of Junior, Mid-Level, Senior, Team-Lead, CTO")]);
    ("jobDescription", string_key);
    ("technicalSkills", mkKey joi_array_of_strings false []
       [("array.base", "Technical skills must be an array of strings")]);
    ("softSkills", mkKey joi_array_of_strings false []
       [("array.base", "Soft skills must be an array of strings")]) ].

Definition deleteJobSchema : ObjectSchema :=
  [ ("id", mkKey joi_string true []
       [("string.empty", "params.id (user ID) is required")]) ].

Definition applyJobSchema : ObjectSchema :=
  [ ("jobId", required_string_key);
    ("userTechSkills", required_string_key);
    ("userSoftSkills", required_string_key) ].

(** user.validations.js *)
Definition signInSchema : ObjectSchema :=
  [ ("emailOrRecoveryEmailOrMobile", required_string_key);
    ("password", required_string_key) ].

(* ------------------------------------------------------------------ *)
(** ** The routers *)

Section Routes.
Variable P : Platform.
Variable cfg : Config.

(** A route: the layers mounted on its path, in order.  [now] is the
    clock reading of the request. *)

(** user.routes.js *)
Definition route_SignIn (now : Z) : list Layer :=
  [validate P signInSchema None; SignIn P cfg now].

Definition route_deleteAccount (now : Z) : list Layer :=
  [auth P None now; deleteAccount].

Definition route_getUserData (now : Z) : list Layer :=
  [auth P None now; getUserData].

(** company.routes.js *)
Definition route_getAllApplicationsForSpecificJob (now : Z) : list Layer :=
  [auth P (Some Company_HR) now; getAllApplicationsForSpecificJob P].

(** job.routes.js *)
Definition route_updateJob (now : Z) : list Layer :=
  [auth P (Some Company_HR) now;
   validate P updateJobSchema (Some (Keys ["params"; "body"]));
   updateJob P].

Definition route_deleteJob (now : Z) : list Layer :=
  [auth P (Some Company_HR) now;
   validate P deleteJobSchema (Some (Key "params"));
   deleteJob P].

End Routes.

(* ------------------------------------------------------------------ *)
(** ** A reference platform

    One concrete platform, to run the controllers on: a validation
    engine for the rules the schemas above use, a decoder for a fragment
    of JSON, the casts of Mongoose on ASCII text, and a signing scheme
    that meets [JwtLaws] (it makes no attempt at secrecy). *)

Module MiniJoi.

Definition quote : string := String (ascii_of_nat 34) EmptyString.
Definition label (k : string) : string := quote ++ k ++ quote.

Fixpoint lookup (code : string) (ms : list (string * string)) : option string :=
  match ms with
  | [] => None
  | (c, t) :: ms' => if String.eqb c code then Some t else lookup code ms'
  end.

Definition default_text (code k : string) (ks : KeySchema) : string :=
  if String.eqb code "any.required" then label k ++ " is required"
  else if String.eqb code "any.only"
       then label k ++ " must be one of [" ++ String.concat ", " (valid ks) ++ "]"
  else if String.eqb code "string.empty"
       then label k ++ " is not allowed to be empty"
  else if String.eqb code "string.base" then label k ++ " must be a string"
  else if String.eqb code "array.base" then label k ++ " must be an array"
  else label k ++ " is not allowed".

Definition report (code k : string) (ks : KeySchema) : ValidationErrorItem :=
  mkItem (match lookup code (messages ks) with
          | Some t => t
          | None => default_text code k ks
          end) k code.

Definition allowed (ks : KeySchema) (v : JsVal) : bool :=
  match v with
  | VStr s => existsb (String.eqb s) (valid ks)
  | VArr _ => false
  end.

Definition base_errors (k : string) (ks : KeySchema) (v : JsVal)
  : list ValidationErrorItem :=
  match joi_type ks, v with
  | joi_string, VStr s =>
      if String.eqb s "" then [report "string.empty" k ks] else []
  | joi_string, VArr _ => [report "string.base" k ks]
  | joi_array_of_strings, VArr _ => []
  | joi_array_of_strings, VStr _ => [report "array.base" k ks]
  end.

(** One key: presence, then the allow-list, then the base type. *)
Definition check_key (k : string) (ks : KeySchema) (v : option JsVal)
  : list ValidationErrorItem :=
  match v with
  | None => if required ks then [report "any.required" k ks] else []
  | Some v =>
      match valid ks with
      | [] => base_errors k ks v
      | _ => if allowed ks v then []
             else report "any.only" k ks :: base_errors k ks v
      end
  end.

Definition known (schema : ObjectSchema) (k : string) : bool :=
  existsb (fun e => String.eqb (fst e) k) schema.

(** The schema's keys in declaration order, then the keys the schema
    does not know. *)
Definition errors (schema : ObjectSchema) (o : JsObject)
  : list ValidationErrorItem :=
  flat_map (fun e => check_key (fst e) (snd e) (field o (fst e))) schema
  ++ flat_map (fun e => if known schema (fst e) then []
                        else [report "object.unknown" (fst e) string_key]) o.

Definition validate (schema : ObjectSchema) (v : option JsObject)
                    (abortEarly : bool) : option (list ValidationErrorItem) :=
  match v with
  | None => None
  | Some o =>
      match errors schema o with
      | [] => None
      | e :: es => Some (if abortEarly then [e] else e :: es)
      end
  end.

End MiniJoi.

Module MiniJson.

(** Arrays of string literals without escapes or white space. *)
Inductive state :=
| Start                    (* nothing read *)
| Opened                   (* after the bracket *)
| InString (acc : string)  (* inside a literal *)
| AfterString
| AfterComma
| Closed.

Definition quote : ascii := ascii_of_nat 34.
Definition backslash : ascii := ascii_of_nat 92.

Fixpoint go (s : string) (st : state) (items : list string)
  : option (list string) :=
  match s with
  | EmptyString => match st with Closed => Some items | _ => None end
  | String c r =>
      match st with
      | Start => if Ascii.eqb c "[" then go r Opened items else None
      | Opened =>
          if Ascii.eqb c "]" then go r Closed items
          else if Ascii.eqb c quote then go r (InString "") items
          else None
      | InString acc =>
          if Ascii.eqb c quote then go r AfterString (items ++ [acc])
          else if Ascii.eqb c backslash then None
          else go r (InString (acc ++ String c "")) items
      | AfterString =>
          if Ascii.eqb c "]" then go r Closed items
          else if Ascii.eqb c "," then go r AfterComma items
          else None
      | AfterComma =>
          if Ascii.eqb c quote then go r (InString "") items else None
      | Closed => None
      end
  end.

Definition all_digits (s : string) : bool :=
  forallb (fun c => (48 <=? nat_of_ascii c)%nat && (nat_of_ascii c <=? 57)%nat)
          (list_ascii_of_string s).

(** A non-negative integer literal. *)
Definition is_number (s : string) : bool :=
  match s with
  | EmptyString => false
  | String c r =>
      all_digits s && (negb (Ascii.eqb c "0") || String.eqb r "")
  end.

(** The fragment of JSON this decoder reads: null, true, false, the
    empty object, non-negative integers, and arrays of string literals
    without escapes or white space.  Any other text is refused. *)
Definition parse (s : string) : option JSON :=
  if String.eqb s "null" then Some JSON_null
  else if String.eqb s "true" then Some (JSON_bool true)
  else if String.eqb s "false" then Some (JSON_bool false)
  else if String.eqb s "{}" then Some (JSON_object [])
  else if is_number s then Some (JSON_number s)
  else option_map (fun l => JSON_array (map JSON_string l)) (go s Start []).

End MiniJson.

Module MiniMongoose.

Definition lower_ascii (c : ascii) : ascii :=
  let n := nat_of_ascii c in
  if (65 <=? n)%nat && (n <=? 90)%nat then ascii_of_nat (n + 32) else c.

(** toLowerCase on ASCII text. *)
Fixpoint lower (s : string) : string :=
  match s with
  | EmptyString => EmptyString
  | String c r => String (lower_ascii c) (lower r)
  end.

Definition is_hex (c : ascii) : bool :=
  let n := nat_of_ascii c in
  ((48 <=? n)%nat && (n <=? 57)%nat)
  || ((65 <=? n)%nat && (n <=? 70)%nat)
  || ((97 <=? n)%nat && (n <=? 102)%nat).

(** A string of 24 hexadecimal digits is cast to the ObjectId it
    writes, in lower case; this reference cast refuses every other
    string. *)
Definition castObjectId (s : string) : option string :=
  if Nat.eqb (String.length s) 24 && forallb is_hex (list_ascii_of_string s)
  then Some (lower s) else None.

Definition cast_element (v : JSON) : option string :=
  match v with
  | JSON_string s => Some s
  | JSON_number n => Some n
  | JSON_bool true => Some "true"
  | JSON_bool false => Some "false"
  | _ => None
  end.

Fixpoint cast_elements (l : list JSON) : option (list string) :=
  match l with
  | [] => Some []
  | v :: l' =>
      match cast_element v, cast_elements l' with
      | Some s, Some ss => Some (s :: ss)
      | _, _ => None
      end
  end.

(** A required array of String: null is refused; a scalar is wrapped
    into an array; strings, numbers and booleans are cast to strings;
    arrays and objects inside are refused. *)
Definition castStringArray (v : JSON) : option (list string) :=
  match v with
  | JSON_null => None
  | JSON_array l => cast_elements l
  | JSON_object _ => None
  | _ => option_map (fun s => [s]) (cast_element v)
  end.

End MiniMongoose.

Module Ref.

(** An injective encoding of a list of strings: every character is
    escaped with a leading x, every string closed with a dot. *)
Fixpoint enc (s : string) : string :=
  match s with
  | EmptyString => "."
  | String c r => String "x" (String c (enc r))
  end.

Fixpoint enc_list (l : list string) : string :=
  match l with
  | [] => ""
  | s :: l' => enc s ++ enc_list l'
  end.

Fixpoint dec (s : string) : option (list string) :=
  match s with
  | EmptyString => Some []
  | String a r =>
      if Ascii.eqb a "." then option_map (cons "") (dec r)
      else match r with
           | String c r' =>
               if Ascii.eqb a "x"
               then match dec r' with
                    | Some (h :: t) => Some (String c h :: t)
                    | _ => None
                    end
               else None
           | EmptyString => None
           end
  end.

Definition string_of_role (r : Role) : string :=
  match r with
  | User_role => "User"
  | Company_HR => "Company_HR"
  end.

Definition string_of_Z (z : Z) : string := NilEmpty.string_of_int (Z.to_int z).
Definition Z_of_string (s : string) : option Z :=
  option_map Z.of_int (NilEmpty.int_of_string s).

Definition sign (i : Identity) (secret : string) (expiresIn now : Z) : string :=
  enc_list [secret; id i; username i; email i; string_of_role (role i);
            string_of_Z now; string_of_Z (now + expiresIn)].

Definition verify (tok secret : string) (now : Z) : option (Identity * Z * Z) :=
  match dec tok with
  | Some [s; i; u; e; r; t; x] =>
      match role_of_string r, Z_of_string t, Z_of_string x with
      | Some r, Some t, Some x =>
          if String.eqb s secret && (now <? x)
          then Some (mkIdentity i u e r, t, x)
          else None
      | _, _, _ => None
      end
  | _ => None
  end.

Fixpoint zeros (k : nat) : string :=
  match k with
  | O => ""
  | S k' => String "0" (zeros k')
  end.

(** The n-th ObjectId drawn: the numeral of n on 24 digits. *)
Definition object_id (n : nat) : string :=
  zeros (24 - String.length (to_string (Z.of_nat n))) ++ to_string (Z.of_nat n).

Definition platform : Platform :=
  {| hashSync := fun d rounds => "$2b$" ++ to_string rounds ++ "$" ++ d;
     compareSync := fun d h =>
       match index 0 "$" (substring 4 (String.length h) h) with
       | Some n => String.eqb (substring (5 + n) (String.length h) h) d
       | None => false
       end;
     jwt_sign := sign;
     jwt_verify := verify;
     joi_validate := MiniJoi.validate;
     JSON_parse := MiniJson.parse;
     toLowerCase := MiniMongoose.lower;
     castObjectId := MiniMongoose.castObjectId;
     castStringArray := MiniMongoose.castStringArray;
     cloudinary_upload := fun p => Some ("https://res.cloudinary.com/" ++ p);
     sendMail := fun _ _ => true;
     ObjectId := object_id |}.

End Ref.

(* ------------------------------------------------------------------ *)
(** ** The remaining controllers that need no further document types *)

Section MoreControllers.
Variable P : Platform.

(** user.controller.js, [logout] *)
Definition logout_body (req : Req) : M Step :=
  uid <- req_user_id req ;;
  w <- get ;;
  match findById User._id uid (users w) with
  | None => throw (AppError (MsgText "Please SignUp") 401)
  | Some x =>
      if Status_eqb (User.status x) offline
      then ret (Send {| status := 200;
                        json := [("message", JText "Logout successfully")] |})
      else
        modify (fun w => with_users
          (updateById User._id uid (set_status offline) (users w)) w) ;;;
        ret (Send {| status := 200;
                     json := [("message", JText "Logout successfully")] |})
  end.

Definition logout : Layer := catchAsyncError logout_body.

Definition set_password (hashed : string) (u : User.t) : User.t :=
  User.mk (User._id u) (User.firstName u) (User.lastName u) (User.username u)
          (User.email u) hashed (User.recoveryEmail u) (User.DOB u)
          (User.mobileNumber u) (User.role u) (User.status u) (User.otp u)
          (User.otpExpire u).

(** user.controller.js, [updatePassword] *)
Definition updatePassword_body (req : Req) : M Step :=
  let currentPassword := str_field (body req) "currentPassword" in
  let newPassword := str_field (body req) "newPassword" in
  uid <- req_user_id req ;;
  w <- get ;;
  match findById User._id uid (users w) with
  | None => throw (AppError (MsgText "Please SignUp") 401)
  | Some user =>
      throw_if (Status_eqb (User.status user) offline)
               (AppError (MsgText "LogIn first") 401) ;;;
      ok <- compare P currentPassword (User.password user) ;;
      throw_if (negb ok)
               (AppError (MsgText "Current password is incorrect") 400) ;;;
      same <- compare P newPassword (User.password user) ;;
      throw_if same
               (AppError (MsgText "The current password matches the new password")
                         400) ;;;
      hashedPassword <- hash P newPassword 8 ;;
      modify (fun w => with_users
        (updateById User._id uid (set_password hashedPassword) (users w)) w) ;;;
      ret (Send {| status := 200;
                   json := [("message", JText "Password updated successfully")] |})
  end.

Definition updatePassword : Layer := catchAsyncError updatePassword_body.

(** company.controller.js, [deleteCompanyData] *)
Definition deleteCompanyData_body (req : Req) : M Step :=
  uid <- req_user_id req ;;
  w <- get ;;
  match findOne (fun c => String.eqb (Company.companyHR c) uid) (companies w) with
  | None => throw (AppError (MsgText "Only the company owner can delete the data") 403)
  | Some c =>
      let company := findById Company._id (Company._id c) (companies w) in
      modify (fun w => with_companies
        (deleteById Company._id (Company._id c) (companies w)) w) ;;;
      ret (Send {| status := 200;
                   json := [("message", JText "Company data deleted successfully");
                            ("company", match company with
                                        | Some c => JCompany c
                                        | None => JNull
                                        end)] |})
  end.

Definition deleteCompanyData : Layer := catchAsyncError deleteCompanyData_body.

End MoreControllers.

(* ------------------------------------------------------------------ *)
(** ** Sample data *)

Module Sample.

Definition cfg : Config :=
  {| JWT_SECRET := "s3cr3t-key"; JWT_EXPIRES_IN := 3600; BCRYPT_SALT_ROUNDS := 8 |}.

(** A deployment whose configured secret is the literal of [auth]. *)
Definition cfg_literal : Config :=
  {| JWT_SECRET := "secret"; JWT_EXPIRES_IN := 3600; BCRYPT_SALT_ROUNDS := 8 |}.

Definition alice : User.t :=
  User.mk "65a000000000000000000001" "Alice" "Doe" "alicedoe" "alice@mail.com"
          (hashSync Ref.platform "Passw0rdA" 8) "alice.r@mail.com"
          "1990-01-01" "01012345678" User_role online Unset Unset.

Definition bob : User.t :=
  User.mk "65a000000000000000000002" "Bob" "Ray" "bobray" "bob@mail.com"
          (hashSync Ref.platform "Passw0rdB" 8) "bob.r@mail.com"
          "1991-02-02" "01112345678" User_role offline Unset Unset.

Definition hana : User.t :=
  User.mk "65b000000000000000000001" "Hana" "Aly" "hanaaly" "hana@acme.com"
          (hashSync Ref.platform "Passw0rdH" 8) "hana.r@mail.com"
          "1985-03-03" "01212345678" Company_HR online Unset Unset.

Definition hani : User.t :=
  User.mk "65b000000000000000000002" "Hani" "Sami" "hanisami" "hani@globex.com"
          (hashSync Ref.platform "Passw0rdI" 8) "hani.r@mail.com"
          "1986-04-04" "01512345678" Company_HR online Unset Unset.

Definition acme : Company.t :=
  Company.mk "65c000000000000000000001" "Acme" "Anvils" "Tools" "1 Main St"
             "11-20 employees" "jobs@acme.com" "65b000000000000000000001".

Definition globex : Company.t :=
  Company.mk "65c000000000000000000002" "Globex" "Energy" "Power" "2 High St"
             "21-50 employees" "jobs@globex.com" "65b000000000000000000002".

Definition job1 : Job.t :=
  Job.mk "65f000000000000000000001" (Some (VStr "Backend developer"))
         (Some (VStr "remotely")) (Some (VStr "full-time")) (Some (VStr "Junior"))
         (Some (VStr "Builds services")) (Some (VArr ["nodejs"]))
         (Some (VArr ["teamwork"])) "65b000000000000000000001".

Definition world : World :=
  {| users := [alice; bob; hana; hani];
     companies := [acme; globex];
     jobs := [job1];
     applications := [];
     local_files := ["uploads/cv.pdf"];
     outbox := [];
     oid_counter := 0 |}.

Definition claims_of (u : User.t) : Claims :=
  {| sub := identity_of u; iat := 0; exp := 3600 |}.

(** A request with nothing in it. *)
Definition request (url : string) : Req :=
  {| originalUrl := url; token := None; params := []; query := [];
     body := []; file := None; user := None |}.

Definition with_token (t : string) (r : Req) : Req :=
  mkReq (originalUrl r) (Some t) (params r) (query r) (body r) (file r) (user r).

Definition with_params (o : JsObject) (r : Req) : Req :=
  mkReq (originalUrl r) (token r) o (query r) (body r) (file r) (user r).

Definition with_body (o : JsObject) (r : Req) : Req :=
  mkReq (originalUrl r) (token r) (params r) (query r) o (file r) (user r).

Definition with_file (f : File) (r : Req) : Req :=
  mkReq (originalUrl r) (token r) (params r) (query r) (body r) (Some f) (user r).

(** As [auth] leaves it for an authenticated caller. *)
Definition as_user (u : User.t) (r : Req) : Req :=
  set_user (claims_of u) r.

Definition quoted (s : string) : string := MiniJoi.quote ++ s ++ MiniJoi.quote.

(** Alice signs in at second 1000 of the clock. *)
Definition signin_req : Req :=
  with_body [("emailOrRecoveryEmailOrMobile", VStr "alice@mail.com");
             ("password", VStr "Passw0rdA")]
            (request "/user/SignIn").

Definition alice_token : string :=
  jwt_sign Ref.platform (identity_of alice) (JWT_SECRET cfg)
           (JWT_EXPIRES_IN cfg) 1000.

Definition signin_response : Response :=
  {| status := 200;
     json := [("message", JText "SignIn successfully");
              ("token", JText alice_token)] |}.

(** A token for Hana that [auth] accepts. *)
Definition hana_token : string :=
  jwt_sign Ref.platform (identity_of hana) "secret" 3600 1000.

(** Hana updates her job with a location the schema does not allow. *)
Definition bad_update_req : Req :=
  with_body [("jobLocation", VStr "mars")]
            (with_params [("id", VStr "65f000000000000000000001")]
               (request "/job/updateJob/65f000000000000000000001")).

(** The listing of the applications to Hana's job: the route's path has
    no slash before the id. *)
Definition listing_url : string :=
  "/company/getAllApplicationsForSpecificJob65f000000000000000000001".

(** Hani asks for the applications to Hana's job. *)
Definition applications_req : Req :=
  as_user hani (with_params [("id", VStr "65f000000000000000000001")]
                  (request listing_url)).

(** Alice applies to Hana's job. *)
Definition apply_req (tech : string) : Req :=
  as_user alice
    (with_body [("jobId", VStr "65f000000000000000000001"); ("userTechSkills", VStr tech);
                ("userSoftSkills", VStr ("[" ++ quoted "teamwork" ++ "]"))]
               (request "/job/applyToJob")).

(** No resume, and a skill list that is not JSON. *)
Definition apply_req_unparsed : Req := apply_req "oops".

Definition apply_req_no_resume : Req :=
  apply_req ("[" ++ quoted "coq" ++ "," ++ quoted "js" ++ "]").

Definition apply_req_resume : Req :=
  with_file (mkFile "uploads/cv.pdf") apply_req_no_resume.

(** Alice asks for an OTP at time 0 and the generator draws 123456. *)
Definition forget_req : Req :=
  with_body [("emailOrMobile", VStr "alice@mail.com")]
            (request "/user/forgetPassword").

Definition verify_req : Req :=
  with_body [("emailOrMobile", VStr "alice@mail.com");
             ("otp", VStr "123456"); ("newPassword", VStr "N3wPassword")]
            (request "/user/verifyOTPAndSetNewPassword").

Definition world_with_otp : World :=
  snd (forgetPassword Ref.platform 0 123456 forget_req world).

(** Someone signs up with Alice's e-mail address. *)
Definition signup_req : Req :=
  with_body [("firstName", VStr "Alia"); ("lastName", VStr "Noor");
             ("email", VStr "alice@mail.com"); ("password", VStr "Passw0rdZ");
             ("DOB", VStr "1995-05-05"); ("mobileNumber", VStr "01098765432");
             ("recoveryEmail", VStr "alia.r@mail.com")]
            (request "/user/signup").

(** Hani registers a company under Acme's name. *)
Definition add_company_req : Req :=
  as_user hani
    (with_body [("companyName", VStr "Acme"); ("description", VStr "Rockets");
                ("industry", VStr "Space"); ("address", VStr "3 Low St");
                ("numberOfEmployees", VStr "1-10 employees");
                ("companyEmail", VStr "hr@acme2.com");
                ("companyHR", VStr "65b000000000000000000002")]
               (request "/company/addCompany")).


(** A token for Alice that [auth] accepts. *)
Definition alice_literal_token : string :=
  jwt_sign Ref.platform (identity_of alice) "secret" 3600 1000.

(** Hani asks to delete a job that does not exist. *)
Definition missing_job_req : Req :=
  as_user hani (with_params [("id", VStr "65f000000000000000000404")]
                  (request "/job/deleteJob/65f000000000000000000404")).

(** Hani asks to delete a job under an id that is not an ObjectId. *)
Definition malformed_job_req : Req :=
  as_user hani (with_params [("id", VStr "zzz")]
                  (request "/job/deleteJob/zzz")).

(** The same request as it arrives, with a token for Hani that [auth]
    accepts. *)
Definition hani_token : string :=
  jwt_sign Ref.platform (identity_of hani) "secret" 3600 1000.

Definition malformed_job_call : Req :=
  with_token hani_token (with_params [("id", VStr "zzz")]
                           (request "/job/deleteJob/zzz")).

(** Alice applies with a resume that is no longer in the upload
    directory. *)
Definition apply_req_lost_resume : Req :=
  with_file (mkFile "uploads/gone.pdf") apply_req_no_resume.

End Sample.

(* ------------------------------------------------------------------ *)
(** ** Vocabulary of the properties *)

(** The ObjectId a supplied id is cast to, if it can be cast. *)
Definition cast_id (P : Platform) (v : option string) : option string :=
  match v with
  | Some i => castObjectId P i
  | None => None
  end.

(** The job [Job.findById(req.params.id)] finds: the id is one that can
    be cast and a job has it. *)
Definition job_lookup (P : Platform) (req : Req) (w : World) : option Job.t :=
  match cast_id P (str_field (params req) "id") with
  | Some oid => findById Job._id oid (jobs w)
  | None => None
  end.

(** The job [Job.findById(req.body.jobId)] finds. *)
Definition applied_job (P : Platform) (req : Req) (w : World) : option Job.t :=
  match cast_id P (str_field (body req) "jobId") with
  | Some oid => findById Job._id oid (jobs w)
  | None => None
  end.

(** [JSON.parse(req.body[key])]; None when it throws. *)
Definition decoded (P : Platform) (req : Req) (key : string) : option JSON :=
  JSON_parse P (text_of (field (body req) key)).

(** A decoded array of strings. *)
Definition strings (l : list string) : JSON := JSON_array (map JSON_string l).

(** [User.findOne({ $or: [{ email: v }, { mobileNumber: v }] })] *)
Definition account_of (P : Platform) (v : string) (w : World) : option User.t :=
  findOne (fun u => matches_lower (toLowerCase P) (Some v) (User.email u)
                    || matches (Some v) (User.mobileNumber u)) (users w).

(** [User.findById(req.user.id)] *)
Definition current_user (req : Req) (w : World) : option User.t :=
  match user req with
  | Some c => findById User._id (id (sub c)) (users w)
  | None => None
  end.

(** The user a sign-up collides with:
    [User.findOne({ $or: [{ email }, { mobileNumber }] })]. *)
Definition duplicate_user (P : Platform) (req : Req) (w : World)
  : option User.t :=
  findOne (fun u => matches_lower (toLowerCase P) (str_field (body req) "email")
                                  (User.email u)
                    || matches (str_field (body req) "mobileNumber")
                               (User.mobileNumber u)) (users w).

(** The same query with [_id: { $ne: uid }]. *)
Definition duplicate_user_besides (P : Platform) (uid : string) (req : Req)
                                  (w : World) : option User.t :=
  findOne (fun u => (matches_lower (toLowerCase P) (str_field (body req) "email")
                                   (User.email u)
                     || matches (str_field (body req) "mobileNumber")
                                (User.mobileNumber u))
                    && negb (String.eqb (User._id u) uid)) (users w).

(** The company a registration collides with. *)
Definition duplicate_company (req : Req) (w : World) : option Company.t :=
  findOne (fun c => matches (str_field (body req) "companyName")
                            (Company.companyName c)
                    || matches (str_field (body req) "companyEmail")
                               (Company.companyEmail c)) (companies w).

Definition duplicate_company_besides (cid : string) (req : Req) (w : World)
  : option Company.t :=
  findOne (fun c => (matches (str_field (body req) "companyName")
                             (Company.companyName c)
                     || matches (str_field (body req) "companyEmail")
                                (Company.companyEmail c))
                    && negb (String.eqb (Company._id c) cid)) (companies w).

(** The store never holds two documents with one [_id]. *)
Definition unique_ids (w : World) : Prop := NoDup (map User._id (users w)).

(* ------------------------------------------------------------------ *)
(** ** Vocabulary of the further properties *)

(** The account [SignIn] looks at:
    [User.findOne({ $or: [{ email: v }, { mobileNumber: v },
                          { recoveryEmail: v }] })]. *)
Definition signin_filter (P : Platform) (req : Req) (u : User.t) : bool :=
  matches_lower (toLowerCase P)
                (str_field (body req) "emailOrRecoveryEmailOrMobile")
                (User.email u)
  || matches (str_field (body req) "emailOrRecoveryEmailOrMobile")
             (User.mobileNumber u)
  || matches_lower (toLowerCase P)
                   (str_field (body req) "emailOrRecoveryEmailOrMobile")
                   (User.recoveryEmail u).

Definition signin_account (P : Platform) (req : Req) (w : World)
  : option User.t :=
  findOne (signin_filter P req) (users w).

(** [Company.findOne({ companyHR: req.user.id })] *)
Definition company_of (uid : string) (w : World) : option Company.t :=
  findOne (fun c => String.eqb (Company.companyHR c) uid) (companies w).

Definition unique_job_ids (w : World) : Prop := NoDup (map Job._id (jobs w)).

Definition unique_company_ids (w : World) : Prop :=
  NoDup (map Company._id (companies w)).

(** The request as [auth] passes it on for the identity [c]. *)
Definition authenticated (c : Claims) (req : Req) : Prop := user req = Some c.

Module Cases.

(** Bob, whose password is Passw0rdB, signs in. *)
Definition bob_signin : Req :=
  Sample.with_body [("emailOrRecoveryEmailOrMobile", VStr "bob@mail.com");
                    ("password", VStr "Passw0rdB")]
                   (Sample.request "/user/SignIn").

(** Bob's email with capitals, and a wrong password. *)
Definition bob_wrong_password : Req :=
  Sample.with_body [("emailOrRecoveryEmailOrMobile", VStr "Bob@Mail.com");
                    ("password", VStr "guess")]
                   (Sample.request "/user/SignIn").

(** Alice signs in with her email in capitals. *)
Definition alice_signin_capitals : Req :=
  Sample.with_body [("emailOrRecoveryEmailOrMobile", VStr "ALICE@MAIL.COM");
                    ("password", VStr "Passw0rdA")]
                   (Sample.request "/user/SignIn").

Definition nobody_signin : Req :=
  Sample.with_body [("emailOrRecoveryEmailOrMobile", VStr "nobody@mail.com");
                    ("password", VStr "guess")]
                   (Sample.request "/user/SignIn").

(** The token [SignIn] gives Bob under the configuration whose secret
    is the literal of [auth]. *)
Definition bob_token : string :=
  jwt_sign Ref.platform (identity_of Sample.bob) "secret" 3600 1000.

Definition as_alice (url : string) : Req :=
  Sample.as_user Sample.alice (Sample.request url).

Definition as_hana (url : string) : Req :=
  Sample.as_user Sample.hana (Sample.request url).

End Cases.

(** [req.body.role || 'User'], as the schema's enum reads it. *)
Definition requested_role (req : Req) : option Role :=
  role_of_string (if truthy (str_field (body req) "role")
                  then interpolate (str_field (body req) "role")
                  else "User").

Definition is_digit (c : ascii) : bool :=
  (48 <=? nat_of_ascii c)%nat && (nat_of_ascii c <=? 57)%nat.

Definition two_digits (a b : ascii) : nat :=
  (10 * (nat_of_ascii a - 48) + (nat_of_ascii b - 48))%nat.

(** A date YYYY-MM-DD that every month has: what the Date path of the
    user schema is sure to cast. *)
Definition calendar_date (s : string) : bool :=
  match list_ascii_of_string s with
  | [y1; y2; y3; y4; h1; m1; m2; h2; d1; d2] =>
      forallb is_digit [y1; y2; y3; y4; m1; m2; d1; d2]
      && Ascii.eqb h1 "-" && Ascii.eqb h2 "-"
      && (1 <=? two_digits m1 m2)%nat && (two_digits m1 m2 <=? 12)%nat
      && (1 <=? two_digits d1 d2)%nat && (two_digits d1 d2 <=? 28)%nat
  | _ => false
  end.

(** The body of a sign-up that carries the seven required fields, as the
    user schema accepts them: required strings are not empty and the date
    of birth is a date. *)
Definition signup_fields (req : Req) (fn ln em pw dob mob rec : string) : Prop :=
  (str_field (body req) "firstName" = Some fn
   /\ str_field (body req) "lastName" = Some ln
   /\ str_field (body req) "email" = Some em
   /\ str_field (body req) "password" = Some pw
   /\ str_field (body req) "DOB" = Some dob
   /\ str_field (body req) "mobileNumber" = Some mob
   /\ str_field (body req) "recoveryEmail" = Some rec)
  /\ fn <> "" /\ ln <> "" /\ em <> "" /\ mob <> "" /\ rec <> ""
  /\ calendar_date dob = true.

Module Cases2.

(** Dina signs up, without a role. *)
Definition dina_signup : Req :=
  Sample.with_body [("firstName", VStr "Dina"); ("lastName", VStr "Fahmy");
                    ("email", VStr "Dina@Mail.com"); ("password", VStr "Passw0rdD");
                    ("DOB", VStr "1993-06-06"); ("mobileNumber", VStr "01022223333");
                    ("recoveryEmail", VStr "dina.r@mail.com")]
                   (Sample.request "/user/signup").

Definition dina : User.t :=
  User.mk (ObjectId Ref.platform 0) "Dina" "Fahmy" "dinafahmy" "dina@mail.com"
          (hashSync Ref.platform "Passw0rdD" 8) "dina.r@mail.com" "1993-06-06"
          "01022223333" User_role offline Unset Unset.

Definition world_with_dina : World :=
  with_users (users Sample.world ++ [dina]) (with_oid_counter 1 Sample.world).

(** Someone signs up under Alice's email, in capitals. *)
Definition alice_capitals_signup : Req :=
  Sample.with_body [("firstName", VStr "Alia"); ("lastName", VStr "Noor");
                    ("email", VStr "ALICE@MAIL.COM"); ("password", VStr "Passw0rdZ");
                    ("DOB", VStr "1995-05-05"); ("mobileNumber", VStr "01098765432");
                    ("recoveryEmail", VStr "alia.r@mail.com")]
                   (Sample.request "/user/signup").

Definition dina_signin : Req :=
  Sample.with_body [("emailOrRecoveryEmailOrMobile", VStr "Dina@Mail.com");
                    ("password", VStr "Passw0rdD")]
                   (Sample.request "/user/SignIn").

End Cases2.

Module Cases3.

(** Alice changes her password. *)
Definition change_password (current new : string) : Req :=
  Sample.as_user Sample.alice
    (Sample.with_body [("currentPassword", VStr current);
                       ("newPassword", VStr new)]
                      (Sample.request "/user/updatePassword")).

(** Alice changes her first name and re-submits her own email, with
    capitals. *)
Definition alice_update : Req :=
  Sample.as_user Sample.alice
    (Sample.with_body [("firstName", VStr "alicia");
                       ("email", VStr "Alice@Mail.com")]
                      (Sample.request "/user/updateAccount")).

(** Alice submits Bob's email, in capitals. *)
Definition alice_takes_bobs_email : Req :=
  Sample.as_user Sample.alice
    (Sample.with_body [("email", VStr "BOB@MAIL.COM")]
                      (Sample.request "/user/updateAccount")).

End Cases3.

Module Cases4.

(** The store after Alice's second request for an OTP, at time 1000,
    when the generator draws 654321. *)
Definition world_with_second_otp : World :=
  snd (forgetPassword Ref.platform 1000 654321 Sample.forget_req
         Sample.world_with_otp).

(** A platform whose mail transport rejects every message. *)
Definition no_mail : Platform :=
  {| hashSync := hashSync Ref.platform;
     compareSync := compareSync Ref.platform;
     jwt_sign := jwt_sign Ref.platform;
     jwt_verify := jwt_verify Ref.platform;
     joi_validate := joi_validate Ref.platform;
     JSON_parse := JSON_parse Ref.platform;
     toLowerCase := toLowerCase Ref.platform;
     castObjectId := castObjectId Ref.platform;
     castStringArray := castStringArray Ref.platform;
     cloudinary_upload := cloudinary_upload Ref.platform;
     sendMail := fun _ _ => false;
     ObjectId := ObjectId Ref.platform |}.

(** The store after Alice's successful reset at time 1. *)
Definition world_after_reset : World :=
  snd (verifyOTPAndSetNewPassword Ref.platform 1 Sample.verify_req
         Sample.world_with_otp).

(** Alice asks for an OTP under her email in capitals. *)
Definition forget_req_capitals : Req :=
  Sample.with_body [("emailOrMobile", VStr "ALICE@MAIL.COM")]
                   (Sample.request "/user/forgetPassword").

Definition unknown_forget_req : Req :=
  Sample.with_body [("emailOrMobile", VStr "nobody@mail.com")]
                   (Sample.request "/user/forgetPassword").

End Cases4.


(** The Application [applyToJob] saves for the applicant [uid]. *)
Definition submitted (P : Platform) (w : World) (job : Job.t) (uid : string)
           (techs softs : list string) (url : string) : Application.t :=
  Application.mk (ObjectId P (oid_counter w)) (Job._id job) uid
                 techs softs url.


Module Cases5.

(** A platform whose asset store rejects every upload. *)
Definition no_upload : Platform :=
  {| hashSync := hashSync Ref.platform;
     compareSync := compareSync Ref.platform;
     jwt_sign := jwt_sign Ref.platform;
     jwt_verify := jwt_verify Ref.platform;
     joi_validate := joi_validate Ref.platform;
     JSON_parse := JSON_parse Ref.platform;
     toLowerCase := toLowerCase Ref.platform;
     castObjectId := castObjectId Ref.platform;
     castStringArray := castStringArray Ref.platform;
     cloudinary_upload := fun _ => None;
     sendMail := sendMail Ref.platform;
     ObjectId := ObjectId Ref.platform |}.

(** Alice applies to a job that does not exist, with a resume. *)
Definition apply_req_missing_job : Req :=
  Sample.with_file (mkFile "uploads/cv.pdf")
    (Sample.as_user Sample.alice
       (Sample.with_body
          [("jobId", VStr "65f000000000000000000404");
           ("userTechSkills", VStr ("[" ++ Sample.quoted "coq" ++ "]"));
           ("userSoftSkills", VStr ("[" ++ Sample.quoted "teamwork" ++ "]"))]
          (Sample.request "/job/applyToJob"))).

(** Alice applies under a job id that is not an ObjectId. *)
Definition apply_req_malformed_job : Req :=
  Sample.with_file (mkFile "uploads/cv.pdf")
    (Sample.as_user Sample.alice
       (Sample.with_body
          [("jobId", VStr "zzz");
           ("userTechSkills", VStr ("[" ++ Sample.quoted "coq" ++ "]"));
           ("userSoftSkills", VStr ("[" ++ Sample.quoted "teamwork" ++ "]"))]
          (Sample.request "/job/applyToJob"))).

(** Hana asks for the applications to her job, and deletes it. *)
Definition hana_job_req (url : string) : Req :=
  Sample.as_user Sample.hana
    (Sample.with_params [("id", VStr "65f000000000000000000001")] (Sample.request url)).

(** Hana renames her job. *)
Definition hana_update_req : Req :=
  Sample.with_body [("jobTitle", VStr "Backend engineer")]
                   (hana_job_req "/job/updateJob/65f000000000000000000001").

(** Bob's application to Hana's job. *)
Definition bob_application : Application.t :=
  Application.mk "65d000000000000000000001" (Job._id Sample.job1)
                 (User._id Sample.bob) ["go"] ["patience"] "https://cdn/bob.pdf".

(** A store where Bob has already applied to Hana's job and to another
    job. *)
Definition world_with_applications : World :=
  with_applications
    [bob_application;
     Application.mk "65d000000000000000000002" "65f000000000000000000009"
                    (User._id Sample.bob) ["go"] ["patience"]
                    "https://cdn/bob.pdf"]
    Sample.world.

End Cases5.



Module Cases6.







End Cases6.


Module Cases7.

(** Alice, whose role is User, presents a valid token on the HR routes
    for a job that does not exist. *)
Definition alice_on_hr_route : Req :=
  Sample.with_token Sample.alice_literal_token
    (Sample.with_params [("id", VStr "65f000000000000000000404")]
       (Sample.request "/job/deleteJob/65f000000000000000000404")).

(** A sign-in body without a password, and the same with a query
    string added. *)
Definition signin_without_password : Req :=
  Sample.with_body [("emailOrRecoveryEmailOrMobile", VStr "alice@mail.com")]
                   (Sample.request "/user/SignIn").

Definition signin_without_password_q : Req :=
  mkReq "/user/SignIn?x=1" None [] [("x", VStr "1")]
        [("emailOrRecoveryEmailOrMobile", VStr "alice@mail.com")] None None.

End Cases7.

(* ================================================================== *)
(** * Properties *)

(** A tactic to run a controller body: unfold the wrapper and the monad. *)
Ltac run :=
  unfold catchAsyncError, express_sync, flow_of, bind, ret, throw, throw_if,
         get, modify, req_user_id, found in *; cbn [fst snd] in *.

Example ref_hash_compare :
  compareSync Ref.platform "Passw0rdX" (hashSync Ref.platform "Passw0rdX" 8) = true.
Proof. reflexivity. Qed.

Example ref_parse_skills :
  MiniJson.parse
    ("[" ++ MiniJoi.quote ++ "coq" ++ MiniJoi.quote ++ ","
         ++ MiniJoi.quote ++ "js" ++ MiniJoi.quote ++ "]")
  = Some (JSON_array [JSON_string "coq"; JSON_string "js"]).
Proof. reflexivity. Qed.

Example ref_parse_garbage : MiniJson.parse "oops" = None.
Proof. reflexivity. Qed.

Example ref_parse_null : MiniJson.parse "null" = Some JSON_null.
Proof. reflexivity. Qed.

Example ref_cast_id :
  MiniMongoose.castObjectId "65F000000000000000000001"
  = Some (Job._id Sample.job1)
  /\ MiniMongoose.castObjectId "zzz" = None.
Proof. split; reflexivity. Qed.

Example ref_lower : MiniMongoose.lower "Alice@Mail.COM" = "alice@mail.com".
Proof. reflexivity. Qed.

Example ref_joi_signIn_missing_both :
  option_map (map item_message)
    (MiniJoi.validate signInSchema (Some []) false)
  = Some [MiniJoi.label "emailOrRecoveryEmailOrMobile" ++ " is required";
          MiniJoi.label "password" ++ " is required"].
Proof. reflexivity. Qed.

Example ref_joi_updateJob_bad_location :
  option_map (map item_message)
    (MiniJoi.validate updateJobSchema
       (Some [("jobLocation", VStr "mars")]) false)
  = Some ["Job location must be one of onsite, remotely, hybrid"].
Proof. reflexivity. Qed.

Example ref_jwt_roundtrip :
  Ref.verify (Ref.sign (identity_of Sample.alice) "k" 3600 100) "k" 200
  = Some (identity_of Sample.alice, 100, 3700).
Proof. vm_compute. reflexivity. Qed.

(* ------------------------------------------------------------------ *)
(** ** Identity verification *)

Lemma status_or_500_code (c : Z) : c <> 0 -> status_or_500 (Some c) = c.
Proof.
  intros H. unfold status_or_500. destruct (Z.eqb_spec c 0); congruence.
Qed.

Lemma truthy_some (t : string) : t <> "" -> truthy (Some t) = true.
Proof.
  intros H. unfold truthy. destruct (String.eqb_spec t ""); cbn; congruence.
Qed.

(** What [auth] does on a token that verification rejects or accepts. *)
Lemma auth_on_token (P : Platform) (required_role : option Role) (now : Z)
      (req : Req) (w : World) (tok : string) :
  token req = Some tok -> tok <> "" ->
  auth P required_role now req w =
  match jwt_verify P tok "secret" (now / 1000) with
  | None => (NextErr (AppError (MsgText "Invalid token") 498), w)
  | Some d =>
      if role_mismatch required_role (decoded_claims d)
      then (NextErr (AppError (MsgText "Not enough privileges") 403), w)
      else (Next (set_user (decoded_claims d) req), w)
  end.
Proof.
  intros Ht Hne. unfold auth, auth_body. run.
  rewrite Ht, (truthy_some tok Hne). cbn.
  destruct (jwt_verify P tok "secret" (now / 1000)) as [d|]; [|reflexivity].
  destruct (role_mismatch required_role (decoded_claims d)); reflexivity.
Qed.


(* ------------------------------------------------------------------ *)
(** ** The reference signing scheme meets the laws *)

Lemma dec_enc_app (s rest : string) (t : list string) :
  Ref.dec rest = Some t -> Ref.dec (Ref.enc s ++ rest) = Some (s :: t).
Proof.
  intros H. induction s as [|c r IH]; cbn.
  - rewrite H. reflexivity.
  - rewrite IH. reflexivity.
Qed.

Lemma dec_enc_list (l : list string) : Ref.dec (Ref.enc_list l) = Some l.
Proof.
  induction l as [|s l IH]; [reflexivity|].
  cbn [Ref.enc_list]. apply dec_enc_app, IH.
Qed.

Lemma Z_of_string_of_Z (z : Z) : Ref.Z_of_string (Ref.string_of_Z z) = Some z.
Proof.
  unfold Ref.Z_of_string, Ref.string_of_Z.
  rewrite NilEmpty.isi. cbn. now rewrite DecimalZ.of_to.
Qed.

Lemma role_of_string_of_role (r : Role) :
  role_of_string (Ref.string_of_role r) = Some r.
Proof. destruct r; reflexivity. Qed.

Lemma ref_verify_sign (i : Identity) (s s' : string) (e t t' : Z) :
  Ref.verify (Ref.sign i s e t) s' t'
  = if String.eqb s s' && (t' <? t + e) then Some (i, t, t + e) else None.
Proof.
  unfold Ref.verify, Ref.sign. rewrite dec_enc_list.
  rewrite role_of_string_of_role, !Z_of_string_of_Z.
  destruct i; reflexivity.
Qed.

Lemma ref_jwt_laws : JwtLaws Ref.platform.
Proof.
  constructor; cbn [jwt_verify jwt_sign Ref.platform].
  - intros i s e t t' H. rewrite ref_verify_sign, String.eqb_refl.
    apply Z.ltb_lt in H. now rewrite H.
  - intros i s s' e t t' H. rewrite ref_verify_sign.
    apply String.eqb_neq in H. now rewrite H.
  - intros i s e t. unfold Ref.sign. cbn [Ref.enc_list].
    destruct s; discriminate.
Qed.

Lemma ref_joi_undefined_passes : JoiUndefinedPasses Ref.platform.
Proof. intros s a. reflexivity. Qed.


(* ------------------------------------------------------------------ *)
(** ** The credential round trip *)

(** What a successful [SignIn] has done. *)
Lemma SignIn_sent (P : Platform) (cfg : Config) (now : Z) (req : Req)
      (w w' : World) (r : Response) :
  SignIn P cfg now req w = (Sent r, w') ->
  exists u,
    In u (users w)
    /\ r = {| status := 200;
              json := [("message", JText "SignIn successfully");
                       ("token", JText (jwt_sign P (identity_of u) (JWT_SECRET cfg)
                                          (JWT_EXPIRES_IN cfg) (now / 1000)))] |}.
Proof.
  unfold SignIn, SignIn_body, compare. run.
  destruct (findOne _ (users w)) as [u|] eqn:Hu; [|discriminate].
  destruct (str_field (body req) "password") as [pw|]; [|discriminate].
  destruct (compareSync P pw (User.password u)); cbn; [|discriminate].
  intros H. injection H as <- _. exists u. split; [|reflexivity].
  unfold findOne in Hu. apply find_some in Hu. tauto.
Qed.

(** When the configured secret is the literal of [auth], the token of a
    sign-in is accepted until it expires and decodes to the user's id,
    username, email and role. *)
Lemma SignIn_token_accepted_under_literal_secret
      (P : Platform) (L : JwtLaws P) (cfg : Config) (now now' : Z)
      (req req' : Req) (w w' w'' : World) (r : Response) (tok : string) :
  JWT_SECRET cfg = "secret" ->
  SignIn P cfg now req w = (Sent r, w') ->
  field (json r) "token" = Some (JText tok) ->
  token req' = Some tok ->
  now' / 1000 < now / 1000 + JWT_EXPIRES_IN cfg ->
  exists u c,
    In u (users w) /\ sub c = identity_of u
    /\ auth P None now' req' w'' = (Next (set_user c req'), w'').
Proof.
  intros Hs Hin Htok Hreq Hexp.
  destruct (SignIn_sent _ _ _ _ _ _ _ Hin) as (u & Hu & ->).
  cbn in Htok. injection Htok as <-.
  exists u, {| sub := identity_of u; iat := now / 1000;
               exp := now / 1000 + JWT_EXPIRES_IN cfg |}.
  split; [exact Hu|]. split; [reflexivity|].
  rewrite (auth_on_token _ _ _ _ _ _ Hreq (sign_nonempty P L _ _ _ _)).
  rewrite Hs, (verify_sign P L _ _ _ _ _ Hexp). reflexivity.
Qed.

(** C2 (the round trip fails). [SignIn] signs with the configured
    [JWT_SECRET], [auth] verifies with the string literal 'secret': under
    any signing scheme that rejects a token under a secret it was not
    signed with, whenever the configured secret is not that literal the
    token a successful sign-in returns is refused with 498 on every
    protected route, at any time, expired or not. *)
Theorem SignIn_token_refused_when_secret_configured
        (P : Platform) (L : JwtLaws P) (cfg : Config) (now now' : Z)
        (req req' : Req) (w w' w'' : World) (r : Response) (tok : string)
        (required_role : option Role) (rest : list Layer) :
  JWT_SECRET cfg <> "secret" ->
  SignIn P cfg now req w = (Sent r, w') ->
  field (json r) "token" = Some (JText tok) ->
  token req' = Some tok ->
  dispatch (auth P required_role now' :: rest) req' w''
  = (errorHandler (AppError (MsgText "Invalid token") 498), w'').
Proof.
  intros Hs Hin Htok Hreq.
  destruct (SignIn_sent _ _ _ _ _ _ _ Hin) as (u & _ & ->).
  cbn in Htok. injection Htok as <-.
  cbn [dispatch].
  rewrite (auth_on_token _ _ _ _ _ _ Hreq (sign_nonempty P L _ _ _ _)).
  rewrite (verify_other_secret P L _ _ _ _ _ _ Hs). reflexivity.
Qed.

Lemma SignIn_token_refused_witness :
  JWT_SECRET Sample.cfg <> "secret"
  /\ SignIn Ref.platform Sample.cfg 1000000 Sample.signin_req Sample.world
     = (Sent Sample.signin_response, Sample.world)
  /\ dispatch (route_getUserData Ref.platform 1001000)
              (Sample.with_token Sample.alice_token
                 (Sample.request "/user/getUserData"))
              Sample.world
     = (errorHandler (AppError (MsgText "Invalid token") 498), Sample.world).
Proof.
  split; [discriminate|]. split; [vm_compute; reflexivity|].
  apply (SignIn_token_refused_when_secret_configured
           Ref.platform ref_jwt_laws Sample.cfg 1000000 1001000
           Sample.signin_req _ Sample.world Sample.world Sample.world
           Sample.signin_response Sample.alice_token None [getUserData]).
  - discriminate.
  - vm_compute; reflexivity.
  - reflexivity.
  - reflexivity.
Defined.

(* ------------------------------------------------------------------ *)
(** ** The validation gate *)

(** The gate proper: when Joi reports an error on the section the gate
    looks at, the response is 400 and its message is the list of all the
    messages of [error.details], in order; when it reports none, the next
    layer runs on the same request. *)
Lemma validate_gate (P : Platform) (schema : ObjectSchema)
      (target : option Target) (rest : list Layer) (req : Req) (w : World) :
  (forall details,
     joi_validate P schema (req_property req (target_key target)) false
     = Some details ->
     dispatch (validate P schema target :: rest) req w
     = ({| status := 400;
           json := [("message", JTexts (map item_message details))] |}, w))
  /\ (joi_validate P schema (req_property req (target_key target)) false = None ->
      dispatch (validate P schema target :: rest) req w = dispatch rest req w).
Proof.
  split; [intros details H|intros H];
    cbn [dispatch]; unfold validate, validate_body; run; rewrite H; reflexivity.
Qed.

(** C3 (the gate of one route looks at no section). The route
    PUT /job/updateJob/:id mounts [validate] with the array
    ['params','body'] where the middleware expects a property name; the
    property it reads does not exist, and Joi lets an undefined value
    pass.  So a body that violates rules of [updateJobSchema] is handed
    to the controller, where the same body behind a gate on 'body' is
    rejected with 400 and the list of all its violation messages. *)
Theorem updateJob_route_gate_passes_invalid_body
        (P : Platform) (J : JoiUndefinedPasses P) (rest : list Layer)
        (req : Req) (w : World) (details : list ValidationErrorItem) :
  joi_validate P updateJobSchema (Some (body req)) false = Some details ->
  dispatch (validate P updateJobSchema (Some (Keys ["params"; "body"])) :: rest)
           req w
  = dispatch rest req w
  /\ dispatch (validate P updateJobSchema (Some (Key "body")) :: rest) req w
     = ({| status := 400;
           json := [("message", JTexts (map item_message details))] |}, w).
Proof.
  intros H. split.
  - apply validate_gate. cbn. apply J.
  - apply validate_gate. cbn. exact H.
Qed.

Lemma updateJob_route_gate_witness :
  joi_validate Ref.platform updateJobSchema
    (Some (body Sample.bad_update_req)) false
  = Some [mkItem "Job location must be one of onsite, remotely, hybrid"
                 "jobLocation" "any.only"]
  /\ status (fst (dispatch (route_updateJob Ref.platform 1001000)
                           (Sample.with_token Sample.hana_token
                              Sample.bad_update_req)
                           Sample.world)) = 200
  /\ option_map Job.jobLocation
       (findById Job._id (Job._id Sample.job1)
          (jobs (snd (dispatch (route_updateJob Ref.platform 1001000)
                               (Sample.with_token Sample.hana_token
                                  Sample.bad_update_req)
                               Sample.world))))
     = Some (Some (VStr "mars")).
Proof.
  split; [reflexivity|].
  pose proof (updateJob_route_gate_passes_invalid_body
                Ref.platform ref_joi_undefined_passes [updateJob Ref.platform]
                (set_user (decoded_claims
                             (identity_of Sample.hana, 1000, 4600))
                          (Sample.with_token Sample.hana_token
                             Sample.bad_update_req))
                Sample.world _ eq_refl) as [H _].
  unfold route_updateJob.
  change (dispatch (auth Ref.platform (Some Company_HR) 1001000 :: ?l) ?r ?w)
    with (match auth Ref.platform (Some Company_HR) 1001000 r w with
          | (Sent r0, w') => (r0, w')
          | (Next req', w') => dispatch l req' w'
          | (NextErr e, w') => (errorHandler e, w')
          end).
  replace (auth Ref.platform (Some Company_HR) 1001000
             (Sample.with_token Sample.hana_token Sample.bad_update_req)
             Sample.world)
    with (Next (set_user (decoded_claims (identity_of Sample.hana, 1000, 4600))
                  (Sample.with_token Sample.hana_token Sample.bad_update_req)),
          Sample.world) by (vm_compute; reflexivity).
  rewrite H. split; vm_compute; reflexivity.
Defined.

(* ------------------------------------------------------------------ *)
(** ** Looking a job up *)

Lemma Job_findById_castable (P : Platform) (i oid : string) (w : World) :
  castObjectId P i = Some oid ->
  Job_findById P (Some i) w = (Return (findById Job._id oid (jobs w)), w)
  /\ Job_findById_object P (Some i) w
     = (Return (findById Job._id oid (jobs w)), w).
Proof.
  intros H. unfold Job_findById_object, Job_findById. rewrite H.
  split; reflexivity.
Qed.

Lemma Job_findById_uncastable (P : Platform) (i : string) (w : World) :
  castObjectId P i = None ->
  exists e,
    statusCode e = None
    /\ Job_findById P (Some i) w = (Throw e, w)
    /\ Job_findById_object P (Some i) w = (Throw e, w).
Proof.
  intros H. unfold Job_findById_object, Job_findById. rewrite H.
  eexists. split; [|split; reflexivity]. reflexivity.
Qed.

Lemma Job_findById_cast (P : Platform) (v : option string) (w : World)
      (oid : string) :
  cast_id P v = Some oid ->
  Job_findById P v w = (Return (findById Job._id oid (jobs w)), w)
  /\ Job_findById_object P v w = (Return (findById Job._id oid (jobs w)), w).
Proof.
  unfold cast_id. destruct v as [i|]; [|discriminate].
  apply Job_findById_castable.
Qed.

(** The lookups of the three guarded operations, when the job is there. *)
Lemma job_lookup_found (P : Platform) (req : Req) (w : World) (j : Job.t) :
  job_lookup P req w = Some j ->
  Job_findById P (str_field (params req) "id") w = (Return (Some j), w)
  /\ Job_findById_object P (str_field (params req) "id") w
     = (Return (Some j), w).
Proof.
  unfold job_lookup, cast_id.
  destruct (str_field (params req) "id") as [i|]; [|discriminate].
  destruct (castObjectId P i) as [oid|] eqn:Hc; [|discriminate].
  intros <-. exact (Job_findById_castable P i oid w Hc).
Qed.

(** A job is found under its own id. *)
Lemma job_lookup_key (P : Platform) (req : Req) (w : World) (j : Job.t) :
  job_lookup P req w = Some j ->
  cast_id P (str_field (params req) "id") = Some (Job._id j).
Proof.
  unfold job_lookup.
  destruct (cast_id P (str_field (params req) "id")) as [oid|]; [|discriminate].
  intros H. unfold findById in H. apply find_some in H.
  destruct H as [_ H]. apply String.eqb_eq in H. now rewrite H.
Qed.

(* ------------------------------------------------------------------ *)
(** ** Ownership of a job *)

Lemma updateJob_not_owner (P : Platform) (req : Req) (w : World) (j : Job.t)
      (c : Claims) :
  job_lookup P req w = Some j -> user req = Some c ->
  Job.addedBy j <> id (sub c) ->
  updateJob P req w
  = (NextErr (AppError (MsgText "Only the company owner can update the data") 403), w).
Proof.
  intros Hj Hc Hne. unfold updateJob, updateJob_body. run.
  rewrite (proj2 (job_lookup_found _ _ _ _ Hj)), Hc. cbn.
  apply String.eqb_neq in Hne. rewrite Hne. reflexivity.
Qed.

Lemma deleteJob_not_owner (P : Platform) (req : Req) (w : World) (j : Job.t)
      (c : Claims) :
  job_lookup P req w = Some j -> user req = Some c ->
  Job.addedBy j <> id (sub c) ->
  deleteJob P req w
  = (NextErr (AppError (MsgText "Only the company owner can delete the data") 403), w).
Proof.
  intros Hj Hc Hne. unfold deleteJob, deleteJob_body. run.
  rewrite (proj2 (job_lookup_found _ _ _ _ Hj)), Hc. cbn.
  apply String.eqb_neq in Hne. rewrite Hne. reflexivity.
Qed.

Lemma owner_succeeds (P : Platform) (req : Req) (w : World) (j : Job.t)
      (c : Claims) :
  job_lookup P req w = Some j -> user req = Some c ->
  Job.addedBy j = id (sub c) ->
  (exists r w', updateJob P req w = (Sent r, w') /\ status r = 200)
  /\ (exists r w', deleteJob P req w = (Sent r, w') /\ status r = 200)
  /\ getAllApplicationsForSpecificJob P req w
     = (Sent {| status := 200;
                json := [("applications",
                          JApplications
                            (map (populate_userId (users w))
                               (filter (fun a => String.eqb (Application.jobId a)
                                                            (Job._id j))
                                       (applications w))))] |}, w).
Proof.
  intros Hj Hc Ho.
  destruct (job_lookup_found _ _ _ _ Hj) as [Hf Hfo].
  repeat split.
  - unfold updateJob, updateJob_body. run. rewrite Hfo, Hc. cbn.
    rewrite Ho, String.eqb_refl. cbn. eauto.
  - unfold deleteJob, deleteJob_body. run. rewrite Hfo, Hc. cbn.
    rewrite Ho, String.eqb_refl. cbn. eauto.
  - unfold getAllApplicationsForSpecificJob,
      getAllApplicationsForSpecificJob_body. run. rewrite Hf, Hc. cbn.
    rewrite Ho, String.eqb_refl. reflexivity.
Qed.

(** C4 (viewing a job's applications answers 498, not 403). When the
    authenticated identity is not the job's [addedBy], updateJob and
    deleteJob fail with 403 and a message that names the owner; the same
    check in getAllApplicationsForSpecificJob fails with 498, the status
    of an invalid token. *)
Theorem applications_of_foreign_job_498 (P : Platform) (req : Req) (w : World)
        (j : Job.t) (c : Claims) (rest : list Layer) :
  job_lookup P req w = Some j -> user req = Some c ->
  Job.addedBy j <> id (sub c) ->
  getAllApplicationsForSpecificJob P req w
  = (NextErr (AppError (MsgText
       "Only the owner can view the applications for their jobs") 498), w)
  /\ status (fst (dispatch (getAllApplicationsForSpecificJob P :: rest) req w))
     = 498
  /\ status (fst (dispatch (updateJob P :: rest) req w)) = 403
  /\ status (fst (dispatch (deleteJob P :: rest) req w)) = 403.
Proof.
  intros Hj Hc Hne.
  assert (E : getAllApplicationsForSpecificJob P req w
              = (NextErr (AppError (MsgText
                   "Only the owner can view the applications for their jobs") 498), w)).
  { unfold getAllApplicationsForSpecificJob,
      getAllApplicationsForSpecificJob_body. run.
    rewrite (proj1 (job_lookup_found _ _ _ _ Hj)), Hc. cbn.
    apply String.eqb_neq in Hne. rewrite Hne. reflexivity. }
  split; [exact E|]. cbn [dispatch].
  rewrite E, (updateJob_not_owner _ _ _ _ _ Hj Hc Hne),
    (deleteJob_not_owner _ _ _ _ _ Hj Hc Hne).
  repeat split.
Qed.

Lemma applications_of_foreign_job_witness :
  job_lookup Ref.platform Sample.applications_req Sample.world
  = Some Sample.job1
  /\ Job.addedBy Sample.job1 <> id (sub (Sample.claims_of Sample.hani))
  /\ status (fst (dispatch [getAllApplicationsForSpecificJob Ref.platform]
                           Sample.applications_req Sample.world)) = 498.
Proof.
  split; [reflexivity|]. split; [discriminate|].
  apply (applications_of_foreign_job_498 Ref.platform
           Sample.applications_req Sample.world Sample.job1
           (Sample.claims_of Sample.hani) []);
    [reflexivity | reflexivity | discriminate].
Defined.

(** C5 as stated fails: an id that no job has need not be one that can be
    cast to ObjectId.  The id zzz passes the gate of
    DELETE /job/deleteJob/:id, whose schema asks for a string; the lookup
    then throws, and all three operations answer 500, not 404; so does
    the route as a Company_HR calls it. *)
Lemma uncastable_job_id_counterexample :
  (forall j, In j (jobs Sample.world) -> Job._id j <> "zzz")
  /\ str_field (params Sample.malformed_job_req) "id" = Some "zzz"
  /\ joi_validate Ref.platform deleteJobSchema
       (Some (params Sample.malformed_job_req)) false = None
  /\ status (fst (dispatch [validate Ref.platform deleteJobSchema
                              (Some (Key "params"));
                            deleteJob Ref.platform]
                           Sample.malformed_job_req Sample.world)) = 500
  /\ status (fst (dispatch [updateJob Ref.platform]
                           Sample.malformed_job_req Sample.world)) = 500
  /\ status (fst (dispatch [getAllApplicationsForSpecificJob Ref.platform]
                           Sample.malformed_job_req Sample.world)) = 500
  /\ status (fst (dispatch [deleteJob Ref.platform]
                           Sample.malformed_job_req Sample.world)) <> 404
  /\ status (fst (dispatch (route_deleteJob Ref.platform 1001000)
                           Sample.malformed_job_call Sample.world)) = 500
  /\ snd (dispatch (route_deleteJob Ref.platform 1001000)
                   Sample.malformed_job_call Sample.world) = Sample.world.
Proof.
  split.
  { intros j [<-|[]]. discriminate. }
  split; [reflexivity|]. split; [reflexivity|].
  split; [vm_compute; reflexivity|].
  split; [vm_compute; reflexivity|].
  split; [vm_compute; reflexivity|].
  split; [vm_compute; discriminate|].
  split; vm_compute; reflexivity.
Qed.

(** The same for every platform: an id that cannot be cast makes each of
    the three lookups throw a fault without a status, which the error
    handler answers with 500; the store is unchanged. *)
Lemma uncastable_job_id_500 (P : Platform) (req : Req) (w : World)
      (i : string) (h : Layer) :
  str_field (params req) "id" = Some i ->
  castObjectId P i = None ->
  In h [updateJob P; deleteJob P; getAllApplicationsForSpecificJob P] ->
  exists e,
    statusCode e = None
    /\ h req w = (NextErr e, w)
    /\ status (fst (dispatch [h] req w)) = 500.
Proof.
  intros Hi Hc Hin.
  destruct (Job_findById_uncastable P i w Hc) as (e & He & Hf & Hfo).
  exists e. split; [exact He|].
  assert (E : h req w = (NextErr e, w)).
  { cbn in Hin. destruct Hin as [<-|[<-|[<-|[]]]];
      unfold updateJob, updateJob_body, deleteJob, deleteJob_body,
        getAllApplicationsForSpecificJob,
        getAllApplicationsForSpecificJob_body; run; rewrite Hi;
      rewrite ?Hf, ?Hfo; reflexivity. }
  split; [exact E|]. cbn [dispatch]. rewrite E. cbn. now rewrite He.
Qed.

(** C5 (amended). In updateJob, deleteJob and
    getAllApplicationsForSpecificJob the job is looked up before the owner
    is compared: when the target id can be cast to ObjectId and no job
    has it, the response is 404 "Job not found" for every caller, whoever
    they are and whether authenticated or not, and nothing is changed; an
    ownership error (403, or the 498 of
    getAllApplicationsForSpecificJob) is only ever the answer for a job
    that exists; and when the target id cannot be cast to ObjectId the
    response is 500, again for every caller and with nothing changed. *)
Theorem existence_checked_before_ownership (P : Platform) (req : Req)
        (w : World) :
  (forall i oid,
     str_field (params req) "id" = Some i ->
     castObjectId P i = Some oid ->
     findById Job._id oid (jobs w) = None ->
     updateJob P req w = (NextErr (AppError (MsgText "Job not found") 404), w)
     /\ deleteJob P req w
        = (NextErr (AppError (MsgText "Job not found") 404), w)
     /\ getAllApplicationsForSpecificJob P req w
        = (NextErr (AppError (MsgText "Job not found") 404), w)
     /\ status (errorHandler (AppError (MsgText "Job not found") 404)) = 404)
  /\ (forall h e w',
        In h [updateJob P; deleteJob P; getAllApplicationsForSpecificJob P] ->
        h req w = (NextErr e, w') ->
        statusCode e = Some 403 \/ statusCode e = Some 498 ->
        exists j, job_lookup P req w = Some j)
  /\ (forall i h,
        str_field (params req) "id" = Some i ->
        castObjectId P i = None ->
        In h [updateJob P; deleteJob P; getAllApplicationsForSpecificJob P] ->
        status (fst (dispatch [h] req w)) = 500
        /\ snd (dispatch [h] req w) = w).
Proof.
  split; [|split].
  - intros i oid Hi Hc Hnone.
    destruct (Job_findById_castable P i oid w Hc) as [Hf Hfo].
    rewrite Hnone in Hf, Hfo.
    repeat split;
      unfold updateJob, updateJob_body, deleteJob, deleteJob_body,
        getAllApplicationsForSpecificJob,
        getAllApplicationsForSpecificJob_body; run; rewrite Hi;
      rewrite ?Hf, ?Hfo; reflexivity.
  - intros h e w' Hin Hh Hs.
    destruct (job_lookup P req w) as [j|] eqn:Hj; [eauto|].
    exfalso. unfold job_lookup, cast_id in Hj.
    assert (Hh' : exists e', h req w = (NextErr e', w)
                             /\ statusCode e' <> Some 403
                             /\ statusCode e' <> Some 498).
    { destruct (str_field (params req) "id") as [i|] eqn:Hi.
      - destruct (castObjectId P i) as [oid|] eqn:Hc.
        + destruct (Job_findById_castable P i oid w Hc) as [Hf Hfo].
          rewrite Hj in Hf, Hfo.
          exists (AppError (MsgText "Job not found") 404).
          split; [|split; discriminate].
          cbn in Hin. destruct Hin as [<-|[<-|[<-|[]]]];
            unfold updateJob, updateJob_body, deleteJob, deleteJob_body,
              getAllApplicationsForSpecificJob,
              getAllApplicationsForSpecificJob_body; run; rewrite Hi;
            rewrite ?Hf, ?Hfo; reflexivity.
        + destruct (uncastable_job_id_500 P req w i h Hi Hc Hin)
            as (e' & He' & E & _).
          exists e'. split; [exact E|]. rewrite He'. split; discriminate.
      - cbn in Hin. destruct Hin as [<-|[<-|[<-|[]]]];
          unfold updateJob, updateJob_body, deleteJob, deleteJob_body,
            getAllApplicationsForSpecificJob,
            getAllApplicationsForSpecificJob_body; run; rewrite Hi; cbn;
          eexists; (split; [reflexivity|split; discriminate]). }
    destruct Hh' as (e' & E & H403 & H498).
    rewrite E in Hh. injection Hh as <- _. destruct Hs; contradiction.
  - intros i h Hi Hc Hin.
    destruct (uncastable_job_id_500 P req w i h Hi Hc Hin) as (e & _ & E & Hs).
    split; [exact Hs|]. cbn [dispatch]. rewrite E. reflexivity.
Qed.

(* ------------------------------------------------------------------ *)
(** ** Application submission *)

Lemma applied_job_found (P : Platform) (req : Req) (w : World) (j : Job.t) :
  applied_job P req w = Some j ->
  Job_findById P (str_field (body req) "jobId") w = (Return (Some j), w).
Proof.
  unfold applied_job, cast_id.
  destruct (str_field (body req) "jobId") as [i|]; [|discriminate].
  destruct (castObjectId P i) as [oid|] eqn:Hc; [|discriminate].
  intros <-. exact (proj1 (Job_findById_castable P i oid w Hc)).
Qed.

Lemma strings_of_strings (l : list string) :
  strings_of (map JSON_string l) = Some l.
Proof.
  induction l as [|s l IH]; [reflexivity|]. cbn. now rewrite IH.
Qed.

(** An array of strings is stored as it is. *)
Lemma stored_skills_strings (P : Platform) (l : list string) :
  stored_skills P (strings l) = Some l.
Proof. unfold stored_skills, strings. now rewrite strings_of_strings. Qed.

(** C6 as stated fails: the two skill lists are decoded before the job
    is looked up and before the resume is asked for.  A request with a
    valid job id, no resume and a skill list that is not JSON passes the
    validation gate and is answered 500, not 400. *)
Lemma applyToJob_unparsed_skills_counterexample :
  applied_job Ref.platform Sample.apply_req_unparsed Sample.world
  = Some Sample.job1
  /\ file Sample.apply_req_unparsed = None
  /\ field (body Sample.apply_req_unparsed) "userTechSkills"
     = Some (VStr "oops")
  /\ joi_validate Ref.platform applyJobSchema
       (Some (body Sample.apply_req_unparsed)) false = None
  /\ status (fst (dispatch [validate Ref.platform applyJobSchema None;
                            applyToJob Ref.platform]
                           Sample.apply_req_unparsed Sample.world)) = 500
  /\ snd (dispatch [validate Ref.platform applyJobSchema None;
                    applyToJob Ref.platform]
                   Sample.apply_req_unparsed Sample.world) = Sample.world
  /\ status (fst (dispatch [validate Ref.platform applyJobSchema None;
                            applyToJob Ref.platform]
                           Sample.apply_req_unparsed Sample.world)) <> 400.
Proof.
  split; [reflexivity|]. split; [reflexivity|]. split; [reflexivity|].
  split; [reflexivity|].
  split; [vm_compute; reflexivity|]. split; [vm_compute; reflexivity|].
  vm_compute. discriminate.
Qed.

(** A skill list that does not decode stops the call before anything
    else is looked at, on every platform: the answer is 500 and the store
    is unchanged, whatever the job id and whether a resume is attached. *)
Lemma applyToJob_unparsed_500 (P : Platform) (req : Req) (w : World) :
  decoded P req "userTechSkills" = None
  \/ decoded P req "userSoftSkills" = None ->
  exists e,
    statusCode e = None
    /\ applyToJob P req w = (NextErr e, w)
    /\ status (fst (dispatch [applyToJob P] req w)) = 500.
Proof.
  unfold decoded. intros H.
  assert (E : exists e, statusCode e = None
                        /\ applyToJob P req w = (NextErr e, w)).
  { unfold applyToJob, applyToJob_body, parse_skills. run.
    destruct (JSON_parse P (text_of (field (body req) "userTechSkills")))
      as [vt|]; [|eexists; split; [|reflexivity]; reflexivity].
    destruct H as [H|H]; [discriminate|]. rewrite H.
    eexists; split; [|reflexivity]; reflexivity. }
  destruct E as (e & He & E). exists e. split; [exact He|].
  split; [exact E|]. cbn [dispatch]. rewrite E. cbn. now rewrite He.
Qed.

(** C6 (amended). When both skill lists decode and the target job
    exists, without a resume attached the call answers 400 "Resume file
    is required" and the store is unchanged, so no Application is
    created.  When both decode to arrays of strings and the job exists,
    with a resume attached whose upload succeeds, for an authenticated
    applicant whose id is an ObjectId and with the buffered file still in
    the upload directory, exactly one Application is appended, holding
    the job's id, the applicant's id, the two decoded lists and the URL
    of the uploaded asset, and the call answers 201 with a body that has
    the confirmation message as its only member. *)
Theorem applyToJob_submission (P : Platform) (req : Req) (w : World)
        (job : Job.t) :
  applied_job P req w = Some job ->
  (forall vt vs,
     decoded P req "userTechSkills" = Some vt ->
     decoded P req "userSoftSkills" = Some vs ->
     file req = None ->
     applyToJob P req w
     = (Sent {| status := 400;
                json := [("message", JText "Resume file is required")] |}, w))
  /\
  (forall techs softs f url c uid,
     decoded P req "userTechSkills" = Some (strings techs) ->
     decoded P req "userSoftSkills" = Some (strings softs) ->
     file req = Some f ->
     cloudinary_upload P (path f) = Some url -> url <> "" ->
     user req = Some c -> castObjectId P (id (sub c)) = Some uid ->
     existsb (String.eqb (path f)) (local_files w) = true ->
     exists w',
       applyToJob P req w
       = (Sent {| status := 201;
                  json := [("message", JText "Application submitted successfully")] |},
          w')
       /\ applications w'
          = (applications w
             ++ [Application.mk (ObjectId P (oid_counter w)) (Job._id job)
                                uid techs softs url])%list).
Proof.
  intros Hj. pose proof (applied_job_found _ _ _ _ Hj) as Hf.
  unfold decoded. split.
  - intros vt vs Ht Hs Hfile. unfold applyToJob, applyToJob_body, parse_skills.
    run. rewrite Ht, Hs, Hf, Hfile. reflexivity.
  - intros techs softs f url c uid Ht Hs Hfile Hup Hurl Hc Hid Hlocal.
    unfold applyToJob, applyToJob_body, parse_skills, uploadFileToCloudinary,
      unlinkSync, fresh_id, Application_save. run.
    rewrite Ht, Hs, Hf, Hfile, Hup, Hc. cbn -[stored_skills strings].
    rewrite Hid, !stored_skills_strings.
    apply String.eqb_neq in Hurl. rewrite Hurl. cbn. rewrite Hlocal.
    eexists. split; reflexivity.
Qed.

Lemma applyToJob_submission_witness :
  dispatch [applyToJob Ref.platform] Sample.apply_req_no_resume Sample.world
  = ({| status := 400;
        json := [("message", JText "Resume file is required")] |}, Sample.world)
  /\ exists w',
       applyToJob Ref.platform Sample.apply_req_resume Sample.world
       = (Sent {| status := 201;
                  json := [("message", JText "Application submitted successfully")] |},
          w')
       /\ applications w'
          = [Application.mk (ObjectId Ref.platform 0) (Job._id Sample.job1)
               (User._id Sample.alice) ["coq"; "js"] ["teamwork"]
               "https://res.cloudinary.com/uploads/cv.pdf"].
Proof.
  split.
  - cbn [dispatch].
    rewrite (proj1 (applyToJob_submission Ref.platform
                      Sample.apply_req_no_resume Sample.world Sample.job1
                      eq_refl)
                   (strings ["coq"; "js"]) (strings ["teamwork"])
                   eq_refl eq_refl eq_refl).
    reflexivity.
  - exact (proj2 (applyToJob_submission Ref.platform
                    Sample.apply_req_resume Sample.world Sample.job1 eq_refl)
                 ["coq"; "js"] ["teamwork"]
                 (mkFile "uploads/cv.pdf")
                 "https://res.cloudinary.com/uploads/cv.pdf"
                 (Sample.claims_of Sample.alice) (User._id Sample.alice)
                 eq_refl eq_refl eq_refl eq_refl
                 ltac:(discriminate) eq_refl eq_refl eq_refl).
Defined.

(** What the schema of Application does with skills that decode to
    something else than an array of strings: when it refuses either
    value, [save()] throws after the upload, the answer is 500 and no
    Application is stored.  The same holds when the applicant's id is not
    an ObjectId. *)
Lemma applyToJob_refused_by_schema (P : Platform) (req : Req) (w : World)
      (job : Job.t) (vt vs : JSON) (f : File) (url : string) (c : Claims) :
  applied_job P req w = Some job ->
  decoded P req "userTechSkills" = Some vt ->
  decoded P req "userSoftSkills" = Some vs ->
  stored_skills P vt = None \/ stored_skills P vs = None
  \/ castObjectId P (id (sub c)) = None ->
  file req = Some f ->
  cloudinary_upload P (path f) = Some url ->
  user req = Some c ->
  exists e w',
    statusCode e = None
    /\ applyToJob P req w = (NextErr e, w')
    /\ applications w' = applications w
    /\ status (fst (dispatch [applyToJob P] req w)) = 500.
Proof.
  intros Hj Ht Hs Hbad Hfile Hup Hc.
  pose proof (applied_job_found _ _ _ _ Hj) as Hf. unfold decoded in Ht, Hs.
  assert (E : exists e w', statusCode e = None
                           /\ applyToJob P req w = (NextErr e, w')
                           /\ applications w' = applications w).
  { unfold applyToJob, applyToJob_body, parse_skills, uploadFileToCloudinary,
      fresh_id, Application_save. run.
    rewrite Ht, Hs, Hf, Hfile, Hup, Hc. cbn -[stored_skills].
    destruct (castObjectId P (id (sub c))) as [uid|];
      [|do 2 eexists; split; [|split; reflexivity]; reflexivity].
    destruct (stored_skills P vt) as [techs|];
      [|do 2 eexists; split; [|split; reflexivity]; reflexivity].
    destruct (stored_skills P vs) as [softs|];
      [|do 2 eexists; split; [|split; reflexivity]; reflexivity].
    exfalso. destruct Hbad as [Hbad|[Hbad|Hbad]]; discriminate. }
  destruct E as (e & w' & He & E & Ha). exists e, w'.
  split; [exact He|]. split; [exact E|]. split; [exact Ha|].
  cbn [dispatch]. rewrite E. cbn. now rewrite He.
Qed.

(** The text null is JSON and passes the gate; with the job and a resume
    the save is refused: 500, and nothing stored. *)
Example applyToJob_null_skills :
  joi_validate Ref.platform applyJobSchema
    (Some (body (Sample.with_file (mkFile "uploads/cv.pdf")
                   (Sample.apply_req "null")))) false = None
  /\ status (fst (dispatch [validate Ref.platform applyJobSchema None;
                            applyToJob Ref.platform]
                           (Sample.with_file (mkFile "uploads/cv.pdf")
                              (Sample.apply_req "null"))
                           Sample.world)) = 500
  /\ applications
       (snd (dispatch [validate Ref.platform applyJobSchema None;
                       applyToJob Ref.platform]
                      (Sample.with_file (mkFile "uploads/cv.pdf")
                         (Sample.apply_req "null"))
                      Sample.world)) = [].
Proof. split; [reflexivity|]. split; vm_compute; reflexivity. Qed.

(* ------------------------------------------------------------------ *)
(** ** Updating a document in place *)

Section UpdateLemmas.
Context {D : Type} (key : D -> string).

Lemma map_key_updateById (i : string) (f : D -> D) (l : list D) :
  (forall d, key (f d) = key d) ->
  map key (updateById key i f l) = map key l.
Proof.
  intros Hk. induction l as [|d l IH]; [reflexivity|].
  cbn. destruct (String.eqb (key d) i); cbn; [now rewrite Hk|now rewrite IH].
Qed.

(** With unique ids, the document a query finds is the one an update by
    its id rewrites, and a query the update does not disturb finds the
    rewritten document afterwards. *)
Lemma find_updateById (p : D -> bool) (f : D -> D) (l : list D) (u : D) :
  NoDup (map key l) ->
  find p l = Some u ->
  (forall d, p (f d) = p d) ->
  find p (updateById key (key u) f l) = Some (f u).
Proof.
  intros Hnd Hfind Hp. induction l as [|d l IH]; [discriminate|].
  cbn in Hfind |- *. inversion Hnd as [|? ? Hnotin Hnd']; subst.
  destruct (p d) eqn:Hpd.
  - injection Hfind as ->. rewrite String.eqb_refl. cbn. now rewrite Hp, Hpd.
  - destruct (String.eqb_spec (key d) (key u)) as [E|E].
    + exfalso. apply Hnotin. rewrite E. apply in_map.
      apply find_some in Hfind. tauto.
    + cbn. rewrite Hpd. apply IH; assumption.
Qed.

End UpdateLemmas.

(* ------------------------------------------------------------------ *)
(** ** Password recovery *)

(** What a dispatched OTP leaves in the store. *)
Lemma forgetPassword_sent (P : Platform) (t_gen code : Z) (req : Req)
      (w w1 : World) (r : Response) (v : string) :
  str_field (body req) "emailOrMobile" = Some v ->
  forgetPassword P t_gen code req w = (Sent r, w1) ->
  exists u,
    account_of P v w = Some u
    /\ users w1 = updateById User._id (User._id u)
                    (set_otp (Value (to_string code))
                             (Value (t_gen + 10 * 60 * 1000))) (users w).
Proof.
  unfold account_of, forgetPassword, forgetPassword_body. intros Hv. run.
  rewrite Hv.
  destruct (findOne _ (users w)) as [u|]; [|discriminate].
  destruct (sendMail P _ _); cbn; [|discriminate].
  intros H. injection H as _ <-. exists u. split; reflexivity.
Qed.

(** C7. A user asks for an OTP at time [t_gen] and it is dispatched;
    the stored OTP is then submitted with a new password at time [now].
    More than ten minutes after [t_gen] the call fails with 400 "OTP
    expired".  Up to the expiry it succeeds with 200, and the account
    then holds the bcrypt hash of the new password in place of the old
    one, with [otp] and [otpExpire] both null. *)
Theorem otp_ten_minute_window (P : Platform) (t_gen code now : Z)
        (req_f req_v : Req) (w w1 : World) (r : Response) (v pw : string) :
  unique_ids w ->
  str_field (body req_f) "emailOrMobile" = Some v ->
  forgetPassword P t_gen code req_f w = (Sent r, w1) ->
  str_field (body req_v) "emailOrMobile" = Some v ->
  str_field (body req_v) "otp" = Some (to_string code) ->
  str_field (body req_v) "newPassword" = Some pw ->
  (t_gen + 10 * 60 * 1000 < now ->
     verifyOTPAndSetNewPassword P now req_v w1
     = (NextErr (AppError (MsgText "OTP expired") 400), w1)
     /\ status (errorHandler (AppError (MsgText "OTP expired") 400)) = 400)
  /\
  (now <= t_gen + 10 * 60 * 1000 ->
     exists u0 u w2,
       account_of P v w = Some u0
       /\ verifyOTPAndSetNewPassword P now req_v w1
          = (Sent {| status := 200;
                     json := [("message", JText "Password updated successfully")] |},
             w2)
       /\ account_of P v w2 = Some u
       /\ u = set_password_clear_otp (hashSync P pw 8) u0
       /\ User.password u = hashSync P pw 8
       /\ User.otp u = Null /\ User.otpExpire u = Null).
Proof.
  intros Hnd Hvf Hsent Hvv Hotp Hpw.
  destruct (forgetPassword_sent _ _ _ _ _ _ _ _ Hvf Hsent) as (u0 & Hu0 & Hw1).
  set (u1 := set_otp (Value (to_string code)) (Value (t_gen + 10 * 60 * 1000)) u0).
  assert (Hfind1 : account_of P v w1 = Some u1).
  { unfold account_of in *. rewrite Hw1.
    apply find_updateById; [exact Hnd | exact Hu0 | reflexivity]. }
  assert (Hnd1 : NoDup (map User._id (users w1))).
  { rewrite Hw1, map_key_updateById; [exact Hnd | reflexivity]. }
  unfold account_of in Hfind1.
  split.
  - intros Hlate.
    unfold verifyOTPAndSetNewPassword, verifyOTPAndSetNewPassword_body. run.
    rewrite Hvv, Hotp, Hfind1. cbn. rewrite String.eqb_refl. cbn.
    apply Z.ltb_lt in Hlate. change (10 * 60 * 1000) with 600000 in Hlate.
    rewrite Hlate. split; reflexivity.
  - intros Hintime.
    exists u0, (set_password_clear_otp (hashSync P pw 8) u0).
    eexists. split; [exact Hu0|]. split.
    + unfold verifyOTPAndSetNewPassword, verifyOTPAndSetNewPassword_body, hash.
      run. rewrite Hvv, Hotp, Hpw, Hfind1. cbn. rewrite String.eqb_refl. cbn.
      apply Z.ltb_ge in Hintime. change (10 * 60 * 1000) with 600000 in Hintime.
      rewrite Hintime. reflexivity.
    + split; [|repeat split].
      unfold account_of. cbn [users with_users].
      exact (find_updateById User._id _ (set_password_clear_otp (hashSync P pw 8))
               (users w1) u1 Hnd1 Hfind1 (fun _ => eq_refl)).
Qed.

Lemma otp_ten_minute_window_witness :
  verifyOTPAndSetNewPassword Ref.platform 600001 Sample.verify_req
                             Sample.world_with_otp
  = (NextErr (AppError (MsgText "OTP expired") 400), Sample.world_with_otp)
  /\ exists u w2,
       verifyOTPAndSetNewPassword Ref.platform 600000 Sample.verify_req
                                  Sample.world_with_otp
       = (Sent {| status := 200;
                  json := [("message", JText "Password updated successfully")] |},
          w2)
       /\ account_of Ref.platform "alice@mail.com" w2 = Some u
       /\ User.password u = "$2b$8$N3wPassword"
       /\ User.otp u = Null /\ User.otpExpire u = Null.
Proof.
  assert (Hnd : unique_ids Sample.world).
  { unfold unique_ids. cbn.
    repeat (constructor; [cbn; intuition discriminate|]). constructor. }
  pose proof (fun now =>
    otp_ten_minute_window Ref.platform 0 123456 now
      Sample.forget_req Sample.verify_req Sample.world Sample.world_with_otp
      {| status := 201;
         json := [("message", JText "OTP has been sent successfully")] |}
      "alice@mail.com" "N3wPassword"
      Hnd eq_refl eq_refl eq_refl eq_refl eq_refl) as H.
  split.
  - apply (H 600001). reflexivity.
  - destruct (proj2 (H 600000) ltac:(discriminate))
      as (u0 & u & w2 & _ & Hrun & Hacc & _ & Hpw & Ho & He).
    exists u, w2. repeat split; assumption.
Defined.

(* ------------------------------------------------------------------ *)
(** ** Uniqueness conflicts *)

(** A collision on an email submitted in lower case, or on a mobile
    number, stops updateAccount with 409. *)
Lemma updateAccount_duplicate_409 (P : Platform) (req : Req) (w : World)
      (c : Claims) (x e : User.t) :
  user req = Some c ->
  findById User._id (id (sub c)) (users w) = Some x ->
  User.status x = online ->
  (forall em, str_field (body req) "email" = Some em -> toLowerCase P em = em) ->
  duplicate_user_besides P (id (sub c)) req w = Some e ->
  exists m, updateAccount P req w = (NextErr (AppError (MsgText m) 409), w).
Proof.
  unfold duplicate_user_besides, updateAccount, updateAccount_body.
  intros Hc Hx Hon Hlow He. run. rewrite Hc. cbn. rewrite Hx, Hon. cbn.
  rewrite He. cbn.
  pose proof (find_some _ _ He) as [_ Hp]. cbn in Hp.
  apply andb_true_iff in Hp. destruct Hp as [Hp _].
  unfold strict_eq.
  assert (Hm : matches_lower (toLowerCase P) (str_field (body req) "email")
                             (User.email e)
               = matches (str_field (body req) "email") (User.email e)).
  { destruct (str_field (body req) "email") as [em|]; [|reflexivity].
    cbn. now rewrite (Hlow em eq_refl). }
  rewrite Hm in Hp.
  destruct (matches (str_field (body req) "email") (User.email e)); cbn;
    [eauto|].
  cbn in Hp. rewrite Hp. cbn. eauto.
Qed.

Lemma updateCompanyData_duplicate_409 (req : Req) (w : World) (c : Claims)
      (own e : Company.t) :
  user req = Some c ->
  findOne (fun c' => String.eqb (Company.companyHR c') (id (sub c)))
          (companies w) = Some own ->
  duplicate_company_besides (Company._id own) req w = Some e ->
  exists m, updateCompanyData req w = (NextErr (AppError (MsgText m) 409), w).
Proof.
  unfold duplicate_company_besides, updateCompanyData, updateCompanyData_body.
  intros Hc Hown He. run. rewrite Hc. cbn. rewrite Hown, He. cbn.
  pose proof (find_some _ _ He) as [_ Hp]. cbn in Hp.
  apply andb_true_iff in Hp. destruct Hp as [Hp _].
  unfold strict_eq.
  destruct (matches (str_field (body req) "companyEmail") (Company.companyEmail e));
    cbn; [eauto|].
  rewrite orb_false_r in Hp. rewrite Hp. cbn. eauto.
Qed.

(** C8 (creation answers 400, not 409). A sign-up whose email or mobile
    number is already taken, and a company registration whose name or
    email is already taken, are refused with status 400; the same
    collisions on updateAccount and updateCompanyData are refused with
    409. *)
Theorem duplicate_at_creation_400 (P : Platform) (cfg : Config) (req : Req)
        (w : World) :
  (forall u, duplicate_user P req w = Some u ->
     signUp P cfg req w
     = (NextErr (AppError (MsgText "Email already exists") 400), w)
     /\ status (fst (dispatch [signUp P cfg] req w)) = 400)
  /\ (forall c, duplicate_company req w = Some c ->
        addCompany P req w
        = (NextErr (AppError (MsgText "Company already exists") 400), w)
        /\ status (fst (dispatch [addCompany P] req w)) = 400).
Proof.
  split.
  - intros u Hu. unfold duplicate_user in Hu.
    assert (E : signUp P cfg req w
                = (NextErr (AppError (MsgText "Email already exists") 400), w)).
    { unfold signUp, signUp_body. run. rewrite Hu. reflexivity. }
    split; [exact E|]. cbn [dispatch]. rewrite E. reflexivity.
  - intros c Hc. unfold duplicate_company in Hc.
    assert (E : addCompany P req w
                = (NextErr (AppError (MsgText "Company already exists") 400), w)).
    { unfold addCompany, addCompany_body. run. rewrite Hc. reflexivity. }
    split; [exact E|]. cbn [dispatch]. rewrite E. reflexivity.
Qed.

Lemma duplicate_at_creation_witness :
  duplicate_user Ref.platform Sample.signup_req Sample.world
  = Some Sample.alice
  /\ status (fst (dispatch [signUp Ref.platform Sample.cfg]
                           Sample.signup_req Sample.world)) = 400
  /\ duplicate_company Sample.add_company_req Sample.world = Some Sample.acme
  /\ status (fst (dispatch [addCompany Ref.platform]
                           Sample.add_company_req Sample.world)) = 400.
Proof.
  split; [reflexivity|]. split.
  - apply (proj1 (duplicate_at_creation_400 Ref.platform Sample.cfg
                    Sample.signup_req Sample.world) Sample.alice eq_refl).
  - split; [reflexivity|].
    apply (proj2 (duplicate_at_creation_400 Ref.platform Sample.cfg
                    Sample.add_company_req Sample.world) Sample.acme eq_refl).
Defined.

(* ------------------------------------------------------------------ *)
(** ** The status gate *)



(* ------------------------------------------------------------------ *)
(** ** An expired OTP stays in the store *)

(** C10 as stated fails: after the call that finds Alice's OTP expired,
    her [otp] and [otpExpire] are what they were, not null. *)
Lemma expired_otp_not_cleared_counterexample :
  verifyOTPAndSetNewPassword Ref.platform 600001 Sample.verify_req
                             Sample.world_with_otp
  = (NextErr (AppError (MsgText "OTP expired") 400), Sample.world_with_otp)
  /\ option_map User.otp
       (account_of Ref.platform "alice@mail.com"
          (snd (verifyOTPAndSetNewPassword Ref.platform 600001
                  Sample.verify_req Sample.world_with_otp)))
     = Some (Value "123456")
  /\ option_map User.otpExpire
       (account_of Ref.platform "alice@mail.com"
          (snd (verifyOTPAndSetNewPassword Ref.platform 600001
                  Sample.verify_req Sample.world_with_otp)))
     = Some (Value 600000)
  /\ option_map User.otp
       (account_of Ref.platform "alice@mail.com"
          (snd (verifyOTPAndSetNewPassword Ref.platform 600001
                  Sample.verify_req Sample.world_with_otp)))
     <> Some Null.
Proof.
  split; [vm_compute; reflexivity|].
  split; [vm_compute; reflexivity|].
  split; [vm_compute; reflexivity|].
  vm_compute. discriminate.
Qed.

(** C10 (amended). The pair is cleared by a successful use only: a
    verifyOTPAndSetNewPassword call that fails, with "OTP expired" or
    otherwise, leaves the whole store as it was, so the user's [otp],
    [otpExpire] and [password] are unchanged. *)
Theorem failed_verification_changes_nothing (P : Platform) (now : Z)
        (req : Req) (w w' : World) (e : JsError) :
  verifyOTPAndSetNewPassword P now req w = (NextErr e, w') -> w' = w.
Proof.
  unfold verifyOTPAndSetNewPassword, verifyOTPAndSetNewPassword_body, hash. run.
  destruct (findOne _ (users w)) as [u|]; [|now intros [= _ <-]].
  destruct (otp_differs _ _); cbn; [now intros [= _ <-]|].
  destruct (after now _); cbn; [now intros [= _ <-]|].
  destruct (str_field (body req) "newPassword"); cbn; [discriminate|].
  now intros [= _ <-].
Qed.

Lemma failed_verification_witness :
  snd (verifyOTPAndSetNewPassword Ref.platform 600001 Sample.verify_req
         Sample.world_with_otp)
  = Sample.world_with_otp.
Proof.
  apply (failed_verification_changes_nothing Ref.platform 600001
           Sample.verify_req Sample.world_with_otp _
           (AppError (MsgText "OTP expired") 400)).
  vm_compute. reflexivity.
Defined.

(* ------------------------------------------------------------------ *)
(** ** Further checks on the sample data *)

Lemma existence_checked_before_ownership_witness :
  castObjectId Ref.platform "65f000000000000000000404"
  = Some "65f000000000000000000404"
  /\ job_lookup Ref.platform Sample.missing_job_req Sample.world = None
  /\ updateJob Ref.platform Sample.missing_job_req Sample.world
     = (NextErr (AppError (MsgText "Job not found") 404), Sample.world)
  /\ deleteJob Ref.platform Sample.missing_job_req Sample.world
     = (NextErr (AppError (MsgText "Job not found") 404), Sample.world)
  /\ getAllApplicationsForSpecificJob Ref.platform Sample.missing_job_req
                                      Sample.world
     = (NextErr (AppError (MsgText "Job not found") 404), Sample.world)
  /\ statusCode (AppError (MsgText
                    "Only the company owner can update the data") 403)
     = Some 403
  /\ (exists j,
        job_lookup Ref.platform
                   (Sample.as_user Sample.hani Sample.bad_update_req)
                   Sample.world = Some j)
  /\ status (fst (dispatch [deleteJob Ref.platform] Sample.malformed_job_req
                           Sample.world)) = 500.
Proof.
  split; [reflexivity|]. split; [reflexivity|].
  pose proof (proj1 (existence_checked_before_ownership Ref.platform
                       Sample.missing_job_req Sample.world)
                    "65f000000000000000000404" "65f000000000000000000404"
                    eq_refl eq_refl eq_refl)
    as (Hu & Hd & Ha & _).
  split; [exact Hu|]. split; [exact Hd|]. split; [exact Ha|].
  split; [reflexivity|]. split.
  - apply (proj1 (proj2 (existence_checked_before_ownership Ref.platform
                           (Sample.as_user Sample.hani Sample.bad_update_req)
                           Sample.world))
                 (updateJob Ref.platform)
                 (AppError (MsgText
                    "Only the company owner can update the data") 403)
                 Sample.world);
      [left; reflexivity | reflexivity | left; reflexivity].
  - apply (proj2 (proj2 (existence_checked_before_ownership Ref.platform
                           Sample.malformed_job_req Sample.world))
                 "zzz" (deleteJob Ref.platform));
      [reflexivity | reflexivity | right; left; reflexivity].
Defined.

(** The gap after persistence: when the buffered file cannot be removed
    the answer is 500 although the Application has been stored. *)
Lemma applyToJob_cleanup_failure_after_persist :
  status (fst (dispatch [applyToJob Ref.platform]
                        Sample.apply_req_lost_resume Sample.world)) = 500
  /\ length (applications
               (snd (dispatch [applyToJob Ref.platform]
                              Sample.apply_req_lost_resume Sample.world))) = 1%nat.
Proof. split; vm_compute; reflexivity. Qed.

(** The owner of a job gets through all three guarded operations. *)
Lemma owner_succeeds_on_sample :
  status (fst (dispatch [updateJob Ref.platform]
                        (Sample.as_user Sample.hana Sample.bad_update_req)
                        Sample.world)) = 200
  /\ status (fst (dispatch [deleteJob Ref.platform]
                           (Sample.as_user Sample.hana Sample.bad_update_req)
                           Sample.world)) = 200.
Proof. split; vm_compute; reflexivity. Qed.

(* ================================================================== *)
(** * Further properties of the controllers *)

(** ** Lookups after an update or a removal by id *)

Section ByIdLemmas.
Context {D : Type} (key : D -> string).

Lemma findById_updateById_same (i : string) (f : D -> D) (l : list D) :
  (forall d, key (f d) = key d) ->
  findById key i (updateById key i f l) = option_map f (findById key i l).
Proof.
  intros Hk. unfold findById. induction l as [|d l IH]; [reflexivity|].
  cbn. destruct (String.eqb (key d) i) eqn:E; cbn.
  - now rewrite Hk, E.
  - now rewrite E.
Qed.

Lemma findById_updateById_other (i j : string) (f : D -> D) (l : list D) :
  i <> j -> (forall d, key (f d) = key d) ->
  findById key j (updateById key i f l) = findById key j l.
Proof.
  intros Hij Hk. unfold findById. induction l as [|d l IH]; [reflexivity|].
  cbn. destruct (String.eqb_spec (key d) i) as [E|E]; cbn.
  - rewrite Hk. destruct (String.eqb_spec (key d) j); [congruence|reflexivity].
  - now rewrite IH.
Qed.

Lemma findById_deleteById_other (i j : string) (l : list D) :
  i <> j -> findById key j (deleteById key i l) = findById key j l.
Proof.
  intros Hij. unfold findById. induction l as [|d l IH]; [reflexivity|].
  cbn. destruct (String.eqb_spec (key d) i) as [E|E]; cbn.
  - destruct (String.eqb_spec (key d) j); [congruence|reflexivity].
  - now rewrite IH.
Qed.

Lemma findById_absent (i : string) (l : list D) :
  ~ In i (map key l) -> findById key i l = None.
Proof.
  unfold findById. induction l as [|d l IH]; [reflexivity|].
  cbn. intros H. destruct (String.eqb_spec (key d) i) as [E|E]; [tauto|].
  apply IH. tauto.
Qed.

Lemma findById_deleteById_same (i : string) (l : list D) :
  NoDup (map key l) -> findById key i (deleteById key i l) = None.
Proof.
  induction l as [|d l IH]; [reflexivity|].
  cbn. intros Hnd. inversion Hnd as [|? ? Hnotin Hnd']; subst.
  destruct (String.eqb_spec (key d) i) as [E|E].
  - apply findById_absent. now rewrite <- E.
  - unfold findById in *. cbn.
    destruct (String.eqb_spec (key d) i); [congruence|]. now apply IH.
Qed.

Lemma findById_key (i : string) (l : list D) (d : D) :
  findById key i l = Some d -> key d = i /\ In d l.
Proof.
  unfold findById. intros H. apply find_some in H. destruct H as [Hin H].
  apply String.eqb_eq in H. tauto.
Qed.

(** With unique ids, the document a query finds is the one its id
    designates. *)
Lemma find_then_findById (p : D -> bool) (l : list D) (u : D) :
  NoDup (map key l) -> find p l = Some u -> findById key (key u) l = Some u.
Proof.
  intros Hnd Hf. induction l as [|d l IH]; [discriminate|].
  unfold findById in *. cbn in Hf |- *.
  inversion Hnd as [|? ? Hnotin Hnd']; subst.
  destruct (p d).
  - injection Hf as ->. now rewrite String.eqb_refl.
  - destruct (String.eqb_spec (key d) (key u)) as [E|E].
    + exfalso. apply Hnotin. rewrite E. apply in_map.
      apply find_some in Hf. tauto.
    + now apply IH.
Qed.

Lemma updateOne_found (p : D -> bool) (f : D -> D) (l : list D) (u : D) :
  NoDup (map key l) -> find p l = Some u -> (forall d, key (f d) = key d) ->
  findById key (key u) (updateOne p f l) = Some (f u).
Proof.
  intros Hnd Hf Hk. induction l as [|d l IH]; [discriminate|].
  unfold findById in *. cbn in Hf |- *.
  inversion Hnd as [|? ? Hnotin Hnd']; subst.
  destruct (p d).
  - injection Hf as ->. cbn. now rewrite Hk, String.eqb_refl.
  - cbn. destruct (String.eqb_spec (key d) (key u)) as [E|E].
    + exfalso. apply Hnotin. rewrite E. apply in_map.
      apply find_some in Hf. tauto.
    + now apply IH.
Qed.

End ByIdLemmas.

(* ------------------------------------------------------------------ *)
(** ** Sessions: SignIn, logout and the status gate *)

(** X1. [SignIn] looks the login up as an email or a recovery email in
    lower case, or as a mobile number as given.  It refuses a login that
    finds nobody and a wrong password with the same response, 400
    "Incorrect password or email", and writes nothing: in particular the
    account's status is not touched. *)
Theorem SignIn_refusal_is_uniform (P : Platform) (cfg : Config) (now : Z)
        (req : Req) (w : World) :
  (signin_account P req w = None ->
     dispatch [SignIn P cfg now] req w
     = ({| status := 400;
           json := [("message", JText "Incorrect password or email")] |}, w))
  /\ (forall u pw,
        signin_account P req w = Some u ->
        str_field (body req) "password" = Some pw ->
        compareSync P pw (User.password u) = false ->
        dispatch [SignIn P cfg now] req w
        = ({| status := 400;
              json := [("message", JText "Incorrect password or email")] |}, w)).
Proof.
  unfold signin_account, signin_filter. split.
  - intros H. cbn [dispatch]. unfold SignIn, SignIn_body. run.
    rewrite H. reflexivity.
  - intros u pw H Hpw Hc. cbn [dispatch]. unfold SignIn, SignIn_body, compare.
    run. rewrite H, Hpw. cbn. rewrite Hc. reflexivity.
Qed.

Lemma SignIn_refusal_witness :
  signin_account Ref.platform Cases.bob_wrong_password Sample.world
  = Some Sample.bob
  /\ dispatch [SignIn Ref.platform Sample.cfg 1000000] Cases.nobody_signin
              Sample.world
     = ({| status := 400;
           json := [("message", JText "Incorrect password or email")] |},
        Sample.world)
  /\ dispatch [SignIn Ref.platform Sample.cfg 1000000] Cases.bob_wrong_password
              Sample.world
     = ({| status := 400;
           json := [("message", JText "Incorrect password or email")] |},
        Sample.world).
Proof.
  split; [reflexivity|]. split.
  - apply (proj1 (SignIn_refusal_is_uniform Ref.platform Sample.cfg 1000000
                    Cases.nobody_signin Sample.world)). reflexivity.
  - apply (proj2 (SignIn_refusal_is_uniform Ref.platform Sample.cfg 1000000
                    Cases.bob_wrong_password Sample.world)
                 Sample.bob "guess"); reflexivity.
Defined.

(** A login in capitals finds the account whose email it is in lower
    case. *)
Example SignIn_case_variant_login :
  str_field (body Cases.alice_signin_capitals) "emailOrRecoveryEmailOrMobile"
  = Some "ALICE@MAIL.COM"
  /\ signin_account Ref.platform Cases.alice_signin_capitals Sample.world
     = Some Sample.alice
  /\ status (fst (dispatch [SignIn Ref.platform Sample.cfg 1000000]
                           Cases.alice_signin_capitals Sample.world)) = 200.
Proof. split; [reflexivity|]. split; [reflexivity|]. vm_compute. reflexivity. Qed.

(** What a successful [SignIn] has found, returned and written. *)
Lemma SignIn_success (P : Platform) (cfg : Config) (now : Z) (req : Req)
      (w w' : World) (r : Response) :
  SignIn P cfg now req w = (Sent r, w') ->
  exists u,
    signin_account P req w = Some u
    /\ field (json r) "token"
       = Some (JText (jwt_sign P (identity_of u) (JWT_SECRET cfg)
                               (JWT_EXPIRES_IN cfg) (now / 1000)))
    /\ status r = 200
    /\ w' = with_users
              (updateOne (signin_filter P req) (set_status online) (users w)) w.
Proof.
  unfold signin_account, signin_filter, SignIn, SignIn_body, compare. run.
  destruct (findOne _ (users w)) as [u|] eqn:Hu; [|discriminate].
  destruct (str_field (body req) "password") as [pw|]; [|discriminate].
  destruct (compareSync P pw (User.password u)); cbn; [|discriminate].
  intros H. injection H as <- <-. exists u. repeat split.
Qed.

(** X2. Under a deployment whose secret is the literal of [auth], a
    successful [SignIn] followed, before the token expires, by
    GET /user/getUserData with the returned token answers 200 with the
    record of the account that signed in, stored with status online,
    whatever its status was before. *)
Theorem SignIn_then_getUserData (P : Platform) (L : JwtLaws P) (cfg : Config)
        (now now' : Z) (req req' : Req) (w w' : World) (r : Response)
        (tok : string) :
  JWT_SECRET cfg = "secret" ->
  unique_ids w ->
  SignIn P cfg now req w = (Sent r, w') ->
  field (json r) "token" = Some (JText tok) ->
  token req' = Some tok ->
  now' / 1000 < now / 1000 + JWT_EXPIRES_IN cfg ->
  exists u,
    signin_account P req w = Some u
    /\ dispatch (route_getUserData P now') req' w'
       = ({| status := 200;
             json := [("message", JText "Success");
                      ("user", JUser (set_status online u))] |}, w').
Proof.
  intros Hs Hnd Hin Htok Hreq Hexp.
  destruct (SignIn_success _ _ _ _ _ _ _ Hin) as (u & Hu & Ht & _ & Hw').
  rewrite Htok in Ht. injection Ht as ->.
  exists u. split; [exact Hu|].
  unfold route_getUserData. cbn [dispatch].
  rewrite (auth_on_token _ _ _ _ _ _ Hreq (sign_nonempty P L _ _ _ _)).
  rewrite Hs, (verify_sign P L _ _ _ _ _ Hexp). cbn [role_mismatch].
  unfold getUserData, getUserData_body. run. cbn [user set_user decoded_claims sub].
  assert (Hf : findById User._id (User._id u) (users w')
               = Some (set_status online u)).
  { rewrite Hw'. cbn [users with_users].
    exact (updateOne_found User._id (signin_filter P req) (set_status online)
             (users w) u Hnd Hu (fun _ => eq_refl)). }
  unfold ret. cbn [id identity_of]. rewrite Hf. reflexivity.
Qed.

Lemma SignIn_then_getUserData_witness :
  exists w',
    SignIn Ref.platform Sample.cfg_literal 1000000 Cases.bob_signin Sample.world
    = (Sent {| status := 200;
               json := [("message", JText "SignIn successfully");
                        ("token", JText Cases.bob_token)] |}, w')
    /\ dispatch (route_getUserData Ref.platform 1001000)
                (Sample.with_token Cases.bob_token
                   (Sample.request "/user/getUserData")) w'
       = ({| status := 200;
             json := [("message", JText "Success");
                      ("user", JUser (set_status online Sample.bob))] |}, w').
Proof.
  eexists. split; [vm_compute; reflexivity|].
  assert (Hnd : unique_ids Sample.world).
  { unfold unique_ids. cbn.
    repeat (constructor; [cbn; intuition discriminate|]). constructor. }
  destruct (SignIn_then_getUserData Ref.platform ref_jwt_laws Sample.cfg_literal
              1000000 1001000 Cases.bob_signin
              (Sample.with_token Cases.bob_token
                 (Sample.request "/user/getUserData"))
              Sample.world _ _ Cases.bob_token
              eq_refl Hnd ltac:(vm_compute; reflexivity) eq_refl eq_refl eq_refl)
    as (u & Hu & Hd).
  vm_compute in Hu. injection Hu as <-. exact Hd.
Defined.

(** X3. [logout] answers 200 for any stored account, online or offline,
    and leaves it offline; doing it again changes nothing more; and from
    then on getUserData by that identity stops at the status gate with
    401 "LogIn first". *)
Theorem logout_closes_the_gate (req : Req) (w : World) (c : Claims) (x : User.t) :
  authenticated c req ->
  findById User._id (id (sub c)) (users w) = Some x ->
  exists w',
    logout req w
    = (Sent {| status := 200;
               json := [("message", JText "Logout successfully")] |}, w')
    /\ findById User._id (id (sub c)) (users w') = Some (set_status offline x)
    /\ logout req w'
       = (Sent {| status := 200;
                  json := [("message", JText "Logout successfully")] |}, w')
    /\ getUserData req w'
       = (NextErr (AppError (MsgText "LogIn first") 401), w').
Proof.
  unfold authenticated. intros Hc Hx.
  destruct (User.status x) eqn:Hst.
  - exists (with_users (updateById User._id (id (sub c)) (set_status offline)
                          (users w)) w).
    assert (Hf : findById User._id (id (sub c))
                   (updateById User._id (id (sub c)) (set_status offline)
                               (users w))
                 = Some (set_status offline x)).
    { rewrite findById_updateById_same, Hx; reflexivity. }
    unfold logout, logout_body, getUserData, getUserData_body. run.
    rewrite Hc. unfold ret. cbn [users with_users].
    rewrite Hx, Hst, Hf. cbn. repeat split.
  - exists w.
    assert (Hx' : set_status offline x = x).
    { clear Hx. destruct x. cbn in Hst. subst. reflexivity. }
    unfold logout, logout_body, getUserData, getUserData_body. run.
    rewrite Hc. unfold ret. rewrite Hx, Hst, Hx'. cbn. repeat split.
Qed.

Lemma logout_closes_the_gate_witness :
  exists w',
    logout (Cases.as_alice "/user/logout") Sample.world
    = (Sent {| status := 200;
               json := [("message", JText "Logout successfully")] |}, w')
    /\ getUserData (Cases.as_alice "/user/logout") w'
       = (NextErr (AppError (MsgText "LogIn first") 401), w').
Proof.
  destruct (logout_closes_the_gate (Cases.as_alice "/user/logout") Sample.world
              (Sample.claims_of Sample.alice) Sample.alice eq_refl eq_refl)
    as (w' & H1 & _ & _ & H2).
  exists w'. split; assumption.
Defined.

(** X4. updateJob and deleteJob never read or write the users
    collection: with any other collection of users in the store (the
    caller logged out, or deleted) they give the same answer and the same
    changes.  The listing of a job's applications does read it, to put
    the applicant in place of each [userId], but writes nothing. *)
Theorem job_operations_ignore_accounts (P : Platform) (us : list User.t)
        (req : Req) (w : World) :
  updateJob P req (with_users us w)
  = (fst (updateJob P req w), with_users us (snd (updateJob P req w)))
  /\ deleteJob P req (with_users us w)
     = (fst (deleteJob P req w), with_users us (snd (deleteJob P req w)))
  /\ snd (getAllApplicationsForSpecificJob P req w) = w.
Proof.
  unfold updateJob, updateJob_body, deleteJob, deleteJob_body,
    getAllApplicationsForSpecificJob, getAllApplicationsForSpecificJob_body,
    Job_findById_object, Job_findById.
  run.
  destruct (str_field (params req) "id") as [i|]; cbn; [|repeat split].
  destruct (castObjectId P i) as [oid|]; cbn [jobs with_users];
    [|repeat split].
  destruct (findById Job._id oid (jobs w)) as [j|]; [|repeat split].
  destruct (user req) as [c|]; cbn; [|repeat split].
  destruct (String.eqb (Job.addedBy j) (id (sub c))); cbn; repeat split.
Qed.

(** The listing answers with what the users collection holds: the same
    application is listed with its applicant, and with null in its place
    once the applicant's account is gone. *)
Example listing_reads_accounts :
  fst (getAllApplicationsForSpecificJob Ref.platform
         (Cases5.hana_job_req Sample.listing_url)
         Cases5.world_with_applications)
  = Sent {| status := 200;
            json := [("applications",
                      JApplications
                        [(Cases5.bob_application,
                          Some (project_applicant Sample.bob))])] |}
  /\ fst (getAllApplicationsForSpecificJob Ref.platform
            (Cases5.hana_job_req Sample.listing_url)
            (with_users [Sample.hana] Cases5.world_with_applications))
     = Sent {| status := 200;
               json := [("applications",
                         JApplications [(Cases5.bob_application, None)])] |}.
Proof. split; vm_compute; reflexivity. Qed.

(* ------------------------------------------------------------------ *)
(** ** Sign-up *)

Lemma find_app_last {D} (p : D -> bool) (l : list D) (d : D) :
  p d = true -> exists d', find p (l ++ [d]) = Some d'.
Proof.
  intros H. induction l as [|x l IH]; cbn.
  - rewrite H. eauto.
  - destruct (p x); eauto.
Qed.

Lemma find_app_none_last {D} (p : D -> bool) (l : list D) (d : D) :
  find p l = None -> p d = true -> find p (l ++ [d]) = Some d.
Proof.
  intros Hn H. induction l as [|x l IH]; cbn in *.
  - now rewrite H.
  - destruct (p x); [discriminate|]. now apply IH.
Qed.

(** What a sign-up that collides with nobody writes and answers. *)
Lemma signUp_creates (P : Platform) (cfg : Config) (req : Req) (w : World)
      (fn ln em pw dob mob rec : string) (r : Role) :
  signup_fields req fn ln em pw dob mob rec ->
  requested_role req = Some r ->
  duplicate_user P req w = None ->
  signUp P cfg req w
  = (Sent {| status := 201; json := [("message", JText "signup successfully")] |},
     with_users
       (users w ++
          [User.mk (ObjectId P (oid_counter w)) fn ln (toLowerCase P (fn ++ ln))
                   (toLowerCase P em)
                   (hashSync P pw (BCRYPT_SALT_ROUNDS cfg)) (toLowerCase P rec)
                   dob mob r offline Unset Unset])
       (with_oid_counter (S (oid_counter w)) w)).
Proof.
  unfold signup_fields, requested_role, duplicate_user.
  intros ((Hfn & Hln & Hem & Hpw & Hdob & Hmob & Hrec) & _) Hr Hdup.
  unfold signUp, signUp_body, hash, User_create, fresh_id. run.
  rewrite Hdup, Hfn, Hln, Hem, Hpw, Hdob, Hmob, Hrec. cbn.
  rewrite Hr. reflexivity.
Qed.

(** X5. A sign-up that carries the seven required fields as the user
    schema accepts them, asks for no role or for one of the two roles,
    and whose email, in lower case, and mobile number nobody has yet,
    answers 201 and appends exactly one account: offline, with no OTP,
    its password stored as the bcrypt hash under the configured rounds,
    its email, recovery email and username (first name then last name)
    stored in lower case, its role 'User' when none was asked for.
    Nothing else in the store changes but the ObjectId counter. *)
Theorem signUp_appends_one_offline_account
        (P : Platform) (cfg : Config) (req : Req) (w : World)
        (fn ln em pw dob mob rec : string) (r : Role) :
  signup_fields req fn ln em pw dob mob rec ->
  requested_role req = Some r ->
  duplicate_user P req w = None ->
  exists w' u,
    dispatch [signUp P cfg] req w
    = ({| status := 201; json := [("message", JText "signup successfully")] |}, w')
    /\ users w' = (users w ++ [u])%list
    /\ User.status u = offline /\ User.otp u = Unset /\ User.otpExpire u = Unset
    /\ User.password u = hashSync P pw (BCRYPT_SALT_ROUNDS cfg)
    /\ User.email u = toLowerCase P em
    /\ User.recoveryEmail u = toLowerCase P rec
    /\ User.username u = toLowerCase P (fn ++ ln)
    /\ User.firstName u = fn /\ User.lastName u = ln
    /\ User.mobileNumber u = mob
    /\ User.role u = r
    /\ (str_field (body req) "role" = None -> r = User_role)
    /\ companies w' = companies w /\ jobs w' = jobs w
    /\ applications w' = applications w.
Proof.
  intros Hf Hr Hdup. cbn [dispatch].
  rewrite (signUp_creates P cfg req w _ _ _ _ _ _ _ r Hf Hr Hdup).
  eexists. eexists. split; [reflexivity|]. cbn. repeat split.
  intros Hnone. unfold requested_role in Hr. rewrite Hnone in Hr. cbn in Hr.
  congruence.
Qed.

Lemma signUp_appends_witness :
  exists w' u,
    dispatch [signUp Ref.platform Sample.cfg] Cases2.dina_signup Sample.world
    = ({| status := 201; json := [("message", JText "signup successfully")] |}, w')
    /\ users w' = (users Sample.world ++ [u])%list
    /\ User.status u = offline /\ User.role u = User_role
    /\ User.email u = "dina@mail.com" /\ User.username u = "dinafahmy".
Proof.
  destruct (signUp_appends_one_offline_account Ref.platform Sample.cfg
              Cases2.dina_signup Sample.world
              "Dina" "Fahmy" "Dina@Mail.com" "Passw0rdD" "1993-06-06"
              "01022223333" "dina.r@mail.com" User_role
              ltac:(repeat split; try discriminate; cbn; tauto) eq_refl eq_refl)
    as (w' & u & H & Hu & Hs & _ & _ & _ & Hem & _ & Hun & _ & _ & _ & Hr & _).
  exists w', u. repeat split; assumption.
Defined.

(** A sign-up under an email that differs from a stored one in case
    only is refused as a duplicate. *)
Example signUp_case_variant_email :
  str_field (body Cases2.alice_capitals_signup) "email" = Some "ALICE@MAIL.COM"
  /\ dispatch [signUp Ref.platform Sample.cfg] Cases2.alice_capitals_signup
              Sample.world
     = ({| status := 400; json := [("message", JText "Email already exists")] |},
        Sample.world).
Proof. split; [reflexivity|]. vm_compute. reflexivity. Qed.

(** X6. After a successful sign-up, any later sign-up that reuses its
    email or its mobile number is refused with 400 "Email already
    exists" and adds nothing. *)
Theorem signUp_not_repeatable
        (P : Platform) (cfg : Config) (req req2 : Req) (w w' : World)
        (fn ln em pw dob mob rec : string) (r : Role) :
  signup_fields req fn ln em pw dob mob rec ->
  requested_role req = Some r ->
  duplicate_user P req w = None ->
  signUp P cfg req w
  = (Sent {| status := 201; json := [("message", JText "signup successfully")] |},
     w') ->
  str_field (body req2) "email" = Some em
  \/ str_field (body req2) "mobileNumber" = Some mob ->
  dispatch [signUp P cfg] req2 w'
  = ({| status := 400; json := [("message", JText "Email already exists")] |}, w').
Proof.
  intros Hf Hr Hdup Hrun H2.
  rewrite (signUp_creates P cfg req w _ _ _ _ _ _ _ r Hf Hr Hdup) in Hrun.
  injection Hrun as <-.
  cbn [dispatch]. unfold signUp, signUp_body. run. cbn [users with_users].
  match goal with
  | |- context [findOne ?p (users w ++ [?d])] =>
      destruct (find_app_last p (users w) d) as (d' & Hd')
  end.
  - cbn. destruct H2 as [-> | ->]; cbn; rewrite String.eqb_refl;
      [reflexivity | apply orb_true_r].
  - unfold findOne. rewrite Hd'. reflexivity.
Qed.

Lemma signUp_not_repeatable_witness :
  dispatch [signUp Ref.platform Sample.cfg] Cases2.dina_signup
           Cases2.world_with_dina
  = ({| status := 400; json := [("message", JText "Email already exists")] |},
     Cases2.world_with_dina).
Proof.
  apply (signUp_not_repeatable Ref.platform Sample.cfg Cases2.dina_signup
           Cases2.dina_signup Sample.world Cases2.world_with_dina
           "Dina" "Fahmy" "Dina@Mail.com" "Passw0rdD" "1993-06-06"
           "01022223333" "dina.r@mail.com" User_role).
  - repeat split; discriminate.
  - reflexivity.
  - reflexivity.
  - vm_compute. reflexivity.
  - left. reflexivity.
Defined.

(** X7. Sign-up then sign-in: when the login of a fresh account finds
    no older account (by email or recovery email in lower case, or by
    mobile number), and bcrypt recognises the password under its own
    hash, [SignIn] with the email and password of the sign-up answers 200
    with a token for the new account, whose email is the submitted one in
    lower case. *)
Theorem signUp_then_SignIn
        (P : Platform) (cfg : Config) (now : Z) (req req_in : Req)
        (w w' : World) (fn ln em pw dob mob rec : string) (r : Role) :
  signup_fields req fn ln em pw dob mob rec ->
  requested_role req = Some r ->
  duplicate_user P req w = None ->
  signUp P cfg req w
  = (Sent {| status := 201; json := [("message", JText "signup successfully")] |},
     w') ->
  str_field (body req_in) "emailOrRecoveryEmailOrMobile" = Some em ->
  str_field (body req_in) "password" = Some pw ->
  signin_account P req_in w = None ->
  compareSync P pw (hashSync P pw (BCRYPT_SALT_ROUNDS cfg)) = true ->
  exists u w'',
    signin_account P req_in w' = Some u
    /\ User.email u = toLowerCase P em
    /\ User._id u = ObjectId P (oid_counter w)
    /\ SignIn P cfg now req_in w'
       = (Sent {| status := 200;
                  json := [("message", JText "SignIn successfully");
                           ("token",
                            JText (jwt_sign P (identity_of u) (JWT_SECRET cfg)
                                            (JWT_EXPIRES_IN cfg) (now / 1000)))] |},
          w'').
Proof.
  intros Hf Hr Hdup Hrun Hlogin Hpw Hnone Hbcrypt.
  rewrite (signUp_creates P cfg req w _ _ _ _ _ _ _ r Hf Hr Hdup) in Hrun.
  injection Hrun as <-.
  unfold signin_account, signin_filter in *. cbn [users with_users].
  match goal with
  | |- context [findOne ?p (users w ++ [?d])] =>
      assert (Hfind : findOne p (users w ++ [d]) = Some d)
  end.
  { apply find_app_none_last; [exact Hnone|].
    rewrite Hlogin. cbn. now rewrite String.eqb_refl. }
  eexists. eexists. split; [exact Hfind|]. split; [reflexivity|].
  split; [reflexivity|].
  unfold SignIn, SignIn_body, compare. run. cbn [users with_users].
  rewrite Hfind, Hpw. cbn. rewrite Hbcrypt. reflexivity.
Qed.

Lemma signUp_then_SignIn_witness :
  exists w'',
    SignIn Ref.platform Sample.cfg 1000000 Cases2.dina_signin
           Cases2.world_with_dina
    = (Sent {| status := 200;
               json := [("message", JText "SignIn successfully");
                        ("token",
                         JText (jwt_sign Ref.platform (identity_of Cases2.dina)
                                         "s3cr3t-key" 3600 1000))] |}, w'').
Proof.
  destruct (signUp_then_SignIn Ref.platform Sample.cfg 1000000
              Cases2.dina_signup Cases2.dina_signin Sample.world
              Cases2.world_with_dina
              "Dina" "Fahmy" "Dina@Mail.com" "Passw0rdD" "1993-06-06"
              "01022223333" "dina.r@mail.com" User_role
              ltac:(repeat split; try discriminate; cbn; tauto) eq_refl eq_refl
              ltac:(vm_compute; reflexivity) eq_refl eq_refl eq_refl eq_refl)
    as (u & w'' & Hu & _ & _ & Hrun).
  vm_compute in Hu. injection Hu as <-. exists w''. exact Hrun.
Defined.

(* ------------------------------------------------------------------ *)
(** ** Changing and deleting an account *)

(** X8. [updatePassword] for a stored, authenticated account: offline,
    it stops at 401 "LogIn first"; online, a current password bcrypt does
    not recognise gives 400 "Current password is incorrect" and a new
    password bcrypt recognises under the stored hash gives 400 "The
    current password matches the new password", all three without a
    write.  Otherwise the answer is 200, the account's password becomes
    the bcrypt hash of the new one under 8 rounds (not the configured
    rounds), nothing else of the account changes and no other account is
    touched. *)
Theorem updatePassword_cases (P : Platform) (req : Req) (w : World)
        (c : Claims) (x : User.t) (cur new : string) :
  authenticated c req ->
  findById User._id (id (sub c)) (users w) = Some x ->
  str_field (body req) "currentPassword" = Some cur ->
  str_field (body req) "newPassword" = Some new ->
  (User.status x = offline ->
     updatePassword P req w
     = (NextErr (AppError (MsgText "LogIn first") 401), w))
  /\ (User.status x = online ->
      compareSync P cur (User.password x) = false ->
      updatePassword P req w
      = (NextErr (AppError (MsgText "Current password is incorrect") 400), w))
  /\ (User.status x = online ->
      compareSync P cur (User.password x) = true ->
      compareSync P new (User.password x) = true ->
      updatePassword P req w
      = (NextErr (AppError (MsgText
           "The current password matches the new password") 400), w))
  /\ (User.status x = online ->
      compareSync P cur (User.password x) = true ->
      compareSync P new (User.password x) = false ->
      exists w',
        updatePassword P req w
        = (Sent {| status := 200;
                   json := [("message", JText "Password updated successfully")] |},
           w')
        /\ findById User._id (id (sub c)) (users w')
           = Some (set_password (hashSync P new 8) x)
        /\ (forall j, j <> id (sub c) ->
              findById User._id j (users w') = findById User._id j (users w))
        /\ companies w' = companies w /\ jobs w' = jobs w
        /\ applications w' = applications w).
Proof.
  unfold authenticated. intros Hc Hx Hcur Hnew.
  repeat split; intros Hst;
    unfold updatePassword, updatePassword_body, compare, hash; run;
    rewrite Hc; unfold ret; rewrite Hx, Hst, Hcur, Hnew; cbn.
  - reflexivity.
  - intros ->. reflexivity.
  - intros -> ->. reflexivity.
  - intros -> ->. cbn. eexists. split; [reflexivity|]. cbn [users with_users].
    split; [|split; [|repeat split]].
    + rewrite findById_updateById_same, Hx; reflexivity.
    + intros j Hj. apply findById_updateById_other; [congruence|reflexivity].
Qed.

Lemma updatePassword_cases_witness :
  updatePassword Ref.platform (Cases3.change_password "guess" "N3wPassword")
                 Sample.world
  = (NextErr (AppError (MsgText "Current password is incorrect") 400),
     Sample.world)
  /\ updatePassword Ref.platform
                    (Cases3.change_password "Passw0rdA" "Passw0rdA")
                    Sample.world
     = (NextErr (AppError (MsgText
          "The current password matches the new password") 400), Sample.world)
  /\ exists w',
       updatePassword Ref.platform
                      (Cases3.change_password "Passw0rdA" "N3wPassword")
                      Sample.world
       = (Sent {| status := 200;
                  json := [("message", JText "Password updated successfully")] |},
          w')
       /\ option_map User.password
            (findById User._id (User._id Sample.alice) (users w'))
          = Some "$2b$8$N3wPassword".
Proof.
  split; [|split].
  - apply (proj1 (proj2 (updatePassword_cases Ref.platform
                           (Cases3.change_password "guess" "N3wPassword")
                           Sample.world (Sample.claims_of Sample.alice)
                           Sample.alice "guess" "N3wPassword"
                           eq_refl eq_refl eq_refl eq_refl)));
      reflexivity.
  - apply (proj1 (proj2 (proj2 (updatePassword_cases Ref.platform
                           (Cases3.change_password "Passw0rdA" "Passw0rdA")
                           Sample.world (Sample.claims_of Sample.alice)
                           Sample.alice "Passw0rdA" "Passw0rdA"
                           eq_refl eq_refl eq_refl eq_refl))));
      reflexivity.
  - destruct (proj2 (proj2 (proj2 (updatePassword_cases Ref.platform
                           (Cases3.change_password "Passw0rdA" "N3wPassword")
                           Sample.world (Sample.claims_of Sample.alice)
                           Sample.alice "Passw0rdA" "N3wPassword"
                           eq_refl eq_refl eq_refl eq_refl)))
                    eq_refl eq_refl eq_refl) as (w' & Hrun & Hf & _).
    exists w'. split; [exact Hrun|].
    change (id (sub (Sample.claims_of Sample.alice)))
      with (User._id Sample.alice) in Hf.
    rewrite Hf. reflexivity.
Defined.

(** X9. [deleteAccount] by an online account, in a store with unique
    ids: the answer is 200 with the deleted record; afterwards the id
    resolves to nothing, so getUserData, updateAccount, deleteAccount and
    logout under the same token all answer 401 "Please SignUp"; every
    other account is as it was, and so are the companies, jobs and
    applications: nothing that refers to the account is removed with
    it. *)
Theorem deleteAccount_removes_only_the_account
        (P : Platform) (req : Req) (w : World) (c : Claims) (x : User.t) :
  unique_ids w ->
  authenticated c req ->
  findById User._id (id (sub c)) (users w) = Some x ->
  User.status x = online ->
  exists w',
    deleteAccount req w
    = (Sent {| status := 200;
               json := [("message", JText "Account deleted successfully");
                        ("user", JUser x)] |}, w')
    /\ findById User._id (id (sub c)) (users w') = None
    /\ (forall j, j <> id (sub c) ->
          findById User._id j (users w') = findById User._id j (users w))
    /\ companies w' = companies w /\ jobs w' = jobs w
    /\ applications w' = applications w
    /\ (forall req', authenticated c req' ->
          getUserData req' w' = (NextErr (AppError (MsgText "Please SignUp") 401), w')
          /\ updateAccount P req' w'
             = (NextErr (AppError (MsgText "Please SignUp") 401), w')
          /\ deleteAccount req' w'
             = (NextErr (AppError (MsgText "Please SignUp") 401), w')
          /\ logout req' w'
             = (NextErr (AppError (MsgText "Please SignUp") 401), w')).
Proof.
  unfold unique_ids, authenticated. intros Hnd Hc Hx Hon.
  exists (with_users (deleteById User._id (id (sub c)) (users w)) w).
  assert (Hgone : findById User._id (id (sub c))
                    (deleteById User._id (id (sub c)) (users w)) = None)
    by (apply findById_deleteById_same; exact Hnd).
  split.
  { unfold deleteAccount, deleteAccount_body. run. rewrite Hc. unfold ret.
    rewrite Hx, Hon. reflexivity. }
  cbn [users with_users companies jobs applications].
  split; [exact Hgone|]. split.
  { intros j Hj. apply findById_deleteById_other. congruence. }
  repeat split;
    unfold getUserData, getUserData_body, updateAccount, updateAccount_body,
      deleteAccount, deleteAccount_body, logout, logout_body; run;
    rewrite H; unfold ret; cbn [users with_users]; rewrite Hgone; reflexivity.
Qed.

Lemma deleteAccount_witness :
  exists w',
    deleteAccount (Cases.as_alice "/user/deleteAccount") Sample.world
    = (Sent {| status := 200;
               json := [("message", JText "Account deleted successfully");
                        ("user", JUser Sample.alice)] |}, w')
    /\ getUserData (Cases.as_alice "/user/getUserData") w'
       = (NextErr (AppError (MsgText "Please SignUp") 401), w').
Proof.
  assert (Hnd : unique_ids Sample.world).
  { unfold unique_ids. cbn.
    repeat (constructor; [cbn; intuition discriminate|]). constructor. }
  destruct (deleteAccount_removes_only_the_account Ref.platform
              (Cases.as_alice "/user/deleteAccount") Sample.world
              (Sample.claims_of Sample.alice) Sample.alice
              Hnd eq_refl eq_refl eq_refl)
    as (w' & Hrun & _ & _ & _ & _ & _ & Hafter).
  exists w'. split; [exact Hrun|].
  apply (Hafter (Cases.as_alice "/user/getUserData") eq_refl).
Defined.

(** X10. [updateAccount] by an online account, when no other account
    holds the submitted email, in lower case, or the submitted mobile
    number (the caller's own values are no conflict) and a submitted date
    of birth is a date: the answer is 200 with the stored record, which
    keeps its id, username, password, role, status and OTP pair and holds
    a submitted email in lower case; no other account is touched. *)
Theorem updateAccount_keeps_identity_fields
        (P : Platform) (req : Req) (w : World) (c : Claims) (x : User.t) :
  authenticated c req ->
  findById User._id (id (sub c)) (users w) = Some x ->
  User.status x = online ->
  duplicate_user_besides P (id (sub c)) req w = None ->
  (forall d, str_field (body req) "DOB" = Some d -> calendar_date d = true) ->
  exists w' x',
    updateAccount P req w
    = (Sent {| status := 200;
               json := [("message", JText "Account updated successfully");
                        ("user", JUser x')] |}, w')
    /\ findById User._id (id (sub c)) (users w') = Some x'
    /\ User._id x' = User._id x /\ User.username x' = User.username x
    /\ User.password x' = User.password x /\ User.role x' = User.role x
    /\ User.status x' = User.status x
    /\ User.otp x' = User.otp x /\ User.otpExpire x' = User.otpExpire x
    /\ (forall em, str_field (body req) "email" = Some em ->
          User.email x' = toLowerCase P em)
    /\ (forall j, j <> id (sub c) ->
          findById User._id j (users w') = findById User._id j (users w)).
Proof.
  unfold authenticated, duplicate_user_besides. intros Hc Hx Hon Hdup _.
  set (f := apply_account_updates P
              (str_field (body req) "email") (str_field (body req) "mobileNumber")
              (str_field (body req) "recoveryEmail") (str_field (body req) "DOB")
              (str_field (body req) "lastName") (str_field (body req) "firstName")).
  exists (with_users (updateById User._id (id (sub c)) f (users w)) w), (f x).
  assert (Hf : findById User._id (id (sub c))
                 (updateById User._id (id (sub c)) f (users w)) = Some (f x)).
  { rewrite findById_updateById_same, Hx; reflexivity. }
  split.
  { unfold updateAccount, updateAccount_body. run. rewrite Hc. unfold ret.
    rewrite Hx, Hon. cbn. rewrite Hdup. cbn [users with_users].
    unfold findById in Hf. fold f. rewrite Hf. reflexivity. }
  cbn [users with_users]. split; [exact Hf|]. cbn.
  split; [reflexivity|]. split; [reflexivity|]. split; [reflexivity|].
  split; [reflexivity|]. split; [reflexivity|]. split; [reflexivity|].
  split; [reflexivity|]. split.
  - intros em Hem. rewrite Hem. reflexivity.
  - intros j Hj. apply findById_updateById_other; [congruence|reflexivity].
Qed.

Lemma updateAccount_witness :
  exists w' x',
    updateAccount Ref.platform Cases3.alice_update Sample.world
    = (Sent {| status := 200;
               json := [("message", JText "Account updated successfully");
                        ("user", JUser x')] |}, w')
    /\ User.password x' = User.password Sample.alice
    /\ User.username x' = "alicedoe"
    /\ User.email x' = "alice@mail.com".
Proof.
  destruct (updateAccount_keeps_identity_fields Ref.platform
              Cases3.alice_update
              Sample.world (Sample.claims_of Sample.alice) Sample.alice
              eq_refl eq_refl eq_refl eq_refl
              ltac:(intros d H; cbn in H; discriminate H))
    as (w' & x' & Hrun & _ & _ & Hun & Hpw & _ & _ & _ & _ & Hem & _).
  exists w', x'. split; [exact Hrun|]. split; [exact Hpw|].
  split; [exact Hun|]. exact (Hem "Alice@Mail.com" eq_refl).
Defined.

(** An email that differs from another account's in case only is found
    by the lookup and passes both identity tests of the conflict check. *)
Example updateAccount_case_variant_email :
  duplicate_user_besides Ref.platform (User._id Sample.alice)
                         Cases3.alice_takes_bobs_email Sample.world
  = Some Sample.bob
  /\ strict_eq (User.email Sample.bob)
               (str_field (body Cases3.alice_takes_bobs_email) "email") = false.
Proof. split; reflexivity. Qed.

(* ------------------------------------------------------------------ *)
(** ** Password recovery, further *)

Lemma to_int_not_nil (z : Z) :
  Z.to_int z <> Decimal.Pos Decimal.Nil /\ Z.to_int z <> Decimal.Neg Decimal.Nil.
Proof.
  destruct z as [|p|p]; cbn; split; try discriminate;
    intros [= H]; pose proof (DecimalPos.Unsigned.of_to p) as E;
    rewrite H in E; discriminate.
Qed.

(** [String(n)] tells integers apart. *)
Lemma to_string_inj (a b : Z) : to_string a = to_string b -> a = b.
Proof.
  unfold to_string. intros H.
  apply DecimalZ.to_int_inj.
  destruct (to_int_not_nil a) as [Ha1 Ha2], (to_int_not_nil b) as [Hb1 Hb2].
  pose proof (NilZero.isi _ Ha1 Ha2) as Ea.
  pose proof (NilZero.isi _ Hb1 Hb2) as Eb.
  rewrite H in Ea. congruence.
Qed.

Lemma unique_ids_updateById (i : string) (f : User.t -> User.t) (w : World) :
  (forall d, User._id (f d) = User._id d) ->
  unique_ids w ->
  NoDup (map User._id (updateById User._id i f (users w))).
Proof.
  intros Hk H. rewrite map_key_updateById; assumption.
Qed.

(** X11. [forgetPassword] looks the login up as an email in lower case
    or as a mobile number: a login that finds nobody is refused with 400
    "Incorrect email or mobile number" and nothing is written.  For a
    login that finds an account the OTP and its expiry, ten minutes
    ahead, are stored before the mail is sent: when the transport rejects
    the mail the caller gets 500 and the OTP is in the store all the
    same; when it accepts, the answer is 201 and the one mail handed over
    goes to the account's recovery email, whatever login was used. *)
Theorem forgetPassword_stores_before_mailing
        (P : Platform) (now code : Z) (req : Req) (w : World) (v : string) :
  str_field (body req) "emailOrMobile" = Some v ->
  (account_of P v w = None ->
     dispatch [forgetPassword P now code] req w
     = ({| status := 400;
           json := [("message", JText "Incorrect email or mobile number")] |}, w))
  /\ (forall u,
        unique_ids w -> account_of P v w = Some u ->
        exists r w',
          dispatch [forgetPassword P now code] req w = (r, w')
          /\ account_of P v w'
             = Some (set_otp (Value (to_string code))
                             (Value (now + 10 * 60 * 1000)) u)
          /\ (sendMail P (User.recoveryEmail u) (to_string code) = false ->
                status r = 500 /\ outbox w' = outbox w)
          /\ (sendMail P (User.recoveryEmail u) (to_string code) = true ->
                status r = 201
                /\ outbox w'
                   = (outbox w ++ [(User.recoveryEmail u, to_string code)])%list)).
Proof.
  unfold account_of. intros Hv. split.
  - intros Hnone. cbn [dispatch].
    unfold forgetPassword, forgetPassword_body. run. rewrite Hv, Hnone.
    reflexivity.
  - intros u Hnd Hu.
    assert (Hf : findOne (fun u0 => matches_lower (toLowerCase P) (Some v)
                                                  (User.email u0)
                                    || matches (Some v) (User.mobileNumber u0))
                   (updateById User._id (User._id u)
                      (set_otp (Value (to_string code))
                               (Value (now + 10 * 60 * 1000))) (users w))
                 = Some (set_otp (Value (to_string code))
                                 (Value (now + 10 * 60 * 1000)) u)).
    { apply find_updateById; [exact Hnd | exact Hu | reflexivity]. }
    cbn [dispatch]. unfold forgetPassword, forgetPassword_body. run.
    rewrite Hv, Hu.
    destruct (sendMail P (User.recoveryEmail u) (to_string code)); cbn;
      eexists; eexists; (split; [reflexivity|]);
      cbn [users with_users with_outbox outbox];
      (split; [exact Hf|]); split; intros; try discriminate; split; reflexivity.
Qed.

Lemma forgetPassword_witness :
  dispatch [forgetPassword Ref.platform 0 123456] Cases4.unknown_forget_req
           Sample.world
  = ({| status := 400;
        json := [("message", JText "Incorrect email or mobile number")] |},
     Sample.world)
  /\ exists r w',
       dispatch [forgetPassword Cases4.no_mail 0 123456]
                Cases4.forget_req_capitals Sample.world = (r, w')
       /\ status r = 500
       /\ option_map User.otp (account_of Cases4.no_mail "ALICE@MAIL.COM" w')
          = Some (Value "123456").
Proof.
  assert (Hnd : unique_ids Sample.world).
  { unfold unique_ids. cbn.
    repeat (constructor; [cbn; intuition discriminate|]). constructor. }
  split.
  - apply (proj1 (forgetPassword_stores_before_mailing Ref.platform 0 123456
                    Cases4.unknown_forget_req Sample.world "nobody@mail.com"
                    eq_refl)). reflexivity.
  - destruct (proj2 (forgetPassword_stores_before_mailing Cases4.no_mail
                       0 123456 Cases4.forget_req_capitals Sample.world
                       "ALICE@MAIL.COM" eq_refl)
                    Sample.alice Hnd eq_refl)
      as (r & w' & Hrun & Hacc & Hfail & _).
    exists r, w'. split; [exact Hrun|]. split; [apply Hfail; reflexivity|].
    rewrite Hacc. reflexivity.
Defined.

(** X12. A second OTP replaces the first: after two dispatched
    [forgetPassword] calls for one login that drew different codes, the
    first code is refused with 400 "Invalid email or OTP" at any time,
    even within its own ten minutes, and the refusal writes nothing. *)
Theorem second_otp_invalidates_first
        (P : Platform) (t1 t2 c1 c2 now : Z) (req1 req2 req_v : Req)
        (w w1 w2 : World) (r1 r2 : Response) (v : string) :
  unique_ids w ->
  str_field (body req1) "emailOrMobile" = Some v ->
  str_field (body req2) "emailOrMobile" = Some v ->
  forgetPassword P t1 c1 req1 w = (Sent r1, w1) ->
  forgetPassword P t2 c2 req2 w1 = (Sent r2, w2) ->
  c1 <> c2 ->
  str_field (body req_v) "emailOrMobile" = Some v ->
  str_field (body req_v) "otp" = Some (to_string c1) ->
  dispatch [verifyOTPAndSetNewPassword P now] req_v w2
  = ({| status := 400; json := [("message", JText "Invalid email or OTP")] |}, w2).
Proof.
  intros Hnd Hv1 Hv2 Hs1 Hs2 Hne Hvv Hotp.
  destruct (forgetPassword_sent _ _ _ _ _ _ _ _ Hv1 Hs1) as (u & Hu & Hw1).
  destruct (forgetPassword_sent _ _ _ _ _ _ _ _ Hv2 Hs2) as (u1 & Hu1 & Hw2).
  assert (Hnd1 : unique_ids w1).
  { unfold unique_ids. rewrite Hw1.
    apply unique_ids_updateById; [reflexivity | exact Hnd]. }
  assert (Hf : account_of P v w2
               = Some (set_otp (Value (to_string c2))
                               (Value (t2 + 10 * 60 * 1000)) u1)).
  { unfold account_of in *. rewrite Hw2.
    apply find_updateById; [exact Hnd1 | exact Hu1 | reflexivity]. }
  unfold account_of in Hf. cbn [dispatch].
  unfold verifyOTPAndSetNewPassword, verifyOTPAndSetNewPassword_body. run.
  rewrite Hvv, Hotp, Hf. cbn.
  assert (E : String.eqb (to_string c2) (to_string c1) = false).
  { apply String.eqb_neq. intros H. apply to_string_inj in H. congruence. }
  rewrite E. reflexivity.
Qed.

Lemma second_otp_witness :
  dispatch [verifyOTPAndSetNewPassword Ref.platform 2000] Sample.verify_req
           Cases4.world_with_second_otp
  = ({| status := 400; json := [("message", JText "Invalid email or OTP")] |},
     Cases4.world_with_second_otp).
Proof.
  assert (Hnd : unique_ids Sample.world).
  { unfold unique_ids. cbn.
    repeat (constructor; [cbn; intuition discriminate|]). constructor. }
  apply (second_otp_invalidates_first Ref.platform 0 1000 123456 654321 2000
           Sample.forget_req Sample.forget_req Sample.verify_req
           Sample.world Sample.world_with_otp Cases4.world_with_second_otp
           {| status := 201;
              json := [("message", JText "OTP has been sent successfully")] |}
           {| status := 201;
              json := [("message", JText "OTP has been sent successfully")] |}
           "alice@mail.com" Hnd eq_refl eq_refl);
    [vm_compute; reflexivity | vm_compute; reflexivity | discriminate
     | reflexivity | reflexivity].
Defined.

(** What a successful reset has written. *)
Lemma verifyOTP_sent (P : Platform) (now : Z) (req : Req) (w w' : World)
      (r : Response) (v : string) :
  str_field (body req) "emailOrMobile" = Some v ->
  verifyOTPAndSetNewPassword P now req w = (Sent r, w') ->
  exists u h,
    account_of P v w = Some u
    /\ users w' = updateById User._id (User._id u)
                    (set_password_clear_otp h) (users w).
Proof.
  unfold account_of, verifyOTPAndSetNewPassword,
    verifyOTPAndSetNewPassword_body, hash. intros Hv. run. rewrite Hv.
  destruct (findOne _ (users w)) as [u|]; [|discriminate].
  destruct (otp_differs _ _); cbn; [discriminate|].
  destruct (after now _); cbn; [discriminate|].
  destruct (str_field (body req) "newPassword") as [pw|]; cbn; [|discriminate].
  intros H. injection H as _ <-. exists u, (hashSync P pw 8). split; reflexivity.
Qed.

(** X13. Without a pending OTP there is no reset: for an account whose
    [otp] was never set or is null, a request that submits any OTP string
    is refused with 400 "Invalid email or OTP" and writes nothing.  In
    particular an OTP is single use: after a successful
    verifyOTPAndSetNewPassword, every further call for that login that
    submits an OTP string is refused, whatever the code and the time. *)
Theorem otp_is_single_use (P : Platform) (now' : Z) (req' : Req) (v code : string) :
  str_field (body req') "emailOrMobile" = Some v ->
  str_field (body req') "otp" = Some code ->
  (forall w u,
     account_of P v w = Some u ->
     User.otp u = Unset \/ User.otp u = Null ->
     dispatch [verifyOTPAndSetNewPassword P now'] req' w
     = ({| status := 400; json := [("message", JText "Invalid email or OTP")] |}, w))
  /\ (forall now req w w2 r,
        unique_ids w ->
        str_field (body req) "emailOrMobile" = Some v ->
        verifyOTPAndSetNewPassword P now req w = (Sent r, w2) ->
        dispatch [verifyOTPAndSetNewPassword P now'] req' w2
        = ({| status := 400;
              json := [("message", JText "Invalid email or OTP")] |}, w2)).
Proof.
  intros Hv Hotp.
  assert (Hno : forall w u,
     account_of P v w = Some u ->
     User.otp u = Unset \/ User.otp u = Null ->
     dispatch [verifyOTPAndSetNewPassword P now'] req' w
     = ({| status := 400; json := [("message", JText "Invalid email or OTP")] |}, w)).
  { unfold account_of. intros w u Hu Hnull. cbn [dispatch].
    unfold verifyOTPAndSetNewPassword, verifyOTPAndSetNewPassword_body. run.
    rewrite Hv, Hotp, Hu. destruct Hnull as [-> | ->]; reflexivity. }
  split; [exact Hno|].
  intros now req w w2 r Hnd Hvr Hrun.
  destruct (verifyOTP_sent _ _ _ _ _ _ _ Hvr Hrun) as (u & h & Hu & Hw2).
  apply (Hno w2 (set_password_clear_otp h u)); [|right; reflexivity].
  unfold account_of in *. rewrite Hw2.
  apply find_updateById; [exact Hnd | exact Hu | reflexivity].
Qed.

Lemma otp_is_single_use_witness :
  dispatch [verifyOTPAndSetNewPassword Ref.platform 2] Sample.verify_req
           Cases4.world_after_reset
  = ({| status := 400; json := [("message", JText "Invalid email or OTP")] |},
     Cases4.world_after_reset).
Proof.
  assert (Hnd : unique_ids Sample.world_with_otp).
  { unfold unique_ids. cbn.
    repeat (constructor; [cbn; intuition discriminate|]). constructor. }
  apply (proj2 (otp_is_single_use Ref.platform 2 Sample.verify_req
                  "alice@mail.com" "123456" eq_refl eq_refl)
               1 Sample.verify_req Sample.world_with_otp
               Cases4.world_after_reset
               {| status := 200;
                  json := [("message", JText "Password updated successfully")] |}
               Hnd eq_refl).
  vm_compute. reflexivity.
Defined.

(* ------------------------------------------------------------------ *)
(** ** Application submission, further *)

(** X14. The order of the failures of [applyToJob].  When either skill
    list fails to decode the answer is 500, whatever the job id and
    whether a resume is attached.  When both decode and the job id cannot
    be cast to ObjectId, the lookup throws and the answer is 500.  When
    both decode and the job id is absent, or is a string that can be cast
    and that no job has, the answer is 404 "Job not found", resume or
    not.  When both
    decode, the job exists and the upload of the attached resume is
    rejected, the answer is 500.  In all four cases nothing is written:
    no Application is stored and the buffered file stays. *)
Theorem applyToJob_failures (P : Platform) (req : Req) (w : World) :
  (decoded P req "userTechSkills" = None
   \/ decoded P req "userSoftSkills" = None ->
     status (fst (dispatch [applyToJob P] req w)) = 500
     /\ snd (dispatch [applyToJob P] req w) = w)
  /\ (forall vt vs i,
        decoded P req "userTechSkills" = Some vt ->
        decoded P req "userSoftSkills" = Some vs ->
        str_field (body req) "jobId" = Some i ->
        castObjectId P i = None ->
        status (fst (dispatch [applyToJob P] req w)) = 500
        /\ snd (dispatch [applyToJob P] req w) = w)
  /\ (forall vt vs,
        decoded P req "userTechSkills" = Some vt ->
        decoded P req "userSoftSkills" = Some vs ->
        field (body req) "jobId" = None
        \/ (exists i oid,
              field (body req) "jobId" = Some (VStr i)
              /\ castObjectId P i = Some oid
              /\ findById Job._id oid (jobs w) = None) ->
        dispatch [applyToJob P] req w
        = ({| status := 404; json := [("message", JText "Job not found")] |}, w))
  /\ (forall vt vs job f,
        decoded P req "userTechSkills" = Some vt ->
        decoded P req "userSoftSkills" = Some vs ->
        applied_job P req w = Some job ->
        file req = Some f ->
        cloudinary_upload P (path f) = None ->
        status (fst (dispatch [applyToJob P] req w)) = 500
        /\ snd (dispatch [applyToJob P] req w) = w).
Proof.
  split; [|split; [|split]].
  - intros H. destruct (applyToJob_unparsed_500 P req w H) as (e & He & E & Hs).
    split; [exact Hs|]. cbn [dispatch]. rewrite E. reflexivity.
  - intros vt vs i Ht Hs Hi Hc. unfold decoded in Ht, Hs.
    destruct (Job_findById_uncastable P i w Hc) as (e & He & Hf & _).
    cbn [dispatch]. unfold applyToJob, applyToJob_body, parse_skills. run.
    rewrite Ht, Hs, Hi, Hf. cbn. rewrite He. split; reflexivity.
  - intros vt vs Ht Hs Hj. unfold decoded in Ht, Hs.
    assert (Hf : Job_findById P (str_field (body req) "jobId") w
                 = (Return None, w)).
    { unfold str_field. destruct Hj as [Hj|(i & oid & Hj & Hc & Hnone)];
        rewrite Hj; [reflexivity|].
      rewrite (proj1 (Job_findById_castable P i oid w Hc)), Hnone.
      reflexivity. }
    cbn [dispatch]. unfold applyToJob, applyToJob_body, parse_skills. run.
    rewrite Ht, Hs, Hf. reflexivity.
  - intros vt vs job f Ht Hs Hj Hfile Hup. unfold decoded in Ht, Hs.
    pose proof (applied_job_found _ _ _ _ Hj) as Hf.
    cbn [dispatch].
    unfold applyToJob, applyToJob_body, parse_skills, uploadFileToCloudinary.
    run. rewrite Ht, Hs, Hf, Hfile, Hup. split; reflexivity.
Qed.

Lemma applyToJob_failures_witness :
  status (fst (dispatch [applyToJob Ref.platform] Sample.apply_req_unparsed
                        Sample.world)) = 500
  /\ status (fst (dispatch [applyToJob Ref.platform]
                           Cases5.apply_req_malformed_job Sample.world)) = 500
  /\ dispatch [applyToJob Ref.platform] Cases5.apply_req_missing_job Sample.world
     = ({| status := 404; json := [("message", JText "Job not found")] |},
        Sample.world)
  /\ status (fst (dispatch [applyToJob Cases5.no_upload] Sample.apply_req_resume
                           Sample.world)) = 500
  /\ snd (dispatch [applyToJob Cases5.no_upload] Sample.apply_req_resume
                   Sample.world) = Sample.world.
Proof.
  split; [|split; [|split]].
  - apply (proj1 (applyToJob_failures Ref.platform Sample.apply_req_unparsed
                    Sample.world)). left. reflexivity.
  - apply (proj1 (proj2 (applyToJob_failures Ref.platform
                           Cases5.apply_req_malformed_job Sample.world))
                 (strings ["coq"]) (strings ["teamwork"]) "zzz");
      reflexivity.
  - apply (proj1 (proj2 (proj2 (applyToJob_failures Ref.platform
                                  Cases5.apply_req_missing_job Sample.world)))
                 (strings ["coq"]) (strings ["teamwork"]));
      [reflexivity | reflexivity |].
    right. exists "65f000000000000000000404", "65f000000000000000000404".
    repeat split.
  - apply (proj2 (proj2 (proj2 (applyToJob_failures Cases5.no_upload
                                  Sample.apply_req_resume Sample.world)))
                 (strings ["coq"; "js"]) (strings ["teamwork"]) Sample.job1
                 (mkFile "uploads/cv.pdf"));
      reflexivity.
Defined.

(** X15. The gap after persistence.  When both skill lists decode to
    arrays of strings, the job exists, the resume uploads, the caller is
    authenticated under an id that is an ObjectId, and the buffered file
    is no longer in the upload directory, the answer is 500 although the
    Application has been
    stored: the store holds one more Application, the one for this job,
    applicant and asset. *)
Theorem applyToJob_stored_but_500
        (P : Platform) (req : Req) (w : World) (job : Job.t) (c : Claims)
        (uid : string) (f : File) (url : string) (techs softs : list string) :
  decoded P req "userTechSkills" = Some (strings techs) ->
  decoded P req "userSoftSkills" = Some (strings softs) ->
  applied_job P req w = Some job ->
  file req = Some f ->
  cloudinary_upload P (path f) = Some url -> url <> "" ->
  authenticated c req -> castObjectId P (id (sub c)) = Some uid ->
  existsb (String.eqb (path f)) (local_files w) = false ->
  status (fst (dispatch [applyToJob P] req w)) = 500
  /\ applications (snd (dispatch [applyToJob P] req w))
     = (applications w ++ [submitted P w job uid techs softs url])%list.
Proof.
  unfold decoded, authenticated.
  intros Ht Hs Hj Hf Hup Hurl Hc Hid Hlocal. cbn [dispatch].
  pose proof (applied_job_found _ _ _ _ Hj) as Hfind.
  unfold applyToJob, applyToJob_body, parse_skills, uploadFileToCloudinary,
    unlinkSync, fresh_id, Application_save. run.
  rewrite Ht, Hs, Hfind, Hf, Hup, Hc. cbn -[stored_skills strings].
  rewrite Hid, !stored_skills_strings.
  apply String.eqb_neq in Hurl. rewrite Hurl. cbn. rewrite Hlocal.
  split; reflexivity.
Qed.

Lemma applyToJob_stored_but_500_witness :
  status (fst (dispatch [applyToJob Ref.platform] Sample.apply_req_lost_resume
                        Sample.world)) = 500
  /\ applications (snd (dispatch [applyToJob Ref.platform]
                                 Sample.apply_req_lost_resume Sample.world))
     = [Application.mk (ObjectId Ref.platform 0) (Job._id Sample.job1)
          (User._id Sample.alice) ["coq"; "js"] ["teamwork"]
          "https://res.cloudinary.com/uploads/gone.pdf"].
Proof.
  apply (applyToJob_stored_but_500 Ref.platform Sample.apply_req_lost_resume
           Sample.world Sample.job1 (Sample.claims_of Sample.alice)
           (User._id Sample.alice)
           (mkFile "uploads/gone.pdf")
           "https://res.cloudinary.com/uploads/gone.pdf"
           ["coq"; "js"] ["teamwork"]); try reflexivity.
  discriminate.
Defined.



(* ------------------------------------------------------------------ *)
(** ** Jobs, further *)

Lemma job_lookup_by_id (P : Platform) (req : Req) (w : World) (j : Job.t) :
  job_lookup P req w = Some j ->
  cast_id P (str_field (params req) "id") = Some (Job._id j)
  /\ findById Job._id (Job._id j) (jobs w) = Some j.
Proof.
  intros H. pose proof (job_lookup_key _ _ _ _ H) as Hk.
  split; [exact Hk|]. unfold job_lookup in H. now rewrite Hk in H.
Qed.

(** X17. [deleteJob] by the owner answers 200 with the deleted job and
    removes nothing else: the applications to the job stay in the store,
    and users and companies are untouched.  With unique job ids the id
    then resolves to nothing: the same request again, updateJob and the
    listing of its applications all answer 404 "Job not found". *)
Theorem deleteJob_does_not_cascade (P : Platform) (req : Req) (w : World)
        (j : Job.t) (c : Claims) :
  unique_job_ids w ->
  job_lookup P req w = Some j ->
  authenticated c req ->
  Job.addedBy j = id (sub c) ->
  exists w',
    deleteJob P req w
    = (Sent {| status := 200;
               json := [("message", JText "Job data deleted successfully");
                        ("job", JJob j)] |}, w')
    /\ applications w' = applications w
    /\ users w' = users w /\ companies w' = companies w
    /\ job_lookup P req w' = None
    /\ deleteJob P req w'
       = (NextErr (AppError (MsgText "Job not found") 404), w')
    /\ updateJob P req w'
       = (NextErr (AppError (MsgText "Job not found") 404), w')
    /\ getAllApplicationsForSpecificJob P req w'
       = (NextErr (AppError (MsgText "Job not found") 404), w').
Proof.
  unfold unique_job_ids, authenticated. intros Hnd Hj Hc Hown.
  destruct (job_lookup_by_id _ _ _ _ Hj) as [Hid Hby].
  set (w1 := with_jobs (deleteById Job._id (Job._id j) (jobs w)) w).
  exists w1.
  assert (Hnone : findById Job._id (Job._id j) (jobs w1) = None)
    by exact (findById_deleteById_same Job._id (Job._id j) (jobs w) Hnd).
  assert (Hgone : job_lookup P req w1 = None).
  { unfold job_lookup. rewrite Hid. exact Hnone. }
  destruct (Job_findById_cast P _ w1 _ Hid) as [Hf1 Hfo1].
  rewrite Hnone in Hf1, Hfo1.
  split.
  { unfold deleteJob, deleteJob_body. run.
    rewrite (proj2 (job_lookup_found _ _ _ _ Hj)), Hc. cbn.
    rewrite Hown, String.eqb_refl. cbn. rewrite Hby. reflexivity. }
  split; [reflexivity|]. split; [reflexivity|]. split; [reflexivity|].
  split; [exact Hgone|].
  repeat split;
    unfold deleteJob, deleteJob_body, updateJob, updateJob_body,
      getAllApplicationsForSpecificJob, getAllApplicationsForSpecificJob_body;
    run; rewrite ?Hf1, ?Hfo1; reflexivity.
Qed.

Lemma deleteJob_witness :
  exists w',
    deleteJob Ref.platform
              (Cases5.hana_job_req "/job/deleteJob/65f000000000000000000001")
              Cases5.world_with_applications
    = (Sent {| status := 200;
               json := [("message", JText "Job data deleted successfully");
                        ("job", JJob Sample.job1)] |}, w')
    /\ applications w' = applications Cases5.world_with_applications
    /\ deleteJob Ref.platform
         (Cases5.hana_job_req "/job/deleteJob/65f000000000000000000001") w'
       = (NextErr (AppError (MsgText "Job not found") 404), w').
Proof.
  assert (Hnd : unique_job_ids Cases5.world_with_applications).
  { unfold unique_job_ids. cbn. repeat constructor. intros []. }
  destruct (deleteJob_does_not_cascade Ref.platform
              (Cases5.hana_job_req "/job/deleteJob/65f000000000000000000001")
              Cases5.world_with_applications Sample.job1
              (Sample.claims_of Sample.hana) Hnd eq_refl eq_refl eq_refl)
    as (w' & Hrun & Happs & _ & _ & _ & Hagain & _).
  exists w'. repeat split; assumption.
Defined.

(** X18. [updateJob] by the owner answers 200 with the stored job, which
    keeps its id and its owner: an update cannot hand a job to another
    account.  No other job is touched, and users, companies and
    applications are as they were. *)
Theorem updateJob_keeps_owner (P : Platform) (req : Req) (w : World)
        (j : Job.t) (c : Claims) :
  job_lookup P req w = Some j ->
  authenticated c req ->
  Job.addedBy j = id (sub c) ->
  exists w' j',
    updateJob P req w
    = (Sent {| status := 200;
               json := [("message", JText "Job data updated successfully");
                        ("job", JJob j')] |}, w')
    /\ findById Job._id (Job._id j) (jobs w') = Some j'
    /\ Job._id j' = Job._id j /\ Job.addedBy j' = Job.addedBy j
    /\ (forall i, i <> Job._id j ->
          findById Job._id i (jobs w') = findById Job._id i (jobs w))
    /\ users w' = users w /\ companies w' = companies w
    /\ applications w' = applications w.
Proof.
  unfold authenticated. intros Hj Hc Hown.
  destruct (job_lookup_by_id _ _ _ _ Hj) as [Hid Hby].
  set (f := apply_job_updates (body req) (id (sub c))).
  exists (with_jobs (updateById Job._id (Job._id j) f (jobs w)) w), (f j).
  assert (Hf : findById Job._id (Job._id j)
                 (updateById Job._id (Job._id j) f (jobs w)) = Some (f j)).
  { rewrite findById_updateById_same, Hby; reflexivity. }
  split.
  { unfold updateJob, updateJob_body. run.
    rewrite (proj2 (job_lookup_found _ _ _ _ Hj)), Hc. cbn.
    rewrite Hown, String.eqb_refl. cbn.
    unfold findById in Hf. fold f. rewrite Hf. reflexivity. }
  cbn [jobs users companies applications with_jobs].
  split; [exact Hf|]. split; [reflexivity|]. split; [cbn; congruence|].
  split; [|repeat split].
  intros i Hi. apply findById_updateById_other; [congruence|reflexivity].
Qed.

Lemma updateJob_keeps_owner_witness :
  exists w' j',
    updateJob Ref.platform Cases5.hana_update_req Sample.world
    = (Sent {| status := 200;
               json := [("message", JText "Job data updated successfully");
                        ("job", JJob j')] |}, w')
    /\ Job.addedBy j' = User._id Sample.hana /\ Job._id j' = Job._id Sample.job1.
Proof.
  destruct (updateJob_keeps_owner Ref.platform Cases5.hana_update_req
              Sample.world
              Sample.job1 (Sample.claims_of Sample.hana)
              eq_refl eq_refl eq_refl)
    as (w' & j' & Hrun & _ & Hid & Hown & _).
  exists w', j'. repeat split; assumption.
Defined.

(* ------------------------------------------------------------------ *)
(** ** Companies *)




(** X20. [deleteCompanyData] looks the company up by the caller's id:
    a caller who is the HR of no company gets 403 "Only the company
    owner can delete the data", never 404, and nothing is written.  A
    caller who is gets 200 with the first company whose [companyHR] is
    the caller; with unique company ids that company is gone afterwards,
    every other company is as it was, and so are users, jobs and
    applications: the jobs the HR added are not removed with the
    company. *)
Theorem deleteCompanyData_cases (req : Req) (w : World) (c : Claims) :
  authenticated c req ->
  (company_of (id (sub c)) w = None ->
     deleteCompanyData req w
     = (NextErr (AppError (MsgText
          "Only the company owner can delete the data") 403), w))
  /\ (forall co,
        unique_company_ids w ->
        company_of (id (sub c)) w = Some co ->
        exists w',
          deleteCompanyData req w
          = (Sent {| status := 200;
                     json := [("message",
                               JText "Company data deleted successfully");
                              ("company", JCompany co)] |}, w')
          /\ findById Company._id (Company._id co) (companies w') = None
          /\ (forall i, i <> Company._id co ->
                findById Company._id i (companies w')
                = findById Company._id i (companies w))
          /\ users w' = users w /\ jobs w' = jobs w
          /\ applications w' = applications w).
Proof.
  unfold authenticated, company_of, unique_company_ids. intros Hc. split.
  - intros Hnone. unfold deleteCompanyData, deleteCompanyData_body. run.
    rewrite Hc. unfold ret. rewrite Hnone. reflexivity.
  - intros co Hnd Hco.
    pose proof (find_then_findById Company._id _ _ _ Hnd Hco) as Hby.
    exists (with_companies
              (deleteById Company._id (Company._id co) (companies w)) w).
    split.
    { unfold deleteCompanyData, deleteCompanyData_body. run.
      rewrite Hc. unfold ret. rewrite Hco. cbn. rewrite Hby. reflexivity. }
    cbn [companies users jobs applications with_companies].
    split; [apply findById_deleteById_same; exact Hnd|].
    split; [|repeat split].
    intros i Hi. apply findById_deleteById_other. congruence.
Qed.

Lemma deleteCompanyData_witness :
  deleteCompanyData (Cases.as_alice "/company/deleteCompanyData") Sample.world
  = (NextErr (AppError (MsgText
       "Only the company owner can delete the data") 403), Sample.world)
  /\ exists w',
       deleteCompanyData (Cases.as_hana "/company/deleteCompanyData")
                         Sample.world
       = (Sent {| status := 200;
                  json := [("message", JText "Company data deleted successfully");
                           ("company", JCompany Sample.acme)] |}, w')
       /\ jobs w' = [Sample.job1].
Proof.
  split.
  - apply (proj1 (deleteCompanyData_cases
                    (Cases.as_alice "/company/deleteCompanyData") Sample.world
                    (Sample.claims_of Sample.alice) eq_refl)). reflexivity.
  - assert (Hnd : unique_company_ids Sample.world).
    { unfold unique_company_ids. cbn.
      repeat (constructor; [cbn; intuition discriminate|]). constructor. }
    destruct (proj2 (deleteCompanyData_cases
                       (Cases.as_hana "/company/deleteCompanyData")
                       Sample.world (Sample.claims_of Sample.hana) eq_refl)
                    Sample.acme Hnd eq_refl)
      as (w' & Hrun & _ & _ & _ & Hjobs & _).
    exists w'. split; [exact Hrun|exact Hjobs].
Defined.



(* ------------------------------------------------------------------ *)
(** ** The middlewares, further *)


(** X23. On the routes reserved to Company_HR the role is checked before
    anything is looked up: a caller with a valid token whose role is User
    gets 403 "Not enough privileges" from deleteJob, updateJob and the
    listing of applications whether the job exists or not, and nothing is
    written.  The 404 of a missing job is only ever seen by a
    Company_HR. *)
Theorem hr_routes_refuse_users_first
        (P : Platform) (now : Z) (req : Req) (w : World) (tok : string)
        (i : Identity) (t e : Z) :
  token req = Some tok -> tok <> "" ->
  jwt_verify P tok "secret" (now / 1000) = Some (i, t, e) ->
  role i = User_role ->
  dispatch (route_deleteJob P now) req w
  = ({| status := 403; json := [("message", JText "Not enough privileges")] |}, w)
  /\ dispatch (route_updateJob P now) req w
     = ({| status := 403; json := [("message", JText "Not enough privileges")] |}, w)
  /\ dispatch (route_getAllApplicationsForSpecificJob P now) req w
     = ({| status := 403; json := [("message", JText "Not enough privileges")] |}, w).
Proof.
  intros Ht Hne Hv Hr.
  unfold route_deleteJob, route_updateJob, route_getAllApplicationsForSpecificJob.
  cbn [dispatch]. rewrite (auth_on_token _ _ _ _ _ _ Ht Hne), Hv.
  cbn [role_mismatch decoded_claims sub]. rewrite Hr. repeat split.
Qed.

Lemma hr_routes_refuse_users_witness :
  job_lookup Ref.platform Cases7.alice_on_hr_route Sample.world = None
  /\ dispatch (route_deleteJob Ref.platform 1001000) Cases7.alice_on_hr_route
              Sample.world
     = ({| status := 403; json := [("message", JText "Not enough privileges")] |},
        Sample.world).
Proof.
  split; [reflexivity|].
  apply (hr_routes_refuse_users_first Ref.platform 1001000
           Cases7.alice_on_hr_route Sample.world Sample.alice_literal_token
           (identity_of Sample.alice) 1000 4600);
    [reflexivity | discriminate | vm_compute; reflexivity | reflexivity].
Defined.

(** X24. [validate] never writes to the store and never answers with
    anything but 400 and a list of messages: it either passes the request
    on as it is or fails that way.  Its verdict depends on the targeted
    section alone: two requests with the same section are both passed or
    both refused with the same error, whatever their other sections hold;
    and with no target given the section is the body. *)
Theorem validate_looks_at_one_section
        (P : Platform) (schema : ObjectSchema) (target : option Target)
        (req1 req2 : Req) (w : World) :
  snd (validate P schema target req1 w) = w
  /\ (fst (validate P schema target req1 w) = Next req1
      \/ exists l, fst (validate P schema target req1 w)
                   = NextErr (AppError (MsgList l) 400))
  /\ (req_property req1 (target_key target) = req_property req2 (target_key target) ->
      (fst (validate P schema target req1 w) = Next req1
       /\ fst (validate P schema target req2 w) = Next req2)
      \/ exists e, fst (validate P schema target req1 w) = NextErr e
                   /\ fst (validate P schema target req2 w) = NextErr e)
  /\ validate P schema None req1 w = validate P schema (Some (Key "body")) req1 w.
Proof.
  unfold validate, validate_body. run.
  split; [|split; [|split]].
  - destruct (joi_validate P schema _ false); reflexivity.
  - destruct (joi_validate P schema _ false); cbn; [right|left]; eauto.
  - intros <-. destruct (joi_validate P schema _ false); cbn; [right|left]; eauto.
  - reflexivity.
Qed.

Lemma validate_looks_at_one_section_witness :
  exists e,
    fst (validate Ref.platform signInSchema None Cases7.signin_without_password
                  Sample.world) = NextErr e
    /\ fst (validate Ref.platform signInSchema None
                     Cases7.signin_without_password_q Sample.world) = NextErr e
    /\ statusCode e = Some 400.
Proof.
  destruct (proj1 (proj2 (proj2 (validate_looks_at_one_section Ref.platform
              signInSchema None Cases7.signin_without_password
              Cases7.signin_without_password_q Sample.world))) eq_refl)
    as [[H _] | (e & H1 & H2)].
  - vm_compute in H. discriminate.
  - exists e. split; [exact H1|]. split; [exact H2|].
    vm_compute in H1. injection H1 as <-. reflexivity.
Defined.

(* ------------------------------------------------------------------ *)
(** ** index.js: requests no route answers *)

(** X25. A request that every layer on its way passes on unchanged, and
    so a request for which no layer is mounted at all, is answered by the
    catch-all of index.js through the error handler: status 404 and the
    body { message: "<originalUrl> not found" }, with nothing written by
    the catch-all itself. *)
Theorem unanswered_request_is_404 (chain : list Layer) (req : Req) (w : World) :
  Forall (fun l : Layer => l req w = (Next req, w)) chain ->
  dispatch chain req w
  = ({| status := 404;
        json := [("message", JText (originalUrl req ++ " not found"))] |}, w).
Proof.
  intros H. induction H as [|l chain Hl _ IH]; [reflexivity|].
  cbn [dispatch]. rewrite Hl. exact IH.
Qed.

Lemma unanswered_request_witness :
  dispatch [validate Ref.platform signInSchema None] Sample.signin_req
           Sample.world
  = ({| status := 404; json := [("message", JText "/user/SignIn not found")] |},
     Sample.world).
Proof.
  apply (unanswered_request_is_404
           [validate Ref.platform signInSchema None] Sample.signin_req
           Sample.world).
  repeat constructor.
Defined.
